(** * Split-table batched embedding bags: request generator, data
      generator, configuration iterator and operator wrapper.

    A shallow embedding of
    [train/compute/python/workloads/pytorch/split_table_batched_embedding_bags.py]
    together with the properties of its input generation.

    Conventions.
    - Python integers are [Z]; int64 tensor elements are [Z] as well: every
      element the module itself computes (an [arange] entry, a remainder, a
      running offset) is bounded by the number of elements of a tensor that
      has been allocated, so no 64-bit wrap-around can take place.
    - A one-dimensional tensor is the list of its elements.
    - Python floats are [pyfloat]: not-a-number, the two infinities, or an
      exact rational (every finite double is one, and IEEE comparison of
      finite doubles is comparison of their values).
    - Dictionaries with string keys ([config["args"][i]], the process
      environment, the files on disk) are [gmap string _].
    - Exceptions, the random source and the record of library calls are
      threaded through the monad [M]. *)

From Stdlib Require Import ZArith QArith Lia Lqa Ascii String.
From stdpp Require Import base option list sorting strings pretty gmap.

Local Open Scope Z_scope.
Set Warnings "-register-all".

(** ** Python values *)

Inductive pyfloat :=
| FNaN
| FInf (negative : bool)
| FFin (q : Q).

(** IEEE comparisons, as Python's [==], [<=] and [<] on floats. *)
Definition float_eqb (a b : pyfloat) : bool :=
  match a, b with
  | FFin q, FFin r => Qeq_bool q r
  | FInf s, FInf t => Bool.eqb s t
  | _, _ => false
  end.

Definition float_leb (a b : pyfloat) : bool :=
  match a, b with
  | FNaN, _ | _, FNaN => false
  | FInf true, _ => true
  | _, FInf false => true
  | FInf false, _ => false
  | _, FInf true => false
  | FFin q, FFin r => Qle_bool q r
  end.

Definition float_ltb (a b : pyfloat) : bool :=
  float_leb a b && negb (float_eqb a b).

Definition f_zero : pyfloat := FFin 0%Q.
Definition f_half : pyfloat := FFin (1 # 2)%Q.
Definition f_one : pyfloat := FFin 1%Q.

(** JSON-like values found in a configuration. *)
Inductive pyval :=
| VNone
| VBool (b : bool)
| VInt (n : Z)
| VStr (s : string)
| VList (items : list pyval)
| VDict (entries : list (string * pyval))
| VRange (start stop step : Z)          (* a [range] object *)
| VIterableList (items : list pyval).   (* an [IterableList] object *)

(** Python truthiness ([if x:]). *)
Definition truthy (v : pyval) : bool :=
  match v with
  | VNone => false
  | VBool b => b
  | VInt n => negb (n =? 0)
  | VStr s => negb (String.eqb s EmptyString)
  | VList items => match items with [] => false | _ => true end
  | VDict entries => match entries with [] => false | _ => true end
  | VRange start stop step =>
      if 0 <? step then start <? stop else stop <? start
  | VIterableList _ => true
  end.

(** [x is not None]. *)
Definition is_not_None (v : pyval) : bool :=
  match v with VNone => false | _ => true end.

(** One entry of [config["args"]]: a dictionary. *)
Abbreviation arg := (gmap string pyval).

(** ** Exceptions and results *)

Inductive exn :=
| IndexError
| KeyError (key : string)
| TypeError
| ValueError (msg : string)
| RuntimeError (msg : string)
| AttributeError (msg : string)
| FileNotFoundError (path : string).

Inductive res (A : Type) :=
| Ok (a : A)
| Raise (e : exn).
Arguments Ok {A} a.
Arguments Raise {A} e.

Definition raised {A} (r : res A) : bool :=
  match r with Raise _ => true | Ok _ => false end.

#[global] Instance res_ret : MRet res := @Ok.
#[global] Instance res_bind : MBind res := λ A B k r,
  match r with
  | Ok a => k a
  | Raise e => Raise e
  end.

(** ** Tensors *)

Inductive tensor :=
| LongTensor (data : list Z)
| FloatTensor (data : list pyfloat).

Definition numel (t : tensor) : nat :=
  match t with
  | LongTensor d => length d
  | FloatTensor d => length d
  end.

(** ** The libraries the module calls

    The random generators of torch and numpy, Python's [float] on a string,
    [torch.device] and [genericList_to_list] of the benchmark library are
    not part of the module. They are taken through this interface, with the
    part of their documented contract the module relies on. *)
Class Runtime := {
  (** state of the process-wide random sources *)
  rng : Type;
  (** [torch.randint(low, high, (size,))] for [low < high] *)
  randint : Z → Z → nat → rng → list Z * rng;
  (** [numpy.random.zipf(a, size)] for [a > 1] *)
  zipf : pyfloat → nat → rng → list Z * rng;
  (** [torch.randn(size, dtype=float32)] *)
  randn : nat → rng → list pyfloat * rng;
  (** [float(s)] on a string; [None] is [ValueError] *)
  float_of_string : string → option pyfloat;
  (** whether [torch.device(s)] accepts the string *)
  device_ok : string → bool;
  (** [genericList_to_list(arg)] *)
  genericList_to_list : arg → res (list pyval);

  randint_length : ∀ low high n g, length (randint low high n g).1 = n;
  randint_range : ∀ low high n g x,
    low < high → x ∈ (randint low high n g).1 → low ≤ x < high;
  zipf_length : ∀ a n g, length (zipf a n g).1 = n;
  zipf_positive : ∀ a n g x, x ∈ (zipf a n g).1 → 1 ≤ x;
  randn_length : ∀ n g, length (randn n g).1 = n;
}.

(** ** Effects *)

(** Calls that leave a trace: entering [generate_requests], the draws from
    the random sources, and [torch.load]. *)
Inductive event :=
| Call_generate_requests (B L E offset_start : Z) (alpha : pyfloat) (weighted : bool)
| Draw_randint (low high : Z) (size : nat)
| Draw_zipf (a : pyfloat) (size : nat)
| Draw_randn (size : nat)
| Load (path : string).

(** The state a call runs in: the random sources, of type [G], and the calls
    made so far. *)
Record world_of (G : Type) := World {
  w_rng : G;
  w_log : list event;   (* oldest first *)
}.
Arguments World {G} w_rng w_log.
Arguments w_rng {G} w.
Arguments w_log {G} w.

Section Module.
Context `{RT : Runtime}.

Abbreviation world := (world_of rng).

Definition M (A : Type) : Type := world → res A * world.

Definition ret {A} (a : A) : M A := λ w, (Ok a, w).
Definition raise {A} (e : exn) : M A := λ w, (Raise e, w).
Definition bind {A B} (k : A → M B) (m : M A) : M B :=
  λ w, match m w with
       | (Ok a, w') => k a w'
       | (Raise e, w') => (Raise e, w')
       end.
#[local] Instance M_ret : MRet M := @ret.
#[local] Instance M_bind : MBind M := @bind.
Definition lift {A} (r : res A) : M A := λ w, (r, w).
Definition emit (e : event) : M unit :=
  λ w, (Ok tt, World (w_rng w) (w_log w ++ [e])).
Definition draw {A} (f : rng → A * rng) : M A :=
  λ w, let '(a, g) := f (w_rng w) in (Ok a, World g (w_log w)).

(** ** torch and numpy primitives *)

(** [torch.arange(0, n).long()] *)
Definition arange (n : Z) : M (list Z) :=
  if n <? 0
  then raise (RuntimeError "upper bound and larger bound inconsistent with step sign")
  else ret (Z.of_nat <$> seq 0 (Z.to_nat n)).

(** [t % d] on an int64 tensor: the remainder takes the sign of the divisor,
    and a zero divisor is an error as soon as there is an element. *)
Definition tensor_rem (t : list Z) (d : Z) : M (list Z) :=
  match t with
  | [] => ret []
  | _ => if d =? 0 then raise (RuntimeError "ZeroDivisionError")
         else ret ((λ x, x mod d) <$> t)
  end.

Definition torch_randint (low high size : Z) : M (list Z) :=
  if size <? 0 then raise (RuntimeError "negative dimension")
  else if high <=? low then raise (RuntimeError "random_ expects 'from' to be less than 'to'")
  else emit (Draw_randint low high (Z.to_nat size)) ;;
       draw (randint low high (Z.to_nat size)).

Definition np_random_zipf (a : pyfloat) (size : Z) : M (list Z) :=
  if negb (float_ltb f_one a) then raise (ValueError "a must be > 1")
  else if size <? 0 then raise (ValueError "negative dimensions are not allowed")
  else emit (Draw_zipf a (Z.to_nat size)) ;;
       draw (zipf a (Z.to_nat size)).

Definition torch_randn (size : Z) : M (list pyfloat) :=
  if size <? 0 then raise (RuntimeError "negative dimension")
  else emit (Draw_randn (Z.to_nat size)) ;;
       draw (randn (Z.to_nat size)).

(** [np.ones(B, dtype=np.int64) * L] *)
Definition np_ones_times (B L : Z) : M (list Z) :=
  if B <? 0 then raise (ValueError "negative dimensions are not allowed")
  else ret (replicate (Z.to_nat B) L).

(** [np.cumsum] *)
Fixpoint cumsum_from (acc : Z) (l : list Z) : list Z :=
  match l with
  | [] => []
  | x :: l' => (acc + x) :: cumsum_from (acc + x) l'
  end.
Definition cumsum (l : list Z) : list Z := cumsum_from 0 l.

(** ** [generate_requests] *)

Definition generate_requests (B L E offset_start : Z) (alpha : pyfloat)
    (weighted : bool) : M (list Z * list Z * option (list pyfloat)) :=
  emit (Call_generate_requests B L E offset_start alpha weighted) ;;
  let indices_size := B * L in
  indices ←
    (if float_eqb alpha f_zero then
       r ← arange indices_size; tensor_rem r L
     else if float_leb alpha f_half then
       r ← arange indices_size; tensor_rem r E
     else if float_leb alpha f_one then
       torch_randint 0 E indices_size
     else
       z ← np_random_zipf alpha indices_size; tensor_rem z E);
  lengths ← np_ones_times B L;
  let offsets :=
    if offset_start =? 0 then cumsum (0 :: lengths)
    else Z.add offset_start <$> cumsum lengths in
  weights_tensor ←
    (if weighted then w ← torch_randn indices_size; ret (Some w)
     else ret None);
  ret (indices, offsets, weights_tensor).

(** ** [SplitTableBatchedEmbeddingInputDataGenerator.get_data] *)

(** [l[i]] on a list and [d[k]] on a dictionary. *)
Definition list_item {A} (l : list A) (i : nat) : res A :=
  match l !! i with
  | Some x => Ok x
  | None => Raise IndexError
  end.

Definition dict_item (d : arg) (k : string) : res pyval :=
  match d !! k with
  | Some v => Ok v
  | None => Raise (KeyError k)
  end.

(** [k in d] *)
Definition has_key (d : arg) (k : string) : bool :=
  bool_decide (is_Some (d !! k)).

(** A value used as an integer ([bool] is a subclass of [int]); anything
    else makes the first arithmetic operation or [range] raise. *)
Definition as_int (v : pyval) : res Z :=
  match v with
  | VInt n => Ok n
  | VBool b => Ok (Z.b2z b)
  | _ => Raise TypeError
  end.

(** [os.getenv(name)] *)
Definition getenv (env : gmap string string) (name : string) : pyval :=
  match env !! name with
  | Some s => VStr s
  | None => VNone
  end.

(** [float(distribution)], where [distribution] is the environment string,
    or the integer [1] when the variable is unset. *)
Definition py_float (distribution : pyval) : res pyfloat :=
  match distribution with
  | VStr s =>
      match float_of_string s with
      | Some a => Ok a
      | None => Raise (ValueError "could not convert string to float")
      end
  | VInt n => Ok (FFin (inject_Z n))
  | VBool b => Ok (FFin (inject_Z (Z.b2z b)))
  | _ => Raise TypeError
  end.

(** [torch.device(device)] *)
Definition torch_device (device : string) : res string :=
  if device_ok device then Ok device
  else Raise (RuntimeError "Invalid device string").

(** [torch.load(f, map_location=...)] *)
Definition torch_load (files : gmap string tensor) (f : pyval) : M tensor :=
  match f with
  | VStr path =>
      match files !! path with
      | Some t => emit (Load path) ;; ret t
      | None => raise (FileNotFoundError path)
      end
  | _ => raise TypeError
  end.

(** [offsets[-1].item()] *)
Definition last_item (t : list Z) : M Z :=
  match last t with
  | Some x => ret x
  | None => raise IndexError
  end.

(** [torch.cat] of one-dimensional tensors. *)
Definition torch_cat {A} (ts : list (list A)) : M (list A) :=
  match ts with
  | [] => raise (RuntimeError "torch.cat(): expected a non-empty list of Tensors")
  | _ => ret (concat ts)
  end.

(** [torch.cat] of a list whose entries may be [None]. *)
Fixpoint all_tensors {A} (ts : list (option (list A))) : M (list (list A)) :=
  match ts with
  | [] => ret []
  | Some t :: ts' => r ← all_tensors ts'; ret (t :: r)
  | None :: _ => raise TypeError
  end.

(** The variables of the table loop. *)
Record loop_state := LoopState {
  indices_list : list (list Z);
  offsets_list : list (list Z);
  per_sample_weights_list : list (option (list pyfloat));
  offset_start : Z;
}.

(** One iteration of [for i in range(num_tables)]. The operands reach
    [generate_requests] as integers: one that is not makes its first
    arithmetic raise [TypeError]. *)
Definition table_step (batch_size : pyval) (pooling_factors rows : list pyval)
    (distribution weighted : pyval) (st : loop_state) (i : nat) : M loop_state :=
  pf ← lift (list_item pooling_factors i);
  r ← lift (list_item rows i);
  alpha ← lift (py_float distribution);
  B ← lift (as_int batch_size);
  L ← lift (as_int pf);
  E ← lift (as_int r);
  '(indices, offsets, per_sample_weights) ←
    generate_requests B L E (offset_start st) alpha (truthy weighted);
  (* update to the offset_start to the last element of current offset *)
  last_offset ← last_item offsets;
  ret (LoopState (indices_list st ++ [indices])
                 (offsets_list st ++ [offsets])
                 (if truthy weighted
                  then per_sample_weights_list st ++ [per_sample_weights]
                  else per_sample_weights_list st)
                 last_offset).

Fixpoint for_each {S} (body : S → nat → M S) (st : S) (range : list nat) : M S :=
  match range with
  | [] => ret st
  | i :: range' => st' ← body st i; for_each body st' range'
  end.

(** [range(n)] *)
Definition py_range (n : Z) : list nat := seq 0 (Z.to_nat n).

Definition table_loop (num_tables : Z) (batch_size : pyval)
    (pooling_factors rows : list pyval) (distribution weighted : pyval)
    : M loop_state :=
  for_each (table_step batch_size pooling_factors rows distribution weighted)
           (LoopState [] [] [] 0) (py_range num_tables).

(** The [else] branch of [get_data]: generation mode. *)
Definition generate (num_tables : Z) (batch_size : pyval)
    (pooling_factors rows : list pyval) (distribution weighted : pyval)
    : M (tensor * tensor * option tensor) :=
  st ← table_loop num_tables batch_size pooling_factors rows distribution weighted;
  indices_tensor ← torch_cat (indices_list st);
  offsets_tensor ← torch_cat (offsets_list st);
  per_sample_weights_tensor ←
    (if truthy weighted
     then ts ← all_tensors (per_sample_weights_list st);
          t ← torch_cat ts; ret (Some (FloatTensor t))
     else ret None);
  ret (LongTensor indices_tensor, LongTensor offsets_tensor,
       per_sample_weights_tensor).

(** The three file names, from [config["args"][4]] when it has both
    [indices_tensor] and [offsets_tensor], from the environment otherwise. *)
Definition select_files (env : gmap string string) (a4 : arg) (weighted : pyval)
    : res (pyval * pyval * pyval) :=
  if has_key a4 "indices_tensor" && has_key a4 "offsets_tensor" then
    indices_file ← dict_item a4 "indices_tensor";
    offsets_file ← dict_item a4 "offsets_tensor";
    weights_file ←
      (if truthy weighted && has_key a4 "weights_tensor"
       then dict_item a4 "weights_tensor" else Ok VNone);
    Ok (indices_file, offsets_file, weights_file)
  else
    Ok (getenv env "split_embedding_indices",
        getenv env "split_embedding_offsets",
        if truthy weighted then getenv env "split_embedding_weights" else VNone).

(** The [if] branch of [get_data]: override mode. *)
Definition load_tensors (files : gmap string tensor)
    (indices_file offsets_file weights_file : pyval)
    : M (tensor * tensor * option tensor) :=
  indices_tensor ← torch_load files indices_file;
  offsets_tensor ← torch_load files offsets_file;
  per_sample_weights_tensor ←
    (if truthy weights_file
     then t ← torch_load files weights_file; ret (Some t)
     else ret None);
  ret (indices_tensor, offsets_tensor, per_sample_weights_tensor).

(** [x.to(target_device)]: the elements are unchanged; on [None] the
    attribute access fails. *)
Definition to_device (t : option tensor) : M tensor :=
  match t with
  | Some x => ret x
  | None => raise (AttributeError "'NoneType' object has no attribute 'to'")
  end.

(** The head of [get_data]: the values read from [config["args"]]. *)
Definition read_config (config : list arg)
    : res (Z * list pyval * list pyval * list pyval * pyval * pyval) :=
  a0 ← list_item config 0;
  num_tables_value ← dict_item a0 "value";
  num_tables ← as_int num_tables_value;
  '(rows, dims, pooling_factors) ←
    (if 1 <? num_tables then
       a1 ← list_item config 1; rows ← genericList_to_list a1;
       a2 ← list_item config 2; dims ← genericList_to_list a2;
       a4 ← list_item config 4; pooling_factors ← genericList_to_list a4;
       Ok (rows, dims, pooling_factors)
     else
       a1 ← list_item config 1; rows ← dict_item a1 "value";
       a2 ← list_item config 2; dims ← dict_item a2 "value";
       a4 ← list_item config 4; pooling_factors ← dict_item a4 "value";
       Ok ([rows], [dims], [pooling_factors]));
  a3 ← list_item config 3;
  batch_size ← dict_item a3 "value";
  a5 ← list_item config 5;
  weighted ← dict_item a5 "value";
  Ok (num_tables, rows, dims, pooling_factors, batch_size, weighted).

(** [os.getenv("split_embedding_distribution")], [1] when unset. *)
Definition distribution_of (env : gmap string string) : pyval :=
  match getenv env "split_embedding_distribution" with
  | VNone => VInt 1
  | d => d
  end.

Definition get_data (env : gmap string string) (files : gmap string tensor)
    (config : list arg) (device : string)
    : M (tensor * tensor * option tensor) :=
  '(num_tables, rows, dims, pooling_factors, batch_size, weighted) ←
    lift (read_config config);
  let distribution := distribution_of env in
  target_device ← lift (torch_device device);
  a4 ← lift (list_item config 4);
  '(indices_file, offsets_file, weights_file) ←
    lift (select_files env a4 weighted);
  '(indices_tensor, offsets_tensor, per_sample_weights_tensor) ←
    (if is_not_None indices_file && is_not_None offsets_file
     then load_tensors files indices_file offsets_file weights_file
     else generate num_tables batch_size pooling_factors rows
                   distribution weighted);
  weights_out ←
    (if truthy weighted
     then t ← to_device per_sample_weights_tensor; ret (Some t)
     else ret None);
  ret (indices_tensor, offsets_tensor, weights_out).

End Module.

(** ** [SplitTableBatchedEmbeddingInputIterator] *)

(** [range(start, stop, step)] as the list of its elements. *)
Definition range_length (start stop step : Z) : Z :=
  if 0 <? step then Z.max 0 ((stop - start + step - 1) / step)
  else Z.max 0 ((start - stop - step - 1) / (- step)).

Definition range_elements (start stop step : Z) : list Z :=
  (λ k, start + Z.of_nat k * step) <$> seq 0 (Z.to_nat (range_length start stop step)).

(** Modelled from the spec: [full_range] of the benchmark library, which is
    not in this module. The spec has an axis given as a numeric range
    [start, stop, step]; the range is taken to include [stop], and the step
    to default to 1. *)
Definition full_range (value : pyval) : res pyval :=
  match value with
  | VList [VInt a; VInt b] => Ok (VRange a (b + 1) 1)
  | VList [VInt a; VInt b; VInt step] =>
      if step =? 0 then Raise (ValueError "range() arg 3 must not be zero")
      else Ok (VRange a (b + 1) step)
  | _ => Raise TypeError
  end.

(** Modelled from the spec: [IterableList] of the benchmark library wraps an
    explicit list of values so that the product iterates over them. *)
Definition IterableList (value : pyval) : res pyval :=
  match value with
  | VList items => Ok (VIterableList items)
  | _ => Raise TypeError
  end.

(** Modelled from the spec: [TableProduct] of the benchmark library, the
    concrete settings of one axis: one copy of the axis per element when its
    value is a range or an [IterableList], the axis itself when its value is
    a single literal. *)
Definition TableProduct (a : arg) : list arg :=
  match a !! "value" with
  | Some (VRange start stop step) =>
      (λ v, <["value" := VInt v]> a) <$> range_elements start stop step
  | Some (VIterableList items) => (λ v, <["value" := v]> a) <$> items
  | _ => [a]
  end.

(** Modelled from the spec: [ListProduct] of the benchmark library, the
    cartesian product of the axes in enumeration order (the last axis varies
    fastest). *)
Fixpoint ListProduct {A} (axes : list (list A)) : list (list A) :=
  match axes with
  | [] => [[]]
  | axis :: axes' => x ← axis; (cons x) <$> ListProduct axes'
  end.

(** The two rewrites of [arg["value"]] at the head of the inner loop. *)
Definition expand_arg (a : arg) : res arg :=
  match (if bool_decide (is_Some (a !! "__range__")) then
           match a !! "value" with
           | Some v => match full_range v with
                       | Ok r => Ok (<["value" := r]> a)
                       | Raise e => Raise e
                       end
           | None => Raise (KeyError "value")
           end
         else Ok a) with
  | Raise e => Raise e
  | Ok a1 =>
      if bool_decide (is_Some (a1 !! "__list__")) then
        match a1 !! "value" with
        | Some v => match IterableList v with
                    | Ok r => Ok (<["value" := r]> a1)
                    | Raise e => Raise e
                    end
        | None => Raise (KeyError "value")
        end
      else Ok a1
  end.

Fixpoint expand_args (input_args : list arg) : res (list (list arg)) :=
  match input_args with
  | [] => Ok []
  | a :: rest =>
      match expand_arg a with
      | Raise e => Raise e
      | Ok a' =>
          match expand_args rest with
          | Raise e => Raise e
          | Ok axes => Ok (TableProduct a' :: axes)
          end
      end
  end.

Section Iterator.
(** [remove_meta_attr] of the benchmark library, not in this module. *)
Variable remove_meta_attr : list arg → list arg.

(** The fields [__init__] reads from [configs["build"]["args"]], and
    [configs[key]]: a list of input groups, each the list [input["args"]]. *)
Record iterator := Iterator {
  it_inputs : list (list arg);
  it_num_tables : arg;
  it_rows : arg;
  it_dim : arg;
  it_weighted : arg;
  it_weights_precision : arg;
}.

(** What a generator does when it is run to its end: the values it yields,
    and the exception that stops it if there is one. *)
Definition yields (A : Type) : Type := list A * option exn.

(** [f"{var_id}_{config_id}"] *)
Definition identifier (var_id config_id : nat) : string :=
  pretty var_id +:+ "_" +:+ pretty config_id.

(** The loop [for arg_config in ListProduct(args)], started at [config_id]. *)
Fixpoint product_loop (self : iterator) (var_id config_id : nat)
    (arg_configs : list (list arg)) : yields (string * list arg) :=
  match arg_configs with
  | [] => ([], None)
  | arg_config :: rest =>
      match arg_config !! 0%nat, arg_config !! 1%nat with
      | Some batch_size, Some pooling_factor =>
          let result :=
            [it_num_tables self; it_rows self; it_dim self; batch_size;
             pooling_factor; it_weighted self; it_weights_precision self] in
          let '(ys, e) := product_loop self var_id (S config_id) rest in
          ((identifier var_id config_id, remove_meta_attr result) :: ys, e)
      | _, _ => ([], Some IndexError)
      end
  end.

(** The loop [for input in inputs]. [var_id] is set before the loop and the
    body never assigns it. *)
Fixpoint input_loop (self : iterator) (var_id : nat)
    (inputs : list (list arg)) : yields (string * list arg) :=
  match inputs with
  | [] => ([], None)
  | input :: rest =>
      match expand_args input with
      | Raise e => ([], Some e)
      | Ok args =>
          match product_loop self var_id 0 (ListProduct args) with
          | (ys, Some e) => (ys, Some e)
          | (ys, None) =>
              let '(ys', e) := input_loop self var_id rest in
              (ys ++ ys', e)
          end
      end
  end.

Definition _generator (self : iterator) : yields (string * list arg) :=
  let inputs := it_inputs self in
  let var_id := 0%nat in
  input_loop self var_id inputs.

End Iterator.

(** ** [SplitTableBatchedEmbeddingOp] *)

Inductive ComputeDevice := CPU | CUDA.

Section Operator.
(** The embedding operator of fbgemm: the enumeration [EmbeddingLocation],
    whose conversion of [location] is made for each table inside the list of
    specifications, and the constructor
    [SplitTableBatchedEmbeddingBagsCodegen], given the specifications and
    the optimizer, pooling mode and weights precision; the conversions of
    these three come after the list and just before the call, and fail
    inside it. *)
Variable handle : Type.
Variable location_member : Type.
Variable EmbeddingLocation : pyval → res location_member.
Variable SplitTableBatchedEmbeddingBagsCodegen :
  list (pyval * pyval * location_member * ComputeDevice) →
  pyval → pyval → pyval → res handle.

Record operator := Operator {
  device : string;
  op : option handle;
  fwd_out : option tensor;
  grad_in : option tensor;
}.

Definition cleanup (self : operator) : operator :=
  Operator (device self) None None None.

(** [__init__]: [cleanup], then the two tensor fields are cleared. *)
Definition init (self : operator) : operator :=
  let self := cleanup self in
  Operator (device self) (op self) None None.

(** [v == 1] *)
Definition equals_one (v : pyval) : bool :=
  match v with
  | VInt n => n =? 1
  | VBool b => b
  | _ => false
  end.

(** [xs[i]] on a value. *)
Definition subscript (xs : pyval) (i : nat) : res pyval :=
  match xs with
  | VList items =>
      match items !! i with
      | Some x => Ok x
      | None => Raise IndexError
      end
  | _ => Raise TypeError
  end.

(** [[(rows_list[i], dims_list[i], EmbeddingLocation(location),
    compute_device) for i in range(num_tables)]]: the entries of a tuple are
    evaluated from left to right, table after table. *)
Fixpoint embedding_specs (rows_list dims_list location : pyval)
    (compute_device : ComputeDevice) (range : list nat)
    : res (list (pyval * pyval * location_member * ComputeDevice)) :=
  match range with
  | [] => Ok []
  | i :: range' =>
      match subscript rows_list i with
      | Raise e => Raise e
      | Ok r =>
          match subscript dims_list i with
          | Raise e => Raise e
          | Ok d =>
              match EmbeddingLocation location with
              | Raise e => Raise e
              | Ok loc =>
                  match embedding_specs rows_list dims_list location
                          compute_device range' with
                  | Raise e => Raise e
                  | Ok specs => Ok ((r, d, loc, compute_device) :: specs)
                  end
              end
          end
      end
  end.

Definition range_of (num_tables : pyval) : res (list nat) :=
  match num_tables with
  | VInt n => Ok (seq 0 (Z.to_nat n))
  | VBool b => Ok (seq 0 (Z.to_nat (Z.b2z b)))
  | _ => Raise TypeError
  end.

Definition build (self : operator)
    (num_tables rows dims location pooling weighted weights_precision optimizer : pyval)
    : res unit * operator :=
  let '(rows_list, dims_list) :=
    if equals_one num_tables then (VList [rows], VList [dims])
    else (rows, dims) in
  match (if String.prefix "cpu" (device self) then Ok CPU
         else if String.prefix "cuda" (device self) then Ok CUDA
         else Raise (ValueError ("Unknown compute device " +:+ device self))) with
  | Raise e => (Raise e, self)
  | Ok compute_device =>
      match range_of num_tables with
      | Raise e => (Raise e, self)
      | Ok range =>
          match embedding_specs rows_list dims_list location compute_device
                  range with
          | Raise e => (Raise e, self)
          | Ok specs =>
              match SplitTableBatchedEmbeddingBagsCodegen
                      specs optimizer pooling weights_precision with
              | Raise e => (Raise e, self)
              | Ok h => (Ok tt, Operator (device self) (Some h)
                                         (fwd_out self) (grad_in self))
              end
          end
      end
  end.

End Operator.

(** [torch.ones_like(t)] *)
Definition ones_like (t : tensor) : tensor :=
  match t with
  | LongTensor d => LongTensor (replicate (length d) 1)
  | FloatTensor d => FloatTensor (replicate (length d) f_one)
  end.

Section OperatorCalls.
Context `{RT : Runtime}.
Variable handle : Type.
(** [forward] of the embedding operator and [backward] of a tensor, both
    outside the module; the handle stands for the operator object, whose own
    state is not modelled. *)
Variable op_forward :
  handle → option tensor → option tensor → option tensor → res tensor.
Variable tensor_backward : tensor → option tensor → res unit.

(** [self.op.forward] is looked up first, then [args[0]], [args[1]] and
    [args[2]]; an argument may be [None]. *)
Definition forward (self : operator handle) (args : list (option tensor))
    : res unit * operator handle :=
  match op handle self with
  | None =>
      (Raise (AttributeError "'NoneType' object has no attribute 'forward'"), self)
  | Some h =>
      match args !! 0%nat, args !! 1%nat, args !! 2%nat with
      | Some a0, Some a1, Some a2 =>
          match op_forward h a0 a1 a2 with
          | Raise e => (Raise e, self)
          | Ok out => (Ok tt, Operator handle (device handle self) (op handle self)
                                       (Some out) (grad_in handle self))
          end
      | _, _, _ => (Raise IndexError, self)
      end
  end.

(** [torch.ones_like(self.fwd_out)] comes before [torch.device(self.device)]. *)
Definition create_grad (self : operator handle) : res unit * operator handle :=
  match fwd_out handle self with
  | None => (Raise TypeError, self)
  | Some out =>
      match torch_device (device handle self) with
      | Raise e => (Raise e, self)
      | Ok _ => (Ok tt, Operator handle (device handle self) (op handle self)
                                 (fwd_out handle self) (Some (ones_like out)))
      end
  end.

Definition backward (self : operator handle) : res unit * operator handle :=
  match fwd_out handle self with
  | None =>
      (Raise (AttributeError "'NoneType' object has no attribute 'backward'"), self)
  | Some out => (tensor_backward out (grad_in handle self), self)
  end.

End OperatorCalls.

(** ** A reference runtime

    A concrete instance of [Runtime], so that the module can be run: a linear
    congruential generator for the random sources, a decimal reader for
    [float], and the two families of device names of [torch.device] that the
    operator knows. *)
Module Reference.

Definition next (g : Z) : Z := (1103515245 * g + 12345) mod 2147483648.

Fixpoint draws (f : Z → Z) (n : nat) (g : Z) : list Z * Z :=
  match n with
  | O => ([], g)
  | S n' => let g' := next g in
            let '(l, g'') := draws f n' g' in (f g' :: l, g'')
  end.

Definition lcg_randint (low high : Z) (n : nat) (g : Z) : list Z * Z :=
  draws (λ r, low + r mod (high - low)) n g.

Definition lcg_zipf (a : pyfloat) (n : nat) (g : Z) : list Z * Z :=
  draws (λ r, 1 + r mod 16) n g.

Definition lcg_randn (n : nat) (g : Z) : list pyfloat * Z :=
  let '(l, g') := draws (λ r, r mod 7 - 3) n g in
  ((λ z, FFin (inject_Z z)) <$> l, g').

Definition digit (c : ascii) : option Z :=
  let n := Z.of_nat (nat_of_ascii c) - 48 in
  if (0 <=? n) && (n <=? 9) then Some n else None.

(** Digits with at most one decimal point, at least one digit. *)
Fixpoint scan (s : string) (num den : Z) (frac seen : bool) : option Q :=
  match s with
  | EmptyString => if seen then Some (num # Z.to_pos den)%Q else None
  | String c s' =>
      if Ascii.eqb c "."%char then
        if frac then None else scan s' num den true seen
      else
        match digit c with
        | Some d => scan s' (10 * num + d) (if frac then 10 * den else den) frac true
        | None => None
        end
  end.

Definition lcg_float_of_string (s : string) : option pyfloat :=
  if String.eqb s "nan" then Some FNaN
  else if String.eqb s "inf" then Some (FInf false)
  else if String.eqb s "-inf" then Some (FInf true)
  else match s with
       | String "-"%char s' => (λ q, FFin (- q)%Q) <$> scan s' 0 1 false false
       | _ => FFin <$> scan s 0 1 false false
       end.

Definition lcg_device_ok (s : string) : bool :=
  String.prefix "cpu" s || String.prefix "cuda" s.

Fixpoint assoc (k : string) (entries : list (string * pyval)) : res pyval :=
  match entries with
  | [] => Raise (KeyError k)
  | (k', v) :: rest => if String.eqb k k' then Ok v else assoc k rest
  end.

Fixpoint item_values (items : list pyval) : res (list pyval) :=
  match items with
  | [] => Ok []
  | VDict entries :: rest =>
      match assoc "value" entries with
      | Raise e => Raise e
      | Ok v => match item_values rest with
                | Raise e => Raise e
                | Ok vs => Ok (v :: vs)
                end
      end
  | _ :: _ => Raise TypeError
  end.

Definition lcg_genericList_to_list (a : arg) : res (list pyval) :=
  match a !! "value" with
  | Some (VList items) => item_values items
  | Some _ => Raise TypeError
  | None => Raise (KeyError "value")
  end.

Lemma draws_length f n g : length (draws f n g).1 = n.
Proof.
  revert g. induction n as [|n IH]; intros g; simpl; [done|].
  specialize (IH (next g)). destruct (draws f n (next g)). simpl in *. lia.
Qed.

Lemma draws_image f n g x : x ∈ (draws f n g).1 → ∃ r, x = f r.
Proof.
  revert g. induction n as [|n IH]; intros g; simpl.
  - intros H. by apply elem_of_nil in H.
  - specialize (IH (next g)). destruct (draws f n (next g)) as [l g'].
    simpl in *. intros [->|H]%elem_of_cons; eauto.
Qed.

Lemma lcg_randint_range low high n g x :
  low < high → x ∈ (lcg_randint low high n g).1 → low ≤ x < high.
Proof.
  intros Hlt [r ->]%draws_image.
  pose proof (Z.mod_pos_bound r (high - low)). lia.
Qed.

Lemma lcg_zipf_positive a n g x : x ∈ (lcg_zipf a n g).1 → 1 ≤ x.
Proof.
  intros [r ->]%draws_image. pose proof (Z.mod_pos_bound r 16). lia.
Qed.

Lemma lcg_randn_length n g : length (lcg_randn n g).1 = n.
Proof.
  unfold lcg_randn. pose proof (draws_length (λ r, r mod 7 - 3) n g) as H.
  destruct (draws _ n g). simpl in *. by rewrite length_fmap.
Qed.

#[export] Instance runtime : Runtime := {|
  rng := Z;
  randint := lcg_randint;
  zipf := lcg_zipf;
  randn := lcg_randn;
  float_of_string := lcg_float_of_string;
  device_ok := lcg_device_ok;
  genericList_to_list := lcg_genericList_to_list;
  randint_length := λ low high, draws_length _;
  randint_range := lcg_randint_range;
  zipf_length := λ a, draws_length _;
  zipf_positive := lcg_zipf_positive;
  randn_length := lcg_randn_length;
|}.

(** A world to start from. *)
Definition w0 : world_of Z := World (42 : Z) [].

End Reference.

(** ** Vocabulary of the properties *)

(** The linear sequence [i mod m] for [i] in [0, n). *)
Definition linear (n m : Z) : list Z :=
  (λ x, x mod m) <$> (Z.of_nat <$> seq 0 (Z.to_nat n)).

(** The offsets [generate_requests] computes for one table. *)
Definition table_offsets (B L offset_start : Z) : list Z :=
  if offset_start =? 0 then cumsum (0 :: replicate (Z.to_nat B) L)
  else Z.add offset_start <$> cumsum (replicate (Z.to_nat B) L).

(** The indices of a result of [generate_requests]. *)
Definition requested_indices {W}
    (r : res (list Z * list Z * option (list pyfloat)) * W) : res (list Z) :=
  match r.1 with
  | Ok (indices, _, _) => Ok indices
  | Raise e => Raise e
  end.

(** The sum of a list of integers. *)
Definition sumZ (l : list Z) : Z := foldr Z.add 0 l.

(** Where the file names of override mode come from: the entries of
    [config["args"][4]] when it has both keys, the environment otherwise. *)
Definition indices_source (env : gmap string string) (a4 : arg) : pyval :=
  if has_key a4 "indices_tensor" && has_key a4 "offsets_tensor"
  then default VNone (a4 !! "indices_tensor")
  else getenv env "split_embedding_indices".

Definition offsets_source (env : gmap string string) (a4 : arg) : pyval :=
  if has_key a4 "indices_tensor" && has_key a4 "offsets_tensor"
  then default VNone (a4 !! "offsets_tensor")
  else getenv env "split_embedding_offsets".

Definition weights_source (env : gmap string string) (a4 : arg) : pyval :=
  if has_key a4 "indices_tensor" && has_key a4 "offsets_tensor"
  then default VNone (a4 !! "weights_tensor")
  else getenv env "split_embedding_weights".

(** Both an indices source and an offsets source are supplied. *)
Definition sources_supplied (env : gmap string string) (a4 : arg) : bool :=
  is_not_None (indices_source env a4) && is_not_None (offsets_source env a4).


(** The draws from the random sources. *)
Definition is_draw (e : event) : bool :=
  match e with
  | Draw_randint _ _ _ | Draw_zipf _ _ | Draw_randn _ => true
  | _ => false
  end.

(** The calls of [generate_requests] in a log, in call order. *)
Definition is_call (e : event) : bool :=
  match e with
  | Call_generate_requests _ _ _ _ _ _ => true
  | _ => false
  end.

Definition calls_of (log : list event) : list event :=
  filter (λ e, is_call e = true) log.

(** The compute device [build] chooses for a device string, if any. *)
Definition compute_device_of (device : string) : option ComputeDevice :=
  if String.prefix "cpu" device then Some CPU
  else if String.prefix "cuda" device then Some CUDA
  else None.

(** ** Invariants of the table loop and of the loads *)

Section Invariants.
Context `{RT : Runtime}.
Abbreviation world := (world_of rng).

(** The state of the offsets after [k] tables. *)
Definition offsets_inv (B : Z) (Ls : list Z) (k : nat) (st : loop_state) : Prop :=
  length (indices_list st) = k ∧
  offset_start st = B * sumZ (take k Ls) ∧
  Z.of_nat (length (concat (indices_list st))) = B * sumZ (take k Ls) ∧
  match k with
  | O => offsets_list st = []
  | S _ =>
      let o := concat (offsets_list st) in
      Sorted Z.le o ∧ head o = Some 0 ∧ last o = Some (offset_start st) ∧
      Z.of_nat (length o) = Z.of_nat k * B + 1
  end.

(** The weights the loop has collected: one draw of [randn] per table, of
    the size of that table's indices. *)
Definition drawn_weights (idxs : list (list Z)) (gs : list rng)
    : list (list pyfloat) :=
  zip_with (λ idx g, (randn (length idx) g).1) idxs gs.

(** The range of the indices of each table after [k] tables. *)
Definition indices_inv (alpha : pyfloat) (pfs rows : list pyval) (k : nat)
    (st : loop_state) : Prop :=
  length (indices_list st) = k ∧
  ∀ i idx, indices_list st !! i = Some idx →
    ∃ pf r L E,
      pfs !! i = Some pf ∧ as_int pf = Ok L ∧
      rows !! i = Some r ∧ as_int r = Ok E ∧
      (float_eqb alpha f_zero = true → idx = linear (Z.of_nat (length idx)) L) ∧
      (float_eqb alpha f_zero = false → 0 < E → ∀ x, x ∈ idx → 0 ≤ x < E).


(** The paths a run of [load_tensors] has loaded, in order: the indices
    file, the offsets file, and the weights file if its name is truthy. *)
Definition loaded_from (fi fo fw : pyval) (paths : list string) : Prop :=
  ∀ i p, paths !! i = Some p →
    (i < 3)%nat ∧ (i = 0%nat → fi = VStr p) ∧ (i = 1%nat → fo = VStr p) ∧
    (i = 2%nat → fw = VStr p ∧ truthy fw = true).

End Invariants.

(** ** Example configurations *)

(** An argument dictionary that only has a value. *)
Definition value_arg (v : pyval) : arg := {[ "value" := v ]}.

(** An entry of a generic list. *)
Definition item (v : Z) : pyval := VDict [("value", VInt v)].

(** Two tables of 5 and 7 rows, batch size 2, pooling factors 2 and 3. *)
Definition cfg_two (weighted : bool) : list arg :=
  value_arg <$> [VInt 2; VList [item 5; item 7]; VList [item 4; item 4];
                 VInt 2; VList [item 2; item 3]; VBool weighted; VStr "fp16"].


(** What the reference runtime reaches from [Reference.w0] on [cfg_two]. *)
Definition two_tables_world : world_of Z :=
  World (1535244752 : Z)
    [Call_generate_requests 2 2 5 0 f_one false; Draw_randint 0 5 4;
     Call_generate_requests 2 3 7 4 f_one false; Draw_randint 0 7 6].

Definition two_tables_weighted_world : world_of Z :=
  World (1440974758 : Z)
    [Call_generate_requests 2 2 5 0 f_one true; Draw_randint 0 5 4;
     Draw_randn 4;
     Call_generate_requests 2 3 7 4 f_one true; Draw_randint 0 7 6;
     Draw_randn 6].

Definition two_tables_weights : list pyfloat :=
  (λ z, FFin (inject_Z z)) <$> [-2; -3; 1; 1; -2; 1; -2; 3; -1; 3].

(** Override mode through [config["args"][4]]: file names for the indices
    and the offsets, none for the weights. *)
Definition override_arg : arg :=
  {[ "value" := VInt 3;
     "indices_tensor" := VStr "indices.pt";
     "offsets_tensor" := VStr "offsets.pt" ]}.

Definition cfg_override (weighted : bool) : list arg :=
  [value_arg (VInt 1); value_arg (VInt 5); value_arg (VInt 4);
   value_arg (VInt 2); override_arg; value_arg (VBool weighted);
   value_arg (VStr "fp16")].

Definition saved_files : gmap string tensor :=
  {[ "indices.pt" := LongTensor [0; 1; 2; 3];
     "offsets.pt" := LongTensor [0; 2; 4] ]}.

(** An axis given as an explicit list, and one given as a single value. *)
Definition list_axis (values : list Z) : arg :=
  {[ "value" := VList (VInt <$> values); "__list__" := VBool true ]}.

Definition literal_axis (v : Z) : arg := {[ "value" := VInt v ]}.

(** An iterator over the given input groups, for one table of 5 rows. *)
Definition iterator_over (inputs : list (list arg)) : iterator :=
  Iterator inputs (value_arg (VInt 1)) (value_arg (VInt 5))
    (value_arg (VInt 4)) (value_arg (VBool false)) (value_arg (VStr "fp16")).

(** One table of [rows] rows, batch size [B], pooling factor [L]. *)
Definition cfg_one (rows B L : Z) (weighted : bool) : list arg :=
  value_arg <$> [VInt 1; VInt rows; VInt 4; VInt B; VInt L; VBool weighted;
                 VStr "fp16"].

(** Three tables declared, two pooling factors given. *)
Definition cfg_three_short : list arg :=
  value_arg <$> [VInt 3; VList [item 5; item 7; item 9];
                 VList [item 4; item 4; item 4]; VInt 2;
                 VList [item 2; item 3]; VBool false; VStr "fp16"].

(** No table. *)
Definition cfg_none : list arg :=
  value_arg <$> [VInt 0; VInt 5; VInt 4; VInt 2; VInt 3; VBool false;
                 VStr "fp16"].

(** Override mode through the environment, with weights. *)
Definition env_override : gmap string string :=
  {[ "split_embedding_indices" := "indices.pt";
     "split_embedding_offsets" := "offsets.pt";
     "split_embedding_weights" := "weights.pt" ]}.

Definition saved_weighted_files : gmap string tensor :=
  <[ "weights.pt" := FloatTensor [f_one; f_half; f_one; f_half] ]> saved_files.

(** The members of [EmbeddingLocation], by value. *)
Inductive location := DEVICE | MANAGED | MANAGED_CACHING | HOST.

Definition location_of (v : pyval) : res location :=
  match v with
  | VInt 0 => Ok DEVICE
  | VInt 1 => Ok MANAGED
  | VInt 2 => Ok MANAGED_CACHING
  | VInt 3 => Ok HOST
  | _ => Raise (ValueError "not a valid EmbeddingLocation")
  end.

(** A constructor that returns the specifications it is given, an embedding
    operator that returns its first argument, and a backward pass that
    succeeds. *)
Definition echo_codegen (specs : list (pyval * pyval * location * ComputeDevice))
    (optimizer pooling weights_precision : pyval)
    : res (list (pyval * pyval * location * ComputeDevice)) := Ok specs.

Definition echo_forward (h : list (pyval * pyval * location * ComputeDevice))
    (indices offsets weights : option tensor) : res tensor :=
  match indices with
  | Some t => Ok t
  | None => Raise TypeError
  end.

Definition ok_backward (out : tensor) (grad : option tensor) : res unit := Ok tt.

Abbreviation specs := (list (pyval * pyval * location * ComputeDevice)).

(** * Properties *)

(** ** Comparisons of floats *)

Ltac float_cases a :=
  destruct a as [| [] | ?]; unfold float_ltb, f_zero, f_half, f_one in *;
  simpl in *; try done;
  repeat match goal with
  | H : _ && _ = true |- _ => apply andb_prop in H; destruct H
  | H : negb _ = true |- _ => apply negb_true_iff in H
  | H : Qle_bool _ _ = true |- _ => apply Qle_bool_iff in H
  | H : Qeq_bool _ _ = false |- _ => apply Qeq_bool_neq in H
  | H : Qeq_bool _ _ = true |- _ => apply Qeq_bool_iff in H
  | |- _ ∧ _ => split
  | |- Qeq_bool ?x ?y = false =>
      destruct (Qeq_bool x y) eqn:?; [exfalso|reflexivity]
  | |- Qle_bool ?x ?y = false =>
      destruct (Qle_bool x y) eqn:?; [exfalso|reflexivity]
  end; try lra.

Lemma float_pos_nonzero a :
  float_ltb f_zero a = true → float_eqb a f_zero = false.
Proof. intros H. float_cases a. Qed.

Lemma float_above_half a :
  float_ltb f_half a = true →
  float_eqb a f_zero = false ∧ float_leb a f_half = false.
Proof. intros H. float_cases a. Qed.

Lemma float_above_one a :
  float_ltb f_one a = true →
  float_eqb a f_zero = false ∧ float_leb a f_half = false ∧
  float_leb a f_one = false.
Proof. intros H. float_cases a. Qed.

Lemma float_zero_le_one a :
  float_eqb a f_zero = true → float_leb a f_one = true.
Proof.
  intros H. float_cases a. apply Qle_bool_iff. lra.
Qed.

Lemma float_half_le_one a :
  float_leb a f_half = true → float_leb a f_one = true.
Proof.
  intros H. float_cases a. apply Qle_bool_iff. lra.
Qed.

Section SamplerProperties.
Context `{RT : Runtime}.
Abbreviation world := (world_of rng).
#[local] Existing Instance M_ret.
#[local] Existing Instance M_bind.

(** ** Running the monad *)

Lemma bind_run {A B} (m : M A) (k : A → M B) w :
  (m ≫= k) w = match m w with
               | (Ok a, w') => k a w'
               | (Raise e, w') => (Raise e, w')
               end.
Proof. reflexivity. Qed.

Lemma bind_ok {A B} (m : M A) (k : A → M B) w a w' :
  m w = (Ok a, w') → (m ≫= k) w = k a w'.
Proof. intros H. by rewrite bind_run, H. Qed.

Lemma bind_inv {A B} (m : M A) (k : A → M B) w b w2 :
  (m ≫= k) w = (Ok b, w2) → ∃ a w1, m w = (Ok a, w1) ∧ k a w1 = (Ok b, w2).
Proof.
  rewrite bind_run. destruct (m w) as [[a|e] w1]; [eauto|discriminate].
Qed.

Lemma lift_inv {A} (r : res A) w a w' :
  lift r w = (Ok a, w') → r = Ok a ∧ w' = w.
Proof. unfold lift. intros [= -> ->]. done. Qed.

Lemma ret_inv {A} (x : A) w a w' : ret x w = (Ok a, w') → a = x ∧ w' = w.
Proof. unfold ret. intros [= -> ->]. done. Qed.

(** ** The primitives *)

Lemma arange_inv n w r w' :
  arange n w = (Ok r, w') →
  0 ≤ n ∧ r = Z.of_nat <$> seq 0 (Z.to_nat n) ∧ w' = w.
Proof.
  unfold arange. destruct (Z.ltb_spec n 0); [discriminate|].
  intros [= <- <-]. done.
Qed.

Lemma arange_ok n w :
  0 ≤ n → arange n w = (Ok (Z.of_nat <$> seq 0 (Z.to_nat n)), w).
Proof. intros H. unfold arange. by destruct (Z.ltb_spec n 0); [lia|]. Qed.

Lemma tensor_rem_inv t d w r w' :
  tensor_rem t d w = (Ok r, w') → r = (λ x, x mod d) <$> t ∧ w' = w.
Proof.
  unfold tensor_rem. destruct t as [|x t].
  - intros [= <- <-]. done.
  - destruct (d =? 0); [discriminate|]. intros [= <- <-]. done.
Qed.

Lemma tensor_rem_ok t d w :
  d ≠ 0 → tensor_rem t d w = (Ok ((λ x, x mod d) <$> t), w).
Proof.
  intros H. unfold tensor_rem. destruct t; [done|].
  by destruct (Z.eqb_spec d 0).
Qed.

Lemma np_ones_times_inv B L w r w' :
  np_ones_times B L w = (Ok r, w') →
  0 ≤ B ∧ r = replicate (Z.to_nat B) L ∧ w' = w.
Proof.
  unfold np_ones_times. destruct (Z.ltb_spec B 0); [discriminate|].
  intros [= <- <-]. done.
Qed.

Lemma np_ones_times_ok B L w :
  0 ≤ B → np_ones_times B L w = (Ok (replicate (Z.to_nat B) L), w).
Proof. intros H. unfold np_ones_times. by destruct (Z.ltb_spec B 0); [lia|]. Qed.

Lemma emit_run e w : emit e w = (Ok tt, World (w_rng w) (w_log w ++ [e])).
Proof. reflexivity. Qed.

Lemma torch_randint_inv low high size w r w' :
  torch_randint low high size w = (Ok r, w') →
  0 ≤ size ∧ low < high ∧
  r = (randint low high (Z.to_nat size) (w_rng w)).1 ∧
  w' = World (randint low high (Z.to_nat size) (w_rng w)).2
             (w_log w ++ [Draw_randint low high (Z.to_nat size)]).
Proof.
  unfold torch_randint. destruct (Z.ltb_spec size 0); [discriminate|].
  destruct (Z.leb_spec high low); [discriminate|].
  rewrite bind_run, emit_run. unfold draw. simpl.
  destruct (randint low high (Z.to_nat size) (w_rng w)) as [l g].
  intros [= <- <-]. done.
Qed.

Lemma torch_randint_ok low high size w :
  0 ≤ size → low < high →
  torch_randint low high size w =
    (Ok (randint low high (Z.to_nat size) (w_rng w)).1,
     World (randint low high (Z.to_nat size) (w_rng w)).2
           (w_log w ++ [Draw_randint low high (Z.to_nat size)])).
Proof.
  intros H1 H2. unfold torch_randint.
  destruct (Z.ltb_spec size 0); [lia|]. destruct (Z.leb_spec high low); [lia|].
  rewrite bind_run, emit_run. unfold draw. simpl.
  by destruct (randint low high (Z.to_nat size) (w_rng w)).
Qed.

Lemma np_random_zipf_inv a size w r w' :
  np_random_zipf a size w = (Ok r, w') →
  0 ≤ size ∧ float_ltb f_one a = true ∧
  r = (zipf a (Z.to_nat size) (w_rng w)).1 ∧
  w' = World (zipf a (Z.to_nat size) (w_rng w)).2
             (w_log w ++ [Draw_zipf a (Z.to_nat size)]).
Proof.
  unfold np_random_zipf. destruct (float_ltb f_one a); [|discriminate]. simpl.
  destruct (Z.ltb_spec size 0); [discriminate|].
  rewrite bind_run, emit_run. unfold draw. simpl.
  destruct (zipf a (Z.to_nat size) (w_rng w)) as [l g].
  intros [= <- <-]. done.
Qed.

Lemma np_random_zipf_ok a size w :
  0 ≤ size → float_ltb f_one a = true →
  np_random_zipf a size w =
    (Ok (zipf a (Z.to_nat size) (w_rng w)).1,
     World (zipf a (Z.to_nat size) (w_rng w)).2
           (w_log w ++ [Draw_zipf a (Z.to_nat size)])).
Proof.
  intros H1 H2. unfold np_random_zipf. rewrite H2. simpl.
  destruct (Z.ltb_spec size 0); [lia|].
  rewrite bind_run, emit_run. unfold draw. simpl.
  by destruct (zipf a (Z.to_nat size) (w_rng w)).
Qed.

Lemma torch_randn_inv size w r w' :
  torch_randn size w = (Ok r, w') →
  0 ≤ size ∧ r = (randn (Z.to_nat size) (w_rng w)).1 ∧
  w' = World (randn (Z.to_nat size) (w_rng w)).2
             (w_log w ++ [Draw_randn (Z.to_nat size)]).
Proof.
  unfold torch_randn. destruct (Z.ltb_spec size 0); [discriminate|].
  rewrite bind_run, emit_run. unfold draw. simpl.
  destruct (randn (Z.to_nat size) (w_rng w)) as [l g].
  intros [= <- <-]. done.
Qed.

Lemma torch_randn_ok size w :
  0 ≤ size →
  torch_randn size w =
    (Ok (randn (Z.to_nat size) (w_rng w)).1,
     World (randn (Z.to_nat size) (w_rng w)).2
           (w_log w ++ [Draw_randn (Z.to_nat size)])).
Proof.
  intros H. unfold torch_randn. destruct (Z.ltb_spec size 0); [lia|].
  rewrite bind_run, emit_run. unfold draw. simpl.
  by destruct (randn (Z.to_nat size) (w_rng w)).
Qed.

(** ** [generate_requests] *)

Lemma length_linear n m : length (linear n m) = Z.to_nat n.
Proof. unfold linear. by rewrite !length_fmap, length_seq. Qed.

Lemma lookup_linear n m i :
  0 ≤ i < n → linear n m !! Z.to_nat i = Some (i mod m).
Proof.
  intros H. unfold linear. rewrite !list_lookup_fmap.
  rewrite lookup_seq_lt by lia. simpl. f_equal. f_equal. lia.
Qed.

Lemma linear_range n m x : 0 < m → x ∈ linear n m → 0 ≤ x < m.
Proof.
  intros Hm (y & -> & _)%list_elem_of_fmap. apply Z.mod_pos_bound. lia.
Qed.

Lemma generate_requests_inv B L E os alpha wt w idx offs wts w' :
  generate_requests B L E os alpha wt w = (Ok (idx, offs, wts), w') →
  0 ≤ B ∧ 0 ≤ B * L ∧
  length idx = Z.to_nat (B * L) ∧
  (float_eqb alpha f_zero = true → idx = linear (B * L) L) ∧
  (float_eqb alpha f_zero = false → float_leb alpha f_half = true →
   idx = linear (B * L) E) ∧
  (float_eqb alpha f_zero = false → 0 < E → ∀ x, x ∈ idx → 0 ≤ x < E) ∧
  offs = table_offsets B L os ∧
  (if wt then ∃ g, wts = Some (randn (Z.to_nat (B * L)) g).1
   else wts = None) ∧
  ∃ draws,
    w_log w' = w_log w ++ Call_generate_requests B L E os alpha wt :: draws ∧
    Forall (λ e, is_draw e = true) draws.
Proof.
  unfold generate_requests. intros H.
  apply bind_inv in H as ([] & w1 & Hemit & H).
  rewrite emit_run in Hemit. injection Hemit as <-.
  apply bind_inv in H as (idx0 & w2 & Hidx & H).
  apply bind_inv in H as (lengths & w3 & Hlen & H).
  apply np_ones_times_inv in Hlen as (HB & -> & ->).
  apply bind_inv in H as (wts0 & w4 & Hw & H).
  apply ret_inv in H as [[= -> -> ->] ->].
  assert (Hindices :
    0 ≤ B * L ∧ length idx0 = Z.to_nat (B * L) ∧
    (float_eqb alpha f_zero = true → idx0 = linear (B * L) L) ∧
    (float_eqb alpha f_zero = false → float_leb alpha f_half = true →
     idx0 = linear (B * L) E) ∧
    (float_eqb alpha f_zero = false → 0 < E → ∀ x, x ∈ idx0 → 0 ≤ x < E) ∧
    ∃ d1, w_log w2 = (w_log w ++ [Call_generate_requests B L E os alpha wt]) ++ d1 ∧
          Forall (λ e, is_draw e = true) d1).
  { destruct (float_eqb alpha f_zero) eqn:E0.
    - apply bind_inv in Hidx as (r & w5 & Hr & Hidx).
      apply arange_inv in Hr as (Hn & -> & ->).
      apply tensor_rem_inv in Hidx as [-> ->].
      split_and!; try done.
      + apply length_linear.
      + exists []. by rewrite app_nil_r.
    - destruct (float_leb alpha f_half) eqn:E1.
      + apply bind_inv in Hidx as (r & w5 & Hr & Hidx).
        apply arange_inv in Hr as (Hn & -> & ->).
        apply tensor_rem_inv in Hidx as [-> ->].
        split_and!; try done.
        * apply length_linear.
        * intros _ HE x Hx. by apply (linear_range (B * L) E).
        * exists []. by rewrite app_nil_r.
      + destruct (float_leb alpha f_one) eqn:E2.
        * apply torch_randint_inv in Hidx as (Hn & HE & -> & ->).
          split_and!; try done.
          -- apply randint_length.
          -- intros _ _ x Hx. by apply randint_range in Hx.
          -- eexists [_]. split; [done|]. by constructor.
        * apply bind_inv in Hidx as (z & w5 & Hz & Hidx).
          apply np_random_zipf_inv in Hz as (Hn & Ha & -> & ->).
          apply tensor_rem_inv in Hidx as [-> ->].
          split_and!; try done.
          -- by rewrite length_fmap, zipf_length.
          -- intros _ HE x (y & -> & _)%list_elem_of_fmap.
             apply Z.mod_pos_bound. lia.
          -- eexists [_]. split; [done|]. by constructor. }
  destruct Hindices as (Hn & Hlen & Hz & Hh & Hr & d1 & Hlog & Hd1).
  split_and!; try done.
  - destruct wt.
    + apply bind_inv in Hw as (ws & w5 & Hws & Hw).
      apply torch_randn_inv in Hws as (_ & -> & ->).
      apply ret_inv in Hw as [-> ->]. eauto.
    + by apply ret_inv in Hw as [-> ->].
  - destruct wt.
    + apply bind_inv in Hw as (ws & w5 & Hws & Hw).
      apply torch_randn_inv in Hws as (_ & -> & ->).
      apply ret_inv in Hw as [-> ->]. simpl. rewrite Hlog.
      exists (d1 ++ [Draw_randn (Z.to_nat (B * L))]).
      rewrite <- !app_assoc. split; [done|].
      apply Forall_app. split; [done|]. by constructor.
    + apply ret_inv in Hw as [-> ->]. exists d1.
      rewrite Hlog, <- app_assoc. done.
Qed.

Lemma generate_requests_ok B L E os alpha wt w :
  0 ≤ B → 1 ≤ L → 1 ≤ E →
  float_leb alpha f_one = true ∨ float_ltb f_one alpha = true →
  ∃ r w', generate_requests B L E os alpha wt w = (Ok r, w').
Proof.
  intros HB HL HE Ha. unfold generate_requests.
  rewrite bind_run, emit_run. set (w1 := World _ _).
  assert (∃ idx w2,
    (if float_eqb alpha f_zero then
       r ← arange (B * L); tensor_rem r L
     else if float_leb alpha f_half then
       r ← arange (B * L); tensor_rem r E
     else if float_leb alpha f_one then torch_randint 0 E (B * L)
     else z ← np_random_zipf alpha (B * L); tensor_rem z E) w1
    = (Ok idx, w2)) as (idx & w2 & Hidx).
  { destruct (float_eqb alpha f_zero).
    { erewrite bind_ok by (apply arange_ok; lia).
      rewrite tensor_rem_ok by lia. eauto. }
    destruct (float_leb alpha f_half).
    { erewrite bind_ok by (apply arange_ok; lia).
      rewrite tensor_rem_ok by lia. eauto. }
    destruct (float_leb alpha f_one).
    { rewrite torch_randint_ok by lia. eauto. }
    destruct Ha as [Ha|Ha]; [done|].
    erewrite bind_ok by (apply np_random_zipf_ok; [lia|done]).
    rewrite tensor_rem_ok by lia. eauto. }
  erewrite bind_ok by exact Hidx.
  erewrite bind_ok by (apply np_ones_times_ok; lia).
  destruct wt.
  - erewrite bind_ok.
    2:{ erewrite bind_ok by (apply torch_randn_ok; lia). reflexivity. }
    unfold ret. eauto.
  - erewrite bind_ok by reflexivity. unfold ret. eauto.
Qed.

Lemma requested_indices_ok {W} (r : res (list Z * list Z * option (list pyfloat)) * W)
    idx offs wts w' :
  r = (Ok (idx, offs, wts), w') → requested_indices r = Ok idx.
Proof. by intros ->. Qed.

(** C1. For [B, L, E >= 1], [generate_requests] returns [B * L] indices; they
    are [i mod L] when [alpha == 0] and [i mod E] when [0 < alpha <= 0.5],
    and they are the same whatever the state of the random sources (and the
    call log) the call starts from. *)
Theorem generate_requests_linear B L E offset_start alpha weighted w :
  1 ≤ B → 1 ≤ L → 1 ≤ E →
  float_eqb alpha f_zero = true ∨
    (float_ltb f_zero alpha = true ∧ float_leb alpha f_half = true) →
  ∃ indices,
    requested_indices (generate_requests B L E offset_start alpha weighted w)
      = Ok indices ∧
    length indices = Z.to_nat (B * L) ∧
    (float_eqb alpha f_zero = true →
     ∀ i, 0 ≤ i < B * L → indices !! Z.to_nat i = Some (i mod L)) ∧
    (float_ltb f_zero alpha = true → float_leb alpha f_half = true →
     ∀ i, 0 ≤ i < B * L → indices !! Z.to_nat i = Some (i mod E)) ∧
    (∀ w2, requested_indices
             (generate_requests B L E offset_start alpha weighted w2)
           = Ok indices).
Proof.
  intros HB HL HE Ha.
  assert (float_leb alpha f_one = true) as Hle.
  { destruct Ha as [Ha|[_ Ha]];
      [by apply float_zero_le_one | by apply float_half_le_one]. }
  assert (∀ w1, ∃ idx offs wts w',
    generate_requests B L E offset_start alpha weighted w1
      = (Ok (idx, offs, wts), w') ∧
    idx = linear (B * L) (if float_eqb alpha f_zero then L else E)) as Hrun.
  { intros w1.
    destruct (generate_requests_ok B L E offset_start alpha weighted w1)
      as ([[idx offs] wts] & w' & Hrun); [lia|lia|lia|by left|].
    exists idx, offs, wts, w'. split; [done|].
    apply generate_requests_inv in Hrun as (_ & _ & _ & Hz & Hh & _).
    destruct (float_eqb alpha f_zero) eqn:E0; [by apply Hz|].
    destruct Ha as [Ha|[_ Ha]]; [done|]. by apply Hh. }
  destruct (Hrun w) as (idx & offs & wts & w' & Hw & Hidx).
  exists idx. split_and!.
  - by eapply requested_indices_ok.
  - subst idx. apply length_linear.
  - intros E0 i Hi. subst idx. rewrite E0. by apply lookup_linear.
  - intros Hpos _ i Hi. subst idx.
    rewrite (float_pos_nonzero _ Hpos). by apply lookup_linear.
  - intros w2. destruct (Hrun w2) as (idx2 & offs2 & wts2 & w2' & Hw2 & Hidx2).
    subst. by eapply requested_indices_ok.
Qed.

(** C6. For [B, L, E >= 1], when [0.5 < alpha <= 1.0] (uniform draw) and
    when [alpha > 1.0] (Zipfian draw reduced modulo [E]), [generate_requests]
    returns [B * L] indices, each in [[0, E)]. *)
Theorem generate_requests_random_in_range B L E offset_start alpha weighted w :
  1 ≤ B → 1 ≤ L → 1 ≤ E →
  (float_ltb f_half alpha = true ∧ float_leb alpha f_one = true) ∨
    float_ltb f_one alpha = true →
  ∃ indices,
    requested_indices (generate_requests B L E offset_start alpha weighted w)
      = Ok indices ∧
    length indices = Z.to_nat (B * L) ∧
    ∀ x, x ∈ indices → 0 ≤ x < E.
Proof.
  intros HB HL HE Ha.
  destruct (generate_requests_ok B L E offset_start alpha weighted w)
    as ([[idx offs] wts] & w' & Hrun); [lia|lia|lia|tauto|].
  exists idx. split; [by eapply requested_indices_ok|].
  apply generate_requests_inv in Hrun as (_ & _ & Hlen & _ & _ & Hr & _).
  split; [done|]. apply Hr; [|lia].
  destruct Ha as [[Ha _]|Ha].
  - by apply float_above_half in Ha as [? _].
  - by apply float_above_one in Ha as [? _].
Qed.

End SamplerProperties.

(** Witness of C1: two bags of three lookups in a table of ten rows. *)
Lemma generate_requests_linear_witness :
  (1 ≤ 2 ∧ 1 ≤ 3 ∧ 1 ≤ 10 ∧
   (float_eqb f_zero f_zero = true ∨
    (float_ltb f_zero f_zero = true ∧ float_leb f_zero f_half = true))) ∧
  ∃ indices,
    requested_indices
      (generate_requests (RT:=Reference.runtime) 2 3 10 0 f_zero false Reference.w0)
      = Ok indices ∧
    length indices = Z.to_nat (2 * 3) ∧
    (float_eqb f_zero f_zero = true →
     ∀ i, 0 ≤ i < 2 * 3 → indices !! Z.to_nat i = Some (i mod 3)) ∧
    (float_ltb f_zero f_zero = true → float_leb f_zero f_half = true →
     ∀ i, 0 ≤ i < 2 * 3 → indices !! Z.to_nat i = Some (i mod 10)) ∧
    (∀ w2, requested_indices
             (generate_requests (RT:=Reference.runtime) 2 3 10 0 f_zero false w2)
           = Ok indices).
Proof.
  split.
  - split; [lia|]. split; [lia|]. split; [lia|]. left. reflexivity.
  - apply (generate_requests_linear (RT:=Reference.runtime) 2 3 10 0 f_zero false
             Reference.w0); [lia|lia|lia|left; reflexivity].
Defined.

(** Witness of C6: the uniform branch at [alpha = 1]. *)
Lemma generate_requests_random_in_range_witness :
  (1 ≤ 2 ∧ 1 ≤ 3 ∧ 1 ≤ 10 ∧
   ((float_ltb f_half f_one = true ∧ float_leb f_one f_one = true) ∨
    float_ltb f_one f_one = true)) ∧
  ∃ indices,
    requested_indices
      (generate_requests (RT:=Reference.runtime) 2 3 10 0 f_one true Reference.w0)
      = Ok indices ∧
    length indices = Z.to_nat (2 * 3) ∧
    ∀ x, x ∈ indices → 0 ≤ x < 10.
Proof.
  split.
  - split; [lia|]. split; [lia|]. split; [lia|]. left. split; reflexivity.
  - apply (generate_requests_random_in_range (RT:=Reference.runtime)
             2 3 10 0 f_one true Reference.w0);
      [lia|lia|lia|left; split; reflexivity].
Defined.

(** ** The table loop of [get_data] *)

Section ListFacts.

Lemma length_cumsum_from acc l : length (cumsum_from acc l) = length l.
Proof. revert acc. induction l as [|x l IH]; intros acc; simpl; [done|]. by rewrite IH. Qed.

Lemma fmap_add_cumsum_from os acc l :
  Z.add os <$> cumsum_from acc l = cumsum_from (os + acc) l.
Proof.
  revert acc. induction l as [|x l IH]; intros acc; simpl; [done|].
  rewrite IH. by rewrite Z.add_assoc.
Qed.

Lemma head_cumsum_from_replicate acc n L :
  head (cumsum_from acc (replicate (S n) L)) = Some (acc + L).
Proof. reflexivity. Qed.

Lemma last_cumsum_from acc x l :
  last (cumsum_from acc (x :: l)) = Some (acc + sumZ (x :: l)).
Proof.
  revert acc x. induction l as [|y l IH]; intros acc x.
  - simpl. f_equal. lia.
  - change (cumsum_from acc (x :: y :: l))
      with ((acc + x) :: cumsum_from (acc + x) (y :: l)).
    rewrite last_cons, IH. simpl. f_equal. lia.
Qed.

Lemma sumZ_replicate n L : sumZ (replicate n L) = Z.of_nat n * L.
Proof. induction n as [|n IH]; [done|]. simpl replicate. simpl sumZ. rewrite IH. lia. Qed.

Lemma last_cumsum_from_replicate acc n L :
  last (cumsum_from acc (replicate (S n) L)) = Some (acc + Z.of_nat (S n) * L).
Proof.
  change (replicate (S n) L) with (L :: replicate n L).
  rewrite last_cumsum_from. f_equal.
  change (L :: replicate n L) with (replicate (S n) L).
  by rewrite sumZ_replicate.
Qed.

Lemma Sorted_cumsum_from_replicate acc n L :
  0 ≤ L → Sorted Z.le (cumsum_from acc (replicate n L)).
Proof.
  intros HL. revert acc. induction n as [|n IH]; intros acc; simpl.
  - constructor.
  - constructor; [apply IH|].
    destruct n; simpl; constructor. lia.
Qed.

Lemma Sorted_app_last_head {A} (R : relation A) l1 l2 :
  Sorted R l1 → Sorted R l2 →
  (∀ x y, last l1 = Some x → head l2 = Some y → R x y) →
  Sorted R (l1 ++ l2).
Proof.
  intros H1 H2 HR. induction l1 as [|a l1 IH]; simpl; [done|].
  apply Sorted_inv in H1 as [H1 Hhd]. constructor.
  - apply IH; [done|]. intros x y Hx Hy. apply HR; [|done].
    rewrite last_cons, Hx. done.
  - destruct l1 as [|b l1]; simpl.
    + destruct l2 as [|c l2]; constructor. by apply HR.
    + constructor. by apply HdRel_inv in Hhd.
Qed.

Lemma sumZ_app l1 l2 : sumZ (l1 ++ l2) = sumZ l1 + sumZ l2.
Proof. induction l1 as [|x l1 IH]; simpl; [done|]. rewrite IH. lia. Qed.

Lemma sumZ_take_S (l : list Z) k x :
  l !! k = Some x → sumZ (take (S k) l) = sumZ (take k l) + x.
Proof.
  intros H. erewrite take_S_r by done. rewrite sumZ_app. simpl. lia.
Qed.

Lemma sumZ_take_pos (l : list Z) k :
  Forall (λ x, 1 ≤ x) l → (k ≤ length l)%nat → Z.of_nat k ≤ sumZ (take k l).
Proof.
  intros Hl. revert k. induction Hl as [|x l Hx Hl IH]; intros k Hk.
  - simpl in Hk. assert (k = 0%nat) as -> by lia. done.
  - destruct k as [|k]; [done|]. simpl in *.
    specialize (IH k ltac:(lia)). lia.
Qed.

End ListFacts.

Section BuilderProperties.
Context `{RT : Runtime}.
Abbreviation world := (world_of rng).
#[local] Existing Instance M_ret.
#[local] Existing Instance M_bind.

Lemma for_seq_invariant {S} (body : S → nat → M S) (I : nat → S → world → Prop) m :
  ∀ a st w st' w',
    (∀ i st w st' w', (a ≤ i < a + m)%nat →
       I i st w → body st i w = (Ok st', w') → I (Datatypes.S i) st' w') →
    I a st w → for_each body st (seq a m) w = (Ok st', w') →
    I (a + m)%nat st' w'.
Proof.
  induction m as [|m IH]; intros a st w st' w' Hstep HI Hrun.
  - apply ret_inv in Hrun as [-> ->]. by rewrite Nat.add_0_r.
  - simpl in Hrun. apply bind_inv in Hrun as (st1 & w1 & Hbody & Hrun).
    replace (a + Datatypes.S m)%nat with (Datatypes.S a + m)%nat by lia.
    eapply IH; [|eapply Hstep; [|done..]; lia|done].
    intros i ?????. apply Hstep. lia.
Qed.

Lemma table_step_inv bs pfs rows dist wt st i w st' w' :
  table_step bs pfs rows dist wt st i w = (Ok st', w') →
  ∃ pf r alpha B L E idx offs wts,
    pfs !! i = Some pf ∧ rows !! i = Some r ∧ py_float dist = Ok alpha ∧
    as_int bs = Ok B ∧ as_int pf = Ok L ∧ as_int r = Ok E ∧
    generate_requests B L E (offset_start st) alpha (truthy wt) w
      = (Ok (idx, offs, wts), w') ∧
    last offs = Some (offset_start st') ∧
    indices_list st' = indices_list st ++ [idx] ∧
    offsets_list st' = offsets_list st ++ [offs] ∧
    per_sample_weights_list st' =
      (if truthy wt then per_sample_weights_list st ++ [wts]
       else per_sample_weights_list st).
Proof.
  unfold table_step. intros H.
  apply bind_inv in H as (pf & w1 & Hpf & H). apply lift_inv in Hpf as [Hpf ->].
  apply bind_inv in H as (r & w1 & Hr & H). apply lift_inv in Hr as [Hr ->].
  apply bind_inv in H as (alpha & w1 & Ha & H). apply lift_inv in Ha as [Ha ->].
  apply bind_inv in H as (B & w1 & HB & H). apply lift_inv in HB as [HB ->].
  apply bind_inv in H as (L & w1 & HL & H). apply lift_inv in HL as [HL ->].
  apply bind_inv in H as (E & w1 & HE & H). apply lift_inv in HE as [HE ->].
  apply bind_inv in H as ([[idx offs] wts] & w1 & Hgen & H).
  apply bind_inv in H as (lo & w2 & Hlast & H).
  apply ret_inv in H as [-> ->].
  unfold last_item in Hlast. destruct (last offs) as [x|] eqn:Hl; [|discriminate].
  apply ret_inv in Hlast as [-> ->].
  unfold list_item in Hpf, Hr.
  destruct (pfs !! i) as [pf'|] eqn:Hpf'; [|discriminate]. injection Hpf as ->.
  destruct (rows !! i) as [r'|] eqn:Hr'; [|discriminate]. injection Hr as ->.
  exists pf, r, alpha, B, L, E, idx, offs, wts. simpl. split_and!; done.
Qed.

Lemma select_files_eq env a4 wt :
  select_files env a4 wt =
    Ok (indices_source env a4, offsets_source env a4,
        if truthy wt then weights_source env a4 else VNone).
Proof.
  unfold select_files, indices_source, offsets_source, weights_source.
  destruct (has_key a4 "indices_tensor") eqn:Hi; simpl; [|done].
  destruct (has_key a4 "offsets_tensor") eqn:Ho; simpl; [|done].
  unfold has_key in *. apply bool_decide_eq_true in Hi as [vi Hi].
  apply bool_decide_eq_true in Ho as [vo Ho].
  unfold dict_item. rewrite Hi, Ho. simpl.
  destruct (truthy wt); simpl; [|done].
  destruct (bool_decide (is_Some (a4 !! "weights_tensor"))) eqn:Hw.
  - apply bool_decide_eq_true in Hw as [vw Hw]. rewrite Hw. done.
  - apply bool_decide_eq_false in Hw. rewrite <- eq_None_not_Some in Hw.
    rewrite Hw. done.
Qed.

Lemma torch_cat_inv {A} (ts : list (list A)) w r w' :
  torch_cat ts w = (Ok r, w') → ts ≠ [] ∧ r = concat ts ∧ w' = w.
Proof.
  unfold torch_cat. destruct ts; [discriminate|]. intros [= <- <-]. done.
Qed.

Lemma all_tensors_inv {A} (l : list (option (list A))) w ts w' :
  all_tensors l w = (Ok ts, w') → l = Some <$> ts ∧ w' = w.
Proof.
  revert ts. induction l as [|[t|] l IH]; intros ts; simpl.
  - intros [-> ->]%ret_inv. done.
  - intros (r & w1 & Hr & H)%bind_inv. apply ret_inv in H as [-> ->].
    apply IH in Hr as [-> ->]. done.
  - discriminate.
Qed.

(** A batch that [get_data] returns in generation mode is the concatenation
    of the lists the table loop has built. *)
Lemma get_data_generation env files config device w batch w'
    n rows dims pfs bs wt a4 :
  get_data env files config device w = (Ok batch, w') →
  read_config config = Ok (n, rows, dims, pfs, bs, wt) →
  config !! 4%nat = Some a4 →
  sources_supplied env a4 = false →
  ∃ st ws,
    table_loop n bs pfs rows (distribution_of env) wt w = (Ok st, w') ∧
    indices_list st ≠ [] ∧
    (if truthy wt
     then ∃ ts, per_sample_weights_list st = Some <$> ts ∧
                ws = Some (FloatTensor (concat ts))
     else ws = None) ∧
    batch = (LongTensor (concat (indices_list st)),
             LongTensor (concat (offsets_list st)), ws).
Proof.
  unfold get_data. intros H Hcfg Ha4 Hmode.
  apply bind_inv in H as (cfg & w1 & Hc & H). apply lift_inv in Hc as [Hc ->].
  rewrite Hcfg in Hc. injection Hc as <-.
  apply bind_inv in H as (dev & w1 & Hd & H). apply lift_inv in Hd as [_ ->].
  apply bind_inv in H as (a4' & w1 & Hl & H). apply lift_inv in Hl as [Hl ->].
  unfold list_item in Hl. rewrite Ha4 in Hl. injection Hl as <-.
  apply bind_inv in H as ([[fi fo] fw] & w1 & Hf & H).
  apply lift_inv in Hf as [Hf ->]. rewrite select_files_eq in Hf.
  injection Hf as <- <- <-. fold (sources_supplied env a4) in H.
  rewrite Hmode in H.
  apply bind_inv in H as ([[it ot] pw] & w1 & Hg & H).
  unfold generate in Hg.
  apply bind_inv in Hg as (st & w2 & Hloop & Hg).
  apply bind_inv in Hg as (ic & w3 & Hic & Hg).
  apply torch_cat_inv in Hic as (Hne & -> & ->).
  apply bind_inv in Hg as (oc & w3 & Hoc & Hg).
  apply torch_cat_inv in Hoc as (_ & -> & ->).
  apply bind_inv in Hg as (pw' & w3 & Hpw & Hg).
  apply ret_inv in Hg as [[= -> -> ->] ->].
  apply bind_inv in H as (wo & w4 & Hwo & H).
  apply ret_inv in H as [-> ->].
  destruct (truthy wt) eqn:Hwt.
  - apply bind_inv in Hpw as (ts & w5 & Hts & Hpw).
    apply all_tensors_inv in Hts as [Hts ->].
    apply bind_inv in Hpw as (t & w5 & Ht & Hpw).
    apply torch_cat_inv in Ht as (_ & -> & ->).
    apply ret_inv in Hpw as [-> ->].
    apply bind_inv in Hwo as (t & w5 & Ht & Hwo).
    apply ret_inv in Ht as [-> ->]. apply ret_inv in Hwo as [-> ->].
    exists st, (Some (FloatTensor (concat ts))). split_and!; try done.
    eauto.
  - apply ret_inv in Hpw as [-> ->]. apply ret_inv in Hwo as [-> ->].
    exists st, None. split_and!; done.
Qed.

Lemma table_offsets_first B L :
  1 ≤ B → 0 ≤ L →
  Sorted Z.le (table_offsets B L 0) ∧
  head (table_offsets B L 0) = Some 0 ∧
  last (table_offsets B L 0) = Some (B * L) ∧
  Z.of_nat (length (table_offsets B L 0)) = B + 1.
Proof.
  intros HB HL. unfold table_offsets, cumsum. simpl.
  destruct (Z.to_nat B) as [|b] eqn:Hb; [lia|].
  rewrite Z.add_0_r. split_and!.
  - constructor; [by apply Sorted_cumsum_from_replicate|].
    simpl. constructor. lia.
  - done.
  - rewrite last_cons, last_cumsum_from_replicate. f_equal. lia.
  - simpl. rewrite length_cumsum_from, length_replicate. lia.
Qed.

Lemma table_offsets_next B L os :
  1 ≤ B → 0 ≤ L → os ≠ 0 →
  Sorted Z.le (table_offsets B L os) ∧
  head (table_offsets B L os) = Some (os + L) ∧
  last (table_offsets B L os) = Some (os + B * L) ∧
  Z.of_nat (length (table_offsets B L os)) = B.
Proof.
  intros HB HL Hos. unfold table_offsets, cumsum.
  destruct (Z.eqb_spec os 0); [done|].
  rewrite fmap_add_cumsum_from, Z.add_0_r.
  destruct (Z.to_nat B) as [|b] eqn:Hb; [lia|]. split_and!.
  - by apply Sorted_cumsum_from_replicate.
  - done.
  - rewrite last_cumsum_from_replicate. f_equal. lia.
  - rewrite length_cumsum_from, length_replicate. lia.
Qed.

(** What one step of the loop does, with the pooling factor of the table
    identified in the list [Ls] of per-table pooling factors. *)
Lemma table_step_factor n bs pfs rows dist wt st i w st' w' B Ls :
  table_step bs pfs rows dist wt st i w = (Ok st', w') →
  as_int bs = Ok B →
  Forall2 (λ v L, as_int v = Ok L) (take n pfs) Ls →
  (i < n)%nat →
  ∃ r L E alpha idx offs wts,
    Ls !! i = Some L ∧ rows !! i = Some r ∧ as_int r = Ok E ∧
    py_float dist = Ok alpha ∧
    generate_requests B L E (offset_start st) alpha (truthy wt) w
      = (Ok (idx, offs, wts), w') ∧
    last offs = Some (offset_start st') ∧
    indices_list st' = indices_list st ++ [idx] ∧
    offsets_list st' = offsets_list st ++ [offs] ∧
    per_sample_weights_list st' =
      (if truthy wt then per_sample_weights_list st ++ [wts]
       else per_sample_weights_list st).
Proof.
  intros Hstep HB HLs Hi.
  apply table_step_inv in Hstep
    as (pf & r & alpha & B' & L & E & idx & offs & wts & Hpf & Hr & Ha & HB'
        & HL & HE & Hgen & Hlast & Hil & Hol & Hwl).
  rewrite HB in HB'. injection HB' as <-.
  rewrite <- (lookup_take_lt _ n) in Hpf by done.
  destruct (Forall2_lookup_l _ _ _ _ _ HLs Hpf) as (L' & HL' & HpfL).
  rewrite HL in HpfL. injection HpfL as <-.
  exists r, L, E, alpha, idx, offs, wts. split_and!; done.
Qed.

Lemma table_loop_offsets n bs pfs rows dist wt w st w' B Ls :
  table_loop n bs pfs rows dist wt w = (Ok st, w') →
  as_int bs = Ok B →
  Forall2 (λ v L, as_int v = Ok L) (take (Z.to_nat n) pfs) Ls →
  1 ≤ B → Forall (λ L, 1 ≤ L) Ls →
  offsets_inv B Ls (Z.to_nat n) st.
Proof.
  intros Hloop HB HLs HB1 HL1. unfold table_loop, py_range in Hloop.
  eapply (for_seq_invariant _ (λ k st _, offsets_inv B Ls k st)
            (Z.to_nat n) 0%nat) in Hloop; [done| |].
  2:{ unfold offsets_inv. simpl. rewrite Z.mul_0_r. done. }
  clear st w w' Hloop. intros i st w st' w' Hi (Hlen & Hos & Hidx & Hoff) Hstep.
  eapply table_step_factor in Hstep
    as (r & L & E & alpha & idx & offs & wts & HL & Hr & HE & Ha & Hgen
        & Hlast & Hil & Hol & Hwl); [|done..|lia].
  pose proof (Forall_lookup_1 _ _ _ _ HL1 HL) as HL'. simpl in HL'.
  pose proof (lookup_lt_Some _ _ _ HL) as HiL.
  apply generate_requests_inv in Hgen
    as (_ & HBL & Hlidx & _ & _ & _ & Hoffs & _).
  rewrite Hos in Hoffs.
  assert (offset_start st' = B * sumZ (take (S i) Ls)
          ∧ match i with
            | O => offs = table_offsets B L 0
            | S _ => offs = table_offsets B L (offset_start st)
                     ∧ offset_start st ≠ 0
            end) as [Hos' Hshape].
  { rewrite (sumZ_take_S _ _ _ HL). destruct i as [|j].
    - simpl in Hoffs. rewrite Z.mul_0_r in Hoffs. split; [|done].
      destruct (table_offsets_first B L) as (_ & _ & Hl & _); [lia..|].
      rewrite <- Hoffs, Hlast in Hl. injection Hl as ->. simpl. lia.
    - pose proof (sumZ_take_pos Ls (S j) HL1 ltac:(lia)) as Hpos.
      assert (B * sumZ (take (S j) Ls) ≠ 0) as Hne by nia.
      destruct (table_offsets_next B L _ ltac:(lia) ltac:(lia) Hne)
        as (_ & _ & Hl & _).
      rewrite <- Hoffs, Hlast in Hl. injection Hl as ->.
      split; [lia|]. rewrite Hos. done. }
  unfold offsets_inv. rewrite Hil, Hol, !concat_app. simpl.
  rewrite !app_nil_r, !length_app, Hlen. simpl.
  split; [lia|]. split; [done|].
  split; [rewrite (sumZ_take_S _ _ _ HL), Hlidx; lia|].
  destruct i as [|j].
  - rewrite Hoff. simpl. subst offs.
    destruct (table_offsets_first B L) as (Hs & Hh & Hl & Hn); [lia..|].
    rewrite Hshape in *. rewrite Hos'. split_and!; try done.
    + rewrite Hl. f_equal. rewrite (sumZ_take_S _ _ _ HL). simpl. lia.
    + lia.
  - destruct Hshape as [-> Hne]. destruct Hoff as (Hs & Hh & Hl & Hn).
    destruct (table_offsets_next B L (offset_start st)) as (Hs2 & Hh2 & Hl2 & Hn2);
      [lia..|done|].
    rewrite Hos in Hlast. rewrite <- Hos in Hlast.
    split_and!.
    + apply Sorted_app_last_head; [done..|].
      intros x y Hx Hy. rewrite Hl in Hx. rewrite Hh2 in Hy.
      injection Hx as <-. injection Hy as <-. lia.
    + rewrite head_app. by rewrite Hh.
    + rewrite last_app. by rewrite Hlast.
    + lia.
Qed.

(** C3. In generation mode with at least one table, batch size [B >= 1] and
    pooling factors [L_i >= 1], the offsets of the batch are non-decreasing,
    start at 0, end at the number of indices, which is [B] times the sum of
    the [L_i], and there are [num_tables * B + 1] of them. *)
Theorem get_data_offsets env files config device w indices offsets weights w'
    n rows dims pfs bs wt a4 B Ls :
  get_data env files config device w = (Ok (indices, offsets, weights), w') →
  read_config config = Ok (n, rows, dims, pfs, bs, wt) →
  config !! 4%nat = Some a4 →
  sources_supplied env a4 = false →
  as_int bs = Ok B →
  Forall2 (λ v L, as_int v = Ok L) (take (Z.to_nat n) pfs) Ls →
  1 ≤ n → 1 ≤ B → Forall (λ L, 1 ≤ L) Ls →
  ∃ idx offs,
    indices = LongTensor idx ∧ offsets = LongTensor offs ∧
    Sorted Z.le offs ∧
    head offs = Some 0 ∧
    last offs = Some (Z.of_nat (length idx)) ∧
    Z.of_nat (length idx) = B * sumZ Ls ∧
    Z.of_nat (length offs) = n * B + 1.
Proof.
  intros Hrun Hcfg Ha4 Hmode HB HLs Hn HB1 HL1.
  destruct (get_data_generation _ _ _ _ _ _ _ _ _ _ _ _ _ _ Hrun Hcfg Ha4 Hmode)
    as (st & ws & Hloop & _ & _ & [= -> -> ->]).
  pose proof (table_loop_offsets _ _ _ _ _ _ _ _ _ _ _ Hloop HB HLs HB1 HL1)
    as (Hlen & Hos & Hidx & Hoff).
  assert (take (Z.to_nat n) Ls = Ls) as HLs_all.
  { apply take_ge. rewrite <- (Forall2_length _ _ _ HLs), length_take. lia. }
  rewrite HLs_all in *.
  destruct (Z.to_nat n) as [|k] eqn:Hk; [lia|].
  destruct Hoff as (Hs & Hh & Hl & Hcount).
  eexists _, _. split_and!; try done.
  - rewrite Hl, Hidx, Hos. done.
  - lia.
Qed.

(** *** Weights *)

Lemma length_drawn_weights idxs gs :
  length gs = length idxs →
  length (concat (drawn_weights idxs gs)) = length (concat idxs).
Proof.
  revert gs. induction idxs as [|idx idxs IH]; intros [|g gs] Hlen;
    simpl in *; try done.
  rewrite !length_app, randn_length. f_equal. apply IH. lia.
Qed.

Lemma fmap_Some_drawn_weights idxs gs :
  zip_with (λ idx g, Some (randn (length idx) g).1) idxs gs
  = Some <$> drawn_weights idxs gs.
Proof.
  revert gs. induction idxs as [|idx idxs IH]; intros [|g gs]; simpl; try done.
  by rewrite IH.
Qed.

Lemma table_loop_weights n bs pfs rows dist wt w st w' :
  table_loop n bs pfs rows dist wt w = (Ok st, w') →
  truthy wt = true →
  ∃ gs, length gs = length (indices_list st) ∧
        per_sample_weights_list st = Some <$> drawn_weights (indices_list st) gs.
Proof.
  intros Hloop Hwt. unfold table_loop, py_range in Hloop.
  eapply (for_seq_invariant _
            (λ _ st _, ∃ gs, length gs = length (indices_list st) ∧
               per_sample_weights_list st
               = Some <$> drawn_weights (indices_list st) gs)
            (Z.to_nat n) 0%nat) in Hloop; [done| |by exists []].
  clear st w w' Hloop. intros i st w st' w' _ (gs & Hlen & Hws) Hstep.
  apply table_step_inv in Hstep
    as (pf & r & alpha & B & L & E & idx & offs & wts & _ & _ & _ & _ & _ & _
        & Hgen & _ & Hil & _ & Hwl).
  apply generate_requests_inv in Hgen as (_ & _ & Hlidx & _ & _ & _ & _ & Hw & _).
  rewrite Hwt in Hw, Hwl. destruct Hw as [g ->].
  exists (gs ++ [g]). rewrite Hil, Hwl, Hws, !length_app, Hlen. split; [done|].
  unfold drawn_weights. rewrite zip_with_app by done.
  rewrite fmap_app. simpl. by rewrite Hlidx.
Qed.

(** C7. In generation mode, when [weighted] is true the batch has weights,
    as many as indices, each table's being one draw of [randn] of the size of
    that table's indices; when [weighted] is false the weights are [None]. *)
Theorem get_data_weights env files config device w indices offsets weights w'
    n rows dims pfs bs wt a4 :
  get_data env files config device w = (Ok (indices, offsets, weights), w') →
  read_config config = Ok (n, rows, dims, pfs, bs, wt) →
  config !! 4%nat = Some a4 →
  sources_supplied env a4 = false →
  (truthy wt = true →
   ∃ idx ws,
     indices = LongTensor idx ∧ weights = Some (FloatTensor ws) ∧
     length ws = length idx ∧
     ∃ idxs gs, idx = concat idxs ∧ length gs = length idxs ∧
                ws = concat (drawn_weights idxs gs)) ∧
  (truthy wt = false → weights = None).
Proof.
  intros Hrun Hcfg Ha4 Hmode.
  destruct (get_data_generation _ _ _ _ _ _ _ _ _ _ _ _ _ _ Hrun Hcfg Ha4 Hmode)
    as (st & ws & Hloop & _ & Hws & [= -> -> ->]).
  split; intros Hwt; rewrite Hwt in Hws; [|done].
  destruct Hws as (ts & Hts & ->).
  destruct (table_loop_weights _ _ _ _ _ _ _ _ _ Hloop Hwt) as (gs & Hlen & Hdrawn).
  rewrite Hts in Hdrawn. apply (inj (fmap Some)) in Hdrawn as ->.
  eexists _, _. split_and!; try done.
  - by apply length_drawn_weights.
  - eauto.
Qed.

(** *** Indices *)

Lemma table_loop_indices n bs pfs rows dist wt w st w' alpha :
  table_loop n bs pfs rows dist wt w = (Ok st, w') →
  py_float dist = Ok alpha →
  indices_inv alpha pfs rows (Z.to_nat n) st.
Proof.
  intros Hloop Ha. unfold table_loop, py_range in Hloop.
  eapply (for_seq_invariant _ (λ k st _, indices_inv alpha pfs rows k st)
            (Z.to_nat n) 0%nat) in Hloop; [done| |].
  2:{ split; [done|]. intros i idx Hi. simpl in Hi. by destruct i. }
  clear st w w' Hloop. intros i st w st' w' _ [Hlen Hall] Hstep.
  apply table_step_inv in Hstep
    as (pf & r & alpha' & B & L & E & idx & offs & wts & Hpf & Hr & Ha' & _
        & HL & HE & Hgen & _ & Hil & _ & _).
  rewrite Ha in Ha'. injection Ha' as <-.
  apply generate_requests_inv in Hgen
    as (_ & HBL & Hlidx & Hz & _ & Hrange & _).
  split; [rewrite Hil, length_app, Hlen; simpl; lia|].
  intros j idx' Hj. rewrite Hil in Hj.
  apply lookup_app_Some in Hj as [Hj|[Hge Hj]]; [by apply Hall|].
  rewrite Hlen in Hj, Hge.
  destruct (j - i)%nat as [|d] eqn:Hd; [|by rewrite lookup_cons, lookup_nil in Hj].
  assert (j = i) as -> by lia. injection Hj as <-.
  exists pf, r, L, E. split_and!; try done.
  intros E0. rewrite Hlidx, Z2Nat.id by done. by apply Hz.
Qed.

(** The indices the loop has collected for table [i] are the [B * L_i]
    indices of that table's call. *)
Lemma table_loop_index_lengths n bs pfs rows dist wt w st w' B :
  table_loop n bs pfs rows dist wt w = (Ok st, w') →
  as_int bs = Ok B →
  ∀ i idx, indices_list st !! i = Some idx →
    ∃ pf L, pfs !! i = Some pf ∧ as_int pf = Ok L ∧
            length idx = Z.to_nat (B * L).
Proof.
  intros Hloop HB. unfold table_loop, py_range in Hloop.
  eapply (for_seq_invariant _
    (λ k st _, length (indices_list st) = k ∧
       ∀ i idx, indices_list st !! i = Some idx →
         ∃ pf L, pfs !! i = Some pf ∧ as_int pf = Ok L ∧
                 length idx = Z.to_nat (B * L))
    (Z.to_nat n) 0%nat) in Hloop; [by destruct Hloop| |].
  2:{ split; [done|]. intros i idx Hi. simpl in Hi. by destruct i. }
  clear st w w' Hloop. intros i st w st' w' _ [Hlen Hall] Hstep.
  apply table_step_inv in Hstep
    as (pf & r & alpha' & B' & L & E & idx & offs & wts & Hpf & Hr & _ & HB'
        & HL & HE & Hgen & _ & Hil & _ & _).
  rewrite HB in HB'. injection HB' as <-.
  apply generate_requests_inv in Hgen as (_ & _ & Hlidx & _).
  split; [rewrite Hil, length_app, Hlen; simpl; lia|].
  intros j idx' Hj. rewrite Hil in Hj.
  apply lookup_app_Some in Hj as [Hj|[Hge Hj]]; [by apply Hall|].
  rewrite Hlen in Hj, Hge.
  destruct (j - i)%nat as [|d] eqn:Hd; [|by rewrite lookup_cons, lookup_nil in Hj].
  assert (j = i) as -> by lia. injection Hj as <-.
  by exists pf, L.
Qed.

(** C2, as the code has it. In generation mode the returned indices are the
    indices of the tables one after the other, [B * L_i] of them for table
    [i]; those of table [i] lie in [[0, L_i)] when [alpha == 0] and in
    [[0, rows_i)] otherwise; so they lie in [[0, rows_i)] whenever
    [alpha != 0] or [L_i <= rows_i]. *)
Theorem get_data_indices_in_range env files config device w indices offsets
    weights w' n rows dims pfs bs wt a4 B alpha :
  get_data env files config device w = (Ok (indices, offsets, weights), w') →
  read_config config = Ok (n, rows, dims, pfs, bs, wt) →
  config !! 4%nat = Some a4 →
  sources_supplied env a4 = false →
  as_int bs = Ok B →
  py_float (distribution_of env) = Ok alpha →
  ∃ idxs,
    indices = LongTensor (concat idxs) ∧ length idxs = Z.to_nat n ∧
    ∀ i idx, idxs !! i = Some idx →
      ∃ pf r L E,
        pfs !! i = Some pf ∧ as_int pf = Ok L ∧
        rows !! i = Some r ∧ as_int r = Ok E ∧
        length idx = Z.to_nat (B * L) ∧
        (1 ≤ L → 1 ≤ E → ∀ x, x ∈ idx →
           (float_eqb alpha f_zero = true → 0 ≤ x < L) ∧
           (float_eqb alpha f_zero = false ∨ L ≤ E → 0 ≤ x < E)).
Proof.
  intros Hrun Hcfg Ha4 Hmode HB Ha.
  destruct (get_data_generation _ _ _ _ _ _ _ _ _ _ _ _ _ _ Hrun Hcfg Ha4 Hmode)
    as (st & ws & Hloop & _ & _ & [= -> -> ->]).
  destruct (table_loop_indices _ _ _ _ _ _ _ _ _ _ Hloop Ha) as [Hlen Hall].
  pose proof (table_loop_index_lengths _ _ _ _ _ _ _ _ _ _ Hloop HB) as Hlens.
  exists (indices_list st). split_and!; try done.
  intros i idx Hi. destruct (Hall i idx Hi)
    as (pf & r & L & E & Hpf & HL & Hr & HE & Hz & Hnz).
  destruct (Hlens i idx Hi) as (pf' & L' & Hpf' & HL' & Hlidx).
  rewrite Hpf in Hpf'. injection Hpf' as <-.
  rewrite HL in HL'. injection HL' as <-.
  exists pf, r, L, E. split_and!; try done.
  intros HL1 HE1 x Hx.
  assert (float_eqb alpha f_zero = true → 0 ≤ x < L) as HinL.
  { intros E0. specialize (Hz E0). rewrite Hz in Hx.
    apply linear_range in Hx; lia. }
  split; [done|].
  destruct (float_eqb alpha f_zero) eqn:E0.
  - intros [?|Hle]; [done|]. specialize (HinL eq_refl). lia.
  - intros _. apply Hnz; [done|lia|done].
Qed.

(** *** Chaining of the offsets *)




(** *** Generation mode returns *)

Lemma for_seq_ok {S} (body : S → nat → M S) m :
  ∀ a,
    (∀ i st w, (a ≤ i < a + m)%nat → ∃ st' w', body st i w = (Ok st', w')) →
    ∀ st w, ∃ st' w', for_each body st (seq a m) w = (Ok st', w').
Proof.
  induction m as [|m IH]; intros a Hbody st w; simpl.
  - unfold ret. eauto.
  - destruct (Hbody a st w ltac:(lia)) as (st1 & w1 & H1).
    rewrite (bind_ok _ _ _ _ _ H1). apply IH.
    intros i st2 w2 Hi. apply Hbody. lia.
Qed.

Lemma table_offsets_nonempty B L os : 1 ≤ B → table_offsets B L os ≠ [].
Proof.
  intros HB. unfold table_offsets, cumsum.
  destruct (os =? 0); [done|].
  destruct (Z.to_nat B) as [|b] eqn:Hb; [lia|]. done.
Qed.

Lemma table_step_ok bs pfs rows dist wt st i w pf r B L E alpha :
  pfs !! i = Some pf → rows !! i = Some r → py_float dist = Ok alpha →
  as_int bs = Ok B → as_int pf = Ok L → as_int r = Ok E →
  1 ≤ B → 1 ≤ L → 1 ≤ E →
  float_leb alpha f_one = true ∨ float_ltb f_one alpha = true →
  ∃ st' w', table_step bs pfs rows dist wt st i w = (Ok st', w').
Proof.
  intros Hpf Hr Ha HB HL HE HB1 HL1 HE1 Hcmp. unfold table_step.
  rewrite bind_run. unfold lift at 1, list_item. rewrite Hpf.
  rewrite bind_run. unfold lift at 1, list_item. rewrite Hr.
  rewrite bind_run. unfold lift at 1. rewrite Ha.
  rewrite bind_run. unfold lift at 1. rewrite HB.
  rewrite bind_run. unfold lift at 1. rewrite HL.
  rewrite bind_run. unfold lift at 1. rewrite HE.
  destruct (generate_requests_ok B L E (offset_start st) alpha (truthy wt) w)
    as ([[idx offs] wts] & w1 & Hgen); [lia|done..|].
  rewrite (bind_ok _ _ _ _ _ Hgen).
  apply generate_requests_inv in Hgen as (_ & _ & _ & _ & _ & _ & -> & _).
  unfold last_item. rewrite bind_run.
  destruct (last (table_offsets B L (offset_start st))) as [x|] eqn:Hl.
  - unfold ret. eauto.
  - apply last_None in Hl. by apply table_offsets_nonempty in Hl.
Qed.

Lemma all_tensors_ok {A} (ts : list (list A)) w :
  all_tensors (Some <$> ts) w = (Ok ts, w).
Proof.
  induction ts as [|t ts IH]; simpl; [done|].
  by rewrite (bind_ok _ _ _ _ _ IH).
Qed.

Lemma torch_cat_ok {A} (ts : list (list A)) w :
  ts ≠ [] → torch_cat ts w = (Ok (concat ts), w).
Proof. intros H. unfold torch_cat. by destruct ts. Qed.

Lemma generate_returns n bs pfs rows dist wt w st w1 :
  table_loop n bs pfs rows dist wt w = (Ok st, w1) →
  indices_list st ≠ [] → offsets_list st ≠ [] →
  (truthy wt = true →
   ∃ ts, ts ≠ [] ∧ per_sample_weights_list st = Some <$> ts) →
  ∃ it ot ws,
    generate n bs pfs rows dist wt w = (Ok (it, ot, ws), w1) ∧
    (truthy wt = true → is_Some ws).
Proof.
  intros Hloop Hil Hol Hws. unfold generate.
  rewrite (bind_ok _ _ _ _ _ Hloop).
  rewrite (bind_ok _ _ _ _ _ (torch_cat_ok _ w1 Hil)).
  rewrite (bind_ok _ _ _ _ _ (torch_cat_ok _ w1 Hol)).
  destruct (truthy wt) eqn:Hwt.
  - destruct (Hws eq_refl) as (ts & Hne & ->).
    erewrite bind_ok.
    2:{ rewrite (bind_ok _ _ _ _ _ (all_tensors_ok ts w1)).
        rewrite (bind_ok _ _ _ _ _ (torch_cat_ok _ w1 Hne)). reflexivity. }
    unfold ret. eauto 7.
  - erewrite bind_ok by reflexivity. unfold ret.
    eexists _, _, _. split; [done|]. done.
Qed.

(** X26. In generation mode [get_data] returns a batch as soon as the
    configuration is read, the device is accepted, there is at least one
    table, the batch size, the pooling factors and the table sizes are at
    least 1, and the skew is a number. *)
Theorem get_data_generation_returns env files config device w
    n rows dims pfs bs wt a4 B alpha :
  read_config config = Ok (n, rows, dims, pfs, bs, wt) →
  device_ok device = true →
  config !! 4%nat = Some a4 →
  sources_supplied env a4 = false →
  1 ≤ n → as_int bs = Ok B → 1 ≤ B →
  py_float (distribution_of env) = Ok alpha →
  float_leb alpha f_one = true ∨ float_ltb f_one alpha = true →
  (∀ i, (i < Z.to_nat n)%nat →
     ∃ pf L r E, pfs !! i = Some pf ∧ as_int pf = Ok L ∧ 1 ≤ L ∧
                 rows !! i = Some r ∧ as_int r = Ok E ∧ 1 ≤ E) →
  ∃ batch w', get_data env files config device w = (Ok batch, w').
Proof.
  intros Hcfg Hd Ha4 Hmode Hn HB HB1 Ha Hcmp Htables. unfold get_data.
  rewrite bind_run. unfold lift at 1. rewrite Hcfg.
  rewrite bind_run. unfold lift at 1, torch_device. rewrite Hd.
  rewrite bind_run. unfold lift at 1, list_item. rewrite Ha4.
  rewrite bind_run. unfold lift at 1. rewrite select_files_eq.
  fold (sources_supplied env a4). rewrite Hmode.
  destruct (for_seq_ok
              (table_step bs pfs rows (distribution_of env) wt) (Z.to_nat n) 0%nat)
    with (st := LoopState [] [] [] 0) (w := w) as (st & w1 & Hloop).
  { intros i st w2 Hi.
    destruct (Htables i ltac:(lia)) as (pf & L & r & E & Hpf & HL & HL1 & Hr & HE & HE1).
    by eapply table_step_ok. }
  fold (py_range n) in Hloop.
  fold (table_loop n bs pfs rows (distribution_of env) wt) in Hloop.
  destruct (table_loop_indices _ _ _ _ _ _ _ _ _ _ Hloop Ha) as [Hlen _].
  assert (length (offsets_list st) = Z.to_nat n) as Hlen_offs.
  { pose proof Hloop as Hloop'. unfold table_loop, py_range in Hloop'.
    eapply (for_seq_invariant _ (λ k st _, length (offsets_list st) = k)
              (Z.to_nat n) 0%nat) in Hloop'; [done| |done].
    intros i st0 w0 st' w' _ Hk Hstep.
    apply table_step_inv in Hstep
      as (? & ? & ? & ? & ? & ? & ? & ? & ? & _ & _ & _ & _ & _ & _ & _ & _ & _ & Hol & _).
    rewrite Hol, length_app, Hk. simpl. lia. }
  destruct (generate_returns _ _ _ _ _ _ _ _ _ Hloop)
    as (it & ot & ws & Hgen & Hsome).
  { intros Hnil. rewrite Hnil in Hlen. simpl in Hlen. lia. }
  { intros Hnil. rewrite Hnil in Hlen_offs. simpl in Hlen_offs. lia. }
  { intros Hwt.
    destruct (table_loop_weights _ _ _ _ _ _ _ _ _ Hloop Hwt) as (gs & Hgs & Hws).
    eexists. split; [|exact Hws]. intros Hnil.
    apply (f_equal length) in Hnil. unfold drawn_weights in Hnil.
    rewrite length_zip_with in Hnil. simpl in Hnil. lia. }
  rewrite (bind_ok _ _ _ _ _ Hgen).
  destruct (truthy wt).
  - destruct (Hsome eq_refl) as [t ->]. simpl.
    erewrite bind_ok by reflexivity. unfold ret. eauto.
  - erewrite bind_ok by reflexivity. unfold ret. eauto.
Qed.

(** *** Override mode *)

Lemma torch_load_run files f w :
  (∃ p t, f = VStr p ∧ files !! p = Some t ∧
          torch_load files f w = (Ok t, World (w_rng w) (w_log w ++ [Load p])))
  ∨ (∃ e, torch_load files f w = (Raise e, w)).
Proof.
  unfold torch_load. destruct f; try (right; eexists; reflexivity).
  destruct (files !! s) as [t|] eqn:Hf; [|right; eexists; reflexivity].
  left. eauto.
Qed.

Lemma load_tensors_run files fi fo fw w :
  ∃ r paths,
    load_tensors files fi fo fw w
      = (r, World (w_rng w) (w_log w ++ (Load <$> paths))) ∧
    loaded_from fi fo fw paths ∧
    (∀ it ot pw, r = Ok (it, ot, pw) → truthy fw = false → pw = None).
Proof.
  unfold load_tensors. rewrite bind_run.
  destruct (torch_load_run files fi w) as [(pi & ti & -> & Hpi & ->)|[e ->]].
  2:{ exists (Raise e), []. simpl. rewrite app_nil_r. destruct w.
      split_and!; try done; intros i p Hi; by destruct i. }
  rewrite bind_run.
  destruct (torch_load_run files fo (World (w_rng w) (w_log w ++ [Load pi])))
    as [(po & to & -> & Hpo & ->)|[e ->]].
  2:{ exists (Raise e), [pi]. split_and!; try done;
        intros [|[|i]] p Hi; simplify_eq/=; split_and!; try done; lia. }
  simpl. rewrite bind_run. destruct (truthy fw) eqn:Hfw.
  - rewrite bind_run.
    destruct (torch_load_run files fw
                (World (w_rng w) ((w_log w ++ [Load pi]) ++ [Load po])))
      as [(pw & tw & -> & Hpw & ->)|[e ->]].
    + eexists _, [pi; po; pw]. simpl. rewrite <- !app_assoc. simpl.
      split_and!; try done;
        intros [|[|[|i]]] p Hi; simplify_eq/=; split_and!; try done; lia.
    + exists (Raise e), [pi; po]. simpl. rewrite <- !app_assoc. simpl.
      split_and!; try done;
        intros [|[|i]] p Hi; simplify_eq/=; split_and!; try done; lia.
  - eexists _, [pi; po]. simpl. rewrite <- !app_assoc. simpl.
    split_and!; try done.
    + intros [|[|i]] p Hi; simplify_eq/=; split_and!; try done; lia.
    + intros it ot pw [= _ _ <-] _. done.
Qed.

Lemma get_data_read_config_raises env files config device w e :
  read_config config = Raise e →
  get_data env files config device w = (Raise e, w).
Proof. intros H. unfold get_data. rewrite bind_run. unfold lift. by rewrite H. Qed.

Lemma get_data_device_raises env files config device w cfg :
  read_config config = Ok cfg → device_ok device = false →
  ∃ e, get_data env files config device w = (Raise e, w).
Proof.
  intros H Hd. unfold get_data. rewrite bind_run. unfold lift. rewrite H.
  destruct cfg as [[[[[n rows] dims] pfs] bs] wt].
  rewrite bind_run. unfold torch_device. rewrite Hd. eauto.
Qed.

(** [get_data] in override mode, once the configuration has been read. *)
Lemma get_data_override env files config device w n rows dims pfs bs wt a4 :
  read_config config = Ok (n, rows, dims, pfs, bs, wt) →
  device_ok device = true →
  config !! 4%nat = Some a4 →
  sources_supplied env a4 = true →
  get_data env files config device w =
    match load_tensors files (indices_source env a4) (offsets_source env a4)
            (if truthy wt then weights_source env a4 else VNone) w with
    | (Ok (it, ot, pw), w1) =>
        if truthy wt then
          match pw with
          | Some t => (Ok (it, ot, Some t), w1)
          | None =>
              (Raise (AttributeError "'NoneType' object has no attribute 'to'"), w1)
          end
        else (Ok (it, ot, None), w1)
    | (Raise e, w1) => (Raise e, w1)
    end.
Proof.
  intros Hcfg Hd Ha4 Hmode. unfold get_data.
  rewrite bind_run. unfold lift at 1. rewrite Hcfg.
  rewrite bind_run. unfold lift at 1, torch_device. rewrite Hd.
  rewrite bind_run. unfold lift at 1, list_item. rewrite Ha4.
  rewrite bind_run. unfold lift at 1. rewrite select_files_eq.
  fold (sources_supplied env a4). rewrite Hmode. rewrite bind_run.
  destruct (load_tensors _ _ _ _ w) as [[[[it ot] pw]|e] w1]; [|done].
  rewrite bind_run. destruct (truthy wt); [|done].
  rewrite bind_run. by destruct pw.
Qed.

(** C8. When both an indices source and an offsets source are supplied,
    [get_data] leaves the random sources untouched and its only calls are
    loads: [generate_requests] is not called and nothing is drawn. A third
    load, that of the weights, takes place only when [weighted] is true and
    the weights source names the file. *)
Theorem get_data_override_never_samples env files config device a4 w :
  config !! 4%nat = Some a4 →
  sources_supplied env a4 = true →
  ∃ paths,
    w_rng (get_data env files config device w).2 = w_rng w ∧
    w_log (get_data env files config device w).2 = w_log w ++ (Load <$> paths) ∧
    (∀ i p, paths !! i = Some p →
       (i < 3)%nat ∧
       (i = 0%nat → indices_source env a4 = VStr p) ∧
       (i = 1%nat → offsets_source env a4 = VStr p) ∧
       (i = 2%nat →
        ∃ n rows dims pfs bs wt,
          read_config config = Ok (n, rows, dims, pfs, bs, wt) ∧
          truthy wt = true ∧ weights_source env a4 = VStr p)).
Proof.
  intros Ha4 Hmode.
  assert (∃ c, read_config config = c) as [c Hcfg] by eauto.
  destruct c as [[[[[[n rows] dims] pfs] bs] wt]|e].
  2:{ rewrite (get_data_read_config_raises _ _ _ _ _ _ Hcfg).
      exists []. simpl. rewrite app_nil_r. split_and!; try done;
        intros i p Hi; by destruct i. }
  destruct (device_ok device) eqn:Hd.
  2:{ destruct (get_data_device_raises env files config device w _ Hcfg Hd)
        as [e ->].
      exists []. simpl. rewrite app_nil_r. split_and!; try done;
        intros i p Hi; by destruct i. }
  rewrite (get_data_override _ _ _ _ _ _ _ _ _ _ _ _ Hcfg Hd Ha4 Hmode).
  destruct (load_tensors_run files (indices_source env a4)
              (offsets_source env a4)
              (if truthy wt then weights_source env a4 else VNone) w)
    as (r & paths & -> & Hpaths & _).
  exists paths.
  assert (∀ i p, paths !! i = Some p →
       (i < 3)%nat ∧
       (i = 0%nat → indices_source env a4 = VStr p) ∧
       (i = 1%nat → offsets_source env a4 = VStr p) ∧
       (i = 2%nat →
        ∃ n rows dims pfs bs wt,
          read_config config = Ok (n, rows, dims, pfs, bs, wt) ∧
          truthy wt = true ∧ weights_source env a4 = VStr p)) as Hp.
  { intros i p Hi. destruct (Hpaths i p Hi) as (Hlt & H0 & H1 & H2).
    split_and!; try done. intros Hi2. destruct (H2 Hi2) as [Hfw Htr].
    exists n, rows, dims, pfs, bs, wt.
    destruct (truthy wt); [done|discriminate]. }
  destruct r as [[[it ot] pw]|e]; [destruct (truthy wt); [destruct pw|]|];
    simpl; (split; [done|split; [done|exact Hp]]).
Qed.

(** C10. In override mode with [weighted] true and no weights source,
    [get_data] raises; when the configuration is read, the device is
    accepted and the two files load, what it raises is the attribute error
    of [None.to(...)], after the two loads. *)
Theorem get_data_override_unweighted_source_raises env files config device w
    n rows dims pfs bs wt a4 :
  read_config config = Ok (n, rows, dims, pfs, bs, wt) →
  config !! 4%nat = Some a4 →
  sources_supplied env a4 = true →
  truthy wt = true →
  truthy (weights_source env a4) = false →
  raised (get_data env files config device w).1 = true ∧
  (∀ pi po ti to,
     device_ok device = true →
     indices_source env a4 = VStr pi → files !! pi = Some ti →
     offsets_source env a4 = VStr po → files !! po = Some to →
     get_data env files config device w =
       (Raise (AttributeError "'NoneType' object has no attribute 'to'"),
        World (w_rng w) (w_log w ++ [Load pi; Load po]))).
Proof.
  intros Hcfg Ha4 Hmode Hwt Hsrc.
  destruct (device_ok device) eqn:Hd.
  2:{ destruct (get_data_device_raises env files config device w _ Hcfg Hd)
        as [e ->]. done. }
  rewrite (get_data_override _ _ _ _ _ _ _ _ _ _ _ _ Hcfg Hd Ha4 Hmode).
  rewrite Hwt. split.
  - destruct (load_tensors_run files (indices_source env a4)
                (offsets_source env a4) (weights_source env a4) w)
      as (r & paths & -> & _ & Hnone).
    destruct r as [[[it ot] pw]|e]; [|done].
    by rewrite (Hnone _ _ _ eq_refl Hsrc).
  - intros pi po ti to _ Hi Hpi Ho Hpo.
    unfold load_tensors. rewrite Hi, Ho, Hsrc.
    rewrite !bind_run. unfold torch_load. rewrite Hpi, Hpo.
    rewrite !bind_run, !emit_run. simpl. by rewrite <- app_assoc.
Qed.

End BuilderProperties.

(** ** Runs of the reference runtime *)

Ltac run := vm_compute; reflexivity.

(** Witness of C3: the two-table configuration, unweighted. *)
Lemma get_data_offsets_witness :
  (get_data (RT:=Reference.runtime) ∅ ∅ (cfg_two false) "cpu" Reference.w0 =
     (Ok (LongTensor [2; 4; 3; 1; 1; 0; 4; 4; 0; 6],
          LongTensor [0; 2; 4; 7; 10], None), two_tables_world) ∧
   1 ≤ 2 ∧ 1 ≤ 2 ∧ Forall (λ L, 1 ≤ L) [2; 3]) ∧
  ∃ idx offs,
    LongTensor [2; 4; 3; 1; 1; 0; 4; 4; 0; 6] = LongTensor idx ∧
    LongTensor [0; 2; 4; 7; 10] = LongTensor offs ∧
    Sorted Z.le offs ∧
    head offs = Some 0 ∧
    last offs = Some (Z.of_nat (length idx)) ∧
    Z.of_nat (length idx) = 2 * sumZ [2; 3] ∧
    Z.of_nat (length offs) = 2 * 2 + 1.
Proof.
  assert (Forall (λ L, 1 ≤ L) [2; 3]) as HL by (repeat constructor; lia).
  split.
  - split; [run|]. split; [lia|]. split; [lia|exact HL].
  - apply (get_data_offsets (RT:=Reference.runtime) ∅ ∅ (cfg_two false) "cpu"
             Reference.w0 _ _ None two_tables_world
             2 [VInt 5; VInt 7] [VInt 4; VInt 4] [VInt 2; VInt 3] (VInt 2)
             (VBool false) (value_arg (VList [item 2; item 3])) 2 [2; 3]);
      [run|run|run|run|reflexivity|repeat constructor|lia|lia|exact HL].
Defined.

(** Witness of C7: the two-table configuration, weighted. *)
Lemma get_data_weights_witness :
  get_data (RT:=Reference.runtime) ∅ ∅ (cfg_two true) "cpu" Reference.w0 =
    (Ok (LongTensor [2; 4; 3; 1; 0; 6; 3; 2; 3; 1],
         LongTensor [0; 2; 4; 7; 10],
         Some (FloatTensor two_tables_weights)), two_tables_weighted_world) ∧
  (truthy (VBool true) = true →
   ∃ idx ws,
     LongTensor [2; 4; 3; 1; 0; 6; 3; 2; 3; 1] = LongTensor idx ∧
     Some (FloatTensor two_tables_weights) = Some (FloatTensor ws) ∧
     length ws = length idx ∧
     ∃ idxs gs, idx = concat idxs ∧ length gs = length idxs ∧
                ws = concat (drawn_weights (RT:=Reference.runtime) idxs gs)) ∧
  (truthy (VBool true) = false →
   Some (FloatTensor two_tables_weights) = None).
Proof.
  split; [run|].
  apply (get_data_weights (RT:=Reference.runtime) ∅ ∅ (cfg_two true) "cpu"
           Reference.w0 _ (LongTensor [0; 2; 4; 7; 10]) _
           two_tables_weighted_world
           2 [VInt 5; VInt 7] [VInt 4; VInt 4] [VInt 2; VInt 3] (VInt 2)
           (VBool true) (value_arg (VList [item 2; item 3])));
    [run|run|run|run].
Defined.

(** Counterexample to C2 as stated: with [alpha = 0], one table of 2 rows,
    batch size 1 and pooling factor 3, the index 2 is produced. *)
Lemma get_data_index_outside_rows :
  get_data (RT:=Reference.runtime)
    {[ "split_embedding_distribution" := "0" ]} ∅ (cfg_one 2 1 3 false) "cpu"
    Reference.w0
  = (Ok (LongTensor [0; 1; 2], LongTensor [0; 3], None),
     World (42 : Z) [Call_generate_requests 1 3 2 0 f_zero false]) ∧
  2 ∈ [0; 1; 2] ∧ ¬ (0 ≤ 2 < 2).
Proof.
  split; [run|]. split; [|lia]. apply list_elem_of_In. simpl. tauto.
Qed.

(** Witness of C2 as the code has it: the two-table configuration. *)
Lemma get_data_indices_in_range_witness :
  (get_data (RT:=Reference.runtime) ∅ ∅ (cfg_two false) "cpu" Reference.w0 =
     (Ok (LongTensor [2; 4; 3; 1; 1; 0; 4; 4; 0; 6],
          LongTensor [0; 2; 4; 7; 10], None), two_tables_world) ∧
   as_int (VInt 2) = Ok 2 ∧
   py_float (RT:=Reference.runtime) (distribution_of ∅) = Ok f_one) ∧
  ∃ idxs,
    LongTensor [2; 4; 3; 1; 1; 0; 4; 4; 0; 6] = LongTensor (concat idxs) ∧
    length idxs = Z.to_nat 2 ∧
    ∀ i idx, idxs !! i = Some idx →
      ∃ pf r L E,
        [VInt 2; VInt 3] !! i = Some pf ∧ as_int pf = Ok L ∧
        [VInt 5; VInt 7] !! i = Some r ∧ as_int r = Ok E ∧
        length idx = Z.to_nat (2 * L) ∧
        (1 ≤ L → 1 ≤ E → ∀ x, x ∈ idx →
           (float_eqb f_one f_zero = true → 0 ≤ x < L) ∧
           (float_eqb f_one f_zero = false ∨ L ≤ E → 0 ≤ x < E)).
Proof.
  split; [split_and!; run|].
  apply (get_data_indices_in_range (RT:=Reference.runtime) ∅ ∅ (cfg_two false)
           "cpu" Reference.w0 _ (LongTensor [0; 2; 4; 7; 10]) None
           two_tables_world
           2 [VInt 5; VInt 7] [VInt 4; VInt 4] [VInt 2; VInt 3] (VInt 2)
           (VBool false) (value_arg (VList [item 2; item 3])) 2 f_one);
    [run|run|run|run|run|run].
Defined.



(** Witness of C8: file names in [config["args"][4]], files on disk. *)
Lemma get_data_override_never_samples_witness :
  (cfg_override false !! 4%nat = Some override_arg ∧
   sources_supplied ∅ override_arg = true) ∧
  ∃ paths,
    w_rng (get_data (RT:=Reference.runtime) ∅ saved_files (cfg_override false)
             "cpu" Reference.w0).2 = w_rng Reference.w0 ∧
    w_log (get_data (RT:=Reference.runtime) ∅ saved_files (cfg_override false)
             "cpu" Reference.w0).2 = w_log Reference.w0 ++ (Load <$> paths) ∧
    (∀ i p, paths !! i = Some p →
       (i < 3)%nat ∧
       (i = 0%nat → indices_source ∅ override_arg = VStr p) ∧
       (i = 1%nat → offsets_source ∅ override_arg = VStr p) ∧
       (i = 2%nat →
        ∃ n rows dims pfs bs wt,
          read_config (RT:=Reference.runtime) (cfg_override false)
            = Ok (n, rows, dims, pfs, bs, wt) ∧
          truthy wt = true ∧ weights_source ∅ override_arg = VStr p)).
Proof.
  split; [split; run|].
  apply (get_data_override_never_samples (RT:=Reference.runtime) ∅ saved_files
           (cfg_override false) "cpu" override_arg Reference.w0); run.
Defined.

(** What the run of the witness of C8 returns. *)
Example get_data_override_run :
  get_data (RT:=Reference.runtime) ∅ saved_files (cfg_override false) "cpu"
    Reference.w0
  = (Ok (LongTensor [0; 1; 2; 3], LongTensor [0; 2; 4], None),
     World (42 : Z) [Load "indices.pt"; Load "offsets.pt"]).
Proof. run. Qed.

(** Witness of C10: the same files, [weighted] true, no weights source. *)
Lemma get_data_override_unweighted_source_raises_witness :
  (read_config (RT:=Reference.runtime) (cfg_override true)
     = Ok (1, [VInt 5], [VInt 4], [VInt 3], VInt 2, VBool true) ∧
   cfg_override true !! 4%nat = Some override_arg ∧
   sources_supplied ∅ override_arg = true ∧
   truthy (VBool true) = true ∧
   truthy (weights_source ∅ override_arg) = false) ∧
  raised (get_data (RT:=Reference.runtime) ∅ saved_files (cfg_override true)
            "cpu" Reference.w0).1 = true ∧
  (∀ pi po ti to,
     device_ok (Runtime:=Reference.runtime) "cpu" = true →
     indices_source ∅ override_arg = VStr pi → saved_files !! pi = Some ti →
     offsets_source ∅ override_arg = VStr po → saved_files !! po = Some to →
     get_data (RT:=Reference.runtime) ∅ saved_files (cfg_override true) "cpu"
       Reference.w0 =
       (Raise (AttributeError "'NoneType' object has no attribute 'to'"),
        World (w_rng Reference.w0) (w_log Reference.w0 ++ [Load pi; Load po]))).
Proof.
  split; [split_and!; run|].
  apply (get_data_override_unweighted_source_raises (RT:=Reference.runtime)
           ∅ saved_files (cfg_override true) "cpu" Reference.w0
           1 [VInt 5] [VInt 4] [VInt 3] (VInt 2) (VBool true) override_arg);
    run.
Defined.

(** ** The operator *)

(** C9. When the device string starts neither with [cpu] nor with [cuda],
    [build] raises [ValueError] with a message that ends with the device
    string and leaves the operator as it was: whatever the constructor of
    the embedding operator is, it is not reached, and an operator fresh from
    [__init__] still has no handle. *)
Theorem build_unknown_device {handle location_member : Type}
    (EmbeddingLocation : pyval → res location_member)
    (codegen : list (pyval * pyval * location_member * ComputeDevice) →
               pyval → pyval → pyval → res handle)
    (self : operator handle)
    (num_tables rows dims location pooling weighted weights_precision
     optimizer : pyval) :
  String.prefix "cpu" (device handle self) = false →
  String.prefix "cuda" (device handle self) = false →
  build handle location_member EmbeddingLocation codegen self num_tables rows dims location pooling weighted
    weights_precision optimizer
  = (Raise (ValueError ("Unknown compute device " +:+ device handle self)), self) ∧
  op handle
    (build handle location_member EmbeddingLocation codegen (init handle self) num_tables rows dims location
       pooling weighted weights_precision optimizer).2 = None.
Proof.
  intros Hcpu Hcuda. split.
  - unfold build. rewrite Hcpu, Hcuda. by destruct (equals_one num_tables).
  - unfold build. simpl. rewrite Hcpu, Hcuda.
    by destruct (equals_one num_tables).
Qed.

(** Witness of C9: a device named [tpu]. *)
Lemma build_unknown_device_witness :
  (String.prefix "cpu" "tpu" = false ∧ String.prefix "cuda" "tpu" = false) ∧
  build unit location location_of (λ _ _ _ _, Ok tt)
    (Operator unit "tpu" None None None)
    (VInt 1) (VInt 5) (VInt 4) (VInt 0) (VInt 0) (VBool false) (VStr "fp16")
    (VStr "sgd")
  = (Raise (ValueError ("Unknown compute device " +:+ "tpu")),
     Operator unit "tpu" None None None) ∧
  op unit
    (build unit location location_of (λ _ _ _ _, Ok tt)
       (init unit (Operator unit "tpu" None None None))
       (VInt 1) (VInt 5) (VInt 4) (VInt 0) (VInt 0) (VBool false) (VStr "fp16")
       (VStr "sgd")).2 = None.
Proof.
  split; [split; reflexivity|].
  apply (build_unknown_device location_of (λ _ _ _ _, Ok tt)
           (Operator unit "tpu" None None None)
           (VInt 1) (VInt 5) (VInt 4) (VInt 0) (VInt 0) (VBool false)
           (VStr "fp16") (VStr "sgd")); reflexivity.
Defined.

(** ** The iterator *)

(** Every identifier the generator yields is built from the [var_id] the
    loop over the input groups was entered with. *)
Lemma product_loop_identifiers rma self var_id config_id arg_configs id cfg :
  (id, cfg) ∈ (product_loop rma self var_id config_id arg_configs).1 →
  ∃ c, id = identifier var_id c.
Proof.
  revert config_id. induction arg_configs as [|ac rest IH]; intros config_id; simpl.
  - intros H. by apply elem_of_nil in H.
  - destruct (ac !! 0%nat); [|intros H; by apply elem_of_nil in H].
    destruct (ac !! 1%nat); [|intros H; by apply elem_of_nil in H].
    specialize (IH (S config_id)).
    destruct (product_loop rma self var_id (S config_id) rest) as [ys e].
    simpl in *. intros [[= -> ->]|H]%elem_of_cons; eauto.
Qed.

Lemma input_loop_identifiers rma self var_id inputs id cfg :
  (id, cfg) ∈ (input_loop rma self var_id inputs).1 →
  ∃ c, id = identifier var_id c.
Proof.
  induction inputs as [|input rest IH]; simpl.
  - intros H. by apply elem_of_nil in H.
  - destruct (expand_args input) as [args|e];
      [|intros H; by apply elem_of_nil in H].
    pose proof (product_loop_identifiers rma self var_id 0 (ListProduct args) id cfg)
      as Hp.
    destruct (product_loop rma self var_id 0 (ListProduct args)) as [ys [e|]];
      [done|].
    destruct (input_loop rma self var_id rest) as [ys' e'].
    simpl in *. intros [H|H]%elem_of_app; eauto.
Qed.

(** The first component of every identifier is 0, whatever the group. *)
Lemma _generator_var_id_is_zero rma self id cfg :
  (id, cfg) ∈ (_generator rma self).1 → ∃ c, id = identifier 0 c.
Proof. apply input_loop_identifiers. Qed.

(** The product of the batch sizes {32, 64} and the pooling factors {4, 8},
    declared as one input group: four identifiers, each once. *)
Example _generator_single_group :
  (_generator id (iterator_over [[list_axis [32; 64]; list_axis [4; 8]]])).1.*1
    = ["0_0"; "0_1"; "0_2"; "0_3"] ∧
  (_generator id (iterator_over [[list_axis [32; 64]; list_axis [4; 8]]])).2
    = None.
Proof. split; run. Qed.

(** C5 fails on the code: with two input groups, the identifier ["0_0"] is
    yielded twice, and the second group's identifier does not start with its
    index 1. *)
Theorem _generator_repeats_identifier :
  (_generator id
     (iterator_over [[literal_axis 32; literal_axis 4];
                     [literal_axis 64; literal_axis 8]])).1.*1
    = ["0_0"; "0_0"] ∧
  ¬ NoDup
      (_generator id
         (iterator_over [[literal_axis 32; literal_axis 4];
                         [literal_axis 64; literal_axis 8]])).1.*1.
Proof.
  assert ((_generator id
     (iterator_over [[literal_axis 32; literal_axis 4];
                     [literal_axis 64; literal_axis 8]])).1.*1
    = ["0_0"; "0_0"]) as H by run.
  split; [exact H|]. rewrite H. intros Hnd.
  apply NoDup_cons in Hnd as [Hnot _]. apply Hnot. by left.
Qed.

(** * Further properties *)

(** ** One call of [generate_requests] *)

Section RequestProperties.
Context `{RT : Runtime}.
Abbreviation world := (world_of rng).
#[local] Existing Instance M_ret.
#[local] Existing Instance M_bind.

Lemma lookup_cumsum_from_replicate acc n L j :
  (j < n)%nat →
  cumsum_from acc (replicate n L) !! j = Some (acc + (Z.of_nat j + 1) * L).
Proof.
  revert acc j. induction n as [|n IH]; intros acc j Hj; [lia|].
  destruct j as [|j]; simpl.
  - f_equal. lia.
  - rewrite IH by lia. f_equal. lia.
Qed.

(** X1. The offsets of one call are an arithmetic progression of step [L]:
    [B + 1] of them from 0 when [offset_start] is 0, [B] of them from
    [offset_start + L] otherwise. *)
Theorem generate_requests_offsets B L E offset_start alpha weighted w
    indices offsets weights w' :
  generate_requests B L E offset_start alpha weighted w
    = (Ok (indices, offsets, weights), w') →
  (offset_start = 0 →
   length offsets = S (Z.to_nat B) ∧
   ∀ j, (j ≤ Z.to_nat B)%nat → offsets !! j = Some (Z.of_nat j * L)) ∧
  (offset_start ≠ 0 →
   length offsets = Z.to_nat B ∧
   ∀ j, (j < Z.to_nat B)%nat →
        offsets !! j = Some (offset_start + (Z.of_nat j + 1) * L)).
Proof.
  intros Hrun.
  apply generate_requests_inv in Hrun as (_ & _ & _ & _ & _ & _ & -> & _).
  unfold table_offsets, cumsum. split.
  - intros ->. simpl. rewrite length_cumsum_from, length_replicate.
    split; [done|]. intros [|j] Hj; simpl; [done|].
    rewrite lookup_cumsum_from_replicate by lia. f_equal. lia.
  - intros Hne. destruct (Z.eqb_spec offset_start 0); [done|].
    rewrite fmap_add_cumsum_from, length_cumsum_from, length_replicate.
    split; [done|]. intros j Hj.
    rewrite lookup_cumsum_from_replicate by lia. f_equal. lia.
Qed.

(** X2. A negative batch size never gives a result. *)
Theorem generate_requests_negative_batch B L E offset_start alpha weighted w :
  B < 0 →
  raised (generate_requests B L E offset_start alpha weighted w).1 = true.
Proof.
  intros HB.
  destruct (generate_requests B L E offset_start alpha weighted w)
    as [[[[idx offs] wts]|e] w'] eqn:Hrun; [|done].
  apply generate_requests_inv in Hrun as (H0 & _). lia.
Qed.

Lemma linear_branch_pure n d :
  ∃ r, ∀ w1 : world, (arange n ≫= λ t, tensor_rem t d) w1 = (r, w1).
Proof.
  unfold arange. destruct (n <? 0).
  { eexists. intros w1. by rewrite bind_run. }
  unfold tensor_rem.
  destruct (Z.of_nat <$> seq 0 (Z.to_nat n)) as [|x t] eqn:Ht.
  { eexists. intros w1. rewrite bind_run. unfold ret at 1. reflexivity. }
  destruct (d =? 0).
  - eexists. intros w1. rewrite bind_run. unfold ret at 1. reflexivity.
  - eexists. intros w1. rewrite bind_run. unfold ret at 1. reflexivity.
Qed.

(** X3. With [alpha <= 0.5] and no weights, a call draws nothing: it leaves
    the random sources as they were, whether it returns or raises. *)
Theorem generate_requests_linear_draws_nothing B L E offset_start alpha w :
  float_leb alpha f_half = true →
  (generate_requests B L E offset_start alpha false w).2
  = World (w_rng w)
          (w_log w ++ [Call_generate_requests B L E offset_start alpha false]).
Proof.
  intros Ha. unfold generate_requests. rewrite bind_run, emit_run.
  set (w1 := World _ _). rewrite bind_run, Ha.
  assert (∃ r, (if float_eqb alpha f_zero
                then arange (B * L) ≫= λ r, tensor_rem r L
                else arange (B * L) ≫= λ r, tensor_rem r E) w1 = (r, w1))
    as [r ->].
  { destruct (float_eqb alpha f_zero);
      [destruct (linear_branch_pure (B * L) L) as [r Hr]
      |destruct (linear_branch_pure (B * L) E) as [r Hr]]; eauto. }
  destruct r as [idx|e]; [|done].
  rewrite bind_run. unfold np_ones_times.
  destruct (B <? 0); [done|]. unfold ret at 1. by rewrite bind_run.
Qed.

Lemma bind_val {A B} (m : M A) (k : A → M B) (w : world) r w1 :
  m w = (r, w1) →
  (m ≫= k) w = match r with
               | Ok a => k a w1
               | Raise e => (Raise e, w1)
               end.
Proof. intros H. by rewrite bind_run, H. Qed.

(** X4. With [alpha == 0] the table size is not used: the result and the
    random sources after the call are the same for every [E]. *)
Theorem generate_requests_zero_ignores_table_size B L E E' offset_start alpha
    weighted w :
  float_eqb alpha f_zero = true →
  (generate_requests B L E offset_start alpha weighted w).1
  = (generate_requests B L E' offset_start alpha weighted w).1 ∧
  w_rng (generate_requests B L E offset_start alpha weighted w).2
  = w_rng (generate_requests B L E' offset_start alpha weighted w).2.
Proof.
  intros Ha. unfold generate_requests.
  rewrite !(bind_val _ _ w _ _ (emit_run _ w)), Ha.
  destruct (linear_branch_pure (B * L) L) as [r Hr].
  rewrite !(bind_val _ _ _ _ _ (Hr _)).
  destruct r as [idx|e]; [|done].
  assert (∃ r, ∀ w1 : world, np_ones_times B L w1 = (r, w1)) as [r Hones].
  { unfold np_ones_times. destruct (B <? 0); by eexists. }
  rewrite !(bind_val _ _ _ _ _ (Hones _)).
  destruct r as [lengths|e]; [|done].
  destruct weighted.
  - unfold torch_randn. destruct (B * L <? 0); [done|].
    rewrite !bind_run, !emit_run. unfold draw. simpl.
    by destruct (randn (Z.to_nat (B * L)) (w_rng w)).
  - by rewrite !bind_run.
Qed.

(** X5. A table of size 0 cannot be sampled: with [alpha != 0] and at least
    one index to produce, the call raises. *)
Theorem generate_requests_empty_table B L offset_start alpha weighted w :
  float_eqb alpha f_zero = false → 1 ≤ B * L →
  raised (generate_requests B L 0 offset_start alpha weighted w).1 = true.
Proof.
  intros Ha Hn.
  destruct (generate_requests B L 0 offset_start alpha weighted w)
    as [[[[idx offs] wts]|e] w'] eqn:Hrun; [exfalso|done].
  unfold generate_requests in Hrun.
  apply bind_inv in Hrun as ([] & w1 & _ & Hrun).
  apply bind_inv in Hrun as (idx0 & w2 & Hidx & _).
  rewrite Ha in Hidx.
  assert (∀ (t : list Z) (w3 w4 : world) r,
            length t = Z.to_nat (B * L) → tensor_rem t 0 w3 = (Ok r, w4) → False)
    as Hrem.
  { intros t w3 w4 r Hlen. unfold tensor_rem.
    destruct t; [simpl in Hlen; lia|]. discriminate. }
  destruct (float_leb alpha f_half).
  { apply bind_inv in Hidx as (t & w3 & Ht & Hidx).
    apply arange_inv in Ht as (_ & -> & ->).
    eapply Hrem; [|exact Hidx]. by rewrite length_fmap, length_seq. }
  destruct (float_leb alpha f_one).
  { apply torch_randint_inv in Hidx as (_ & ? & _). lia. }
  apply bind_inv in Hidx as (t & w3 & Ht & Hidx).
  apply np_random_zipf_inv in Ht as (_ & _ & -> & ->).
  eapply Hrem; [|exact Hidx]. apply zipf_length.
Qed.

(** X27. A negative skew takes the branch of [alpha <= 0.5]: for
    [B, L, E >= 1] the call returns, and the indices are [i mod E] for [i]
    in [[0, B * L)]. *)
Theorem generate_requests_negative_alpha B L E offset_start alpha weighted w :
  1 ≤ B → 1 ≤ L → 1 ≤ E →
  float_ltb alpha f_zero = true →
  ∃ indices offsets weights w',
    generate_requests B L E offset_start alpha weighted w
      = (Ok (indices, offsets, weights), w') ∧
    indices = linear (B * L) E.
Proof.
  intros HB HL HE Ha.
  assert (float_eqb alpha f_zero = false ∧ float_leb alpha f_half = true ∧
          float_leb alpha f_one = true) as (H0 & Hhalf & Hone).
  { float_cases alpha; apply Qle_bool_iff; lra. }
  destruct (generate_requests_ok B L E offset_start alpha weighted w)
    as ([[idx offs] wts] & w' & Hrun); [lia|lia|lia|by left|].
  exists idx, offs, wts, w'. split; [done|].
  apply generate_requests_inv in Hrun as (_ & _ & _ & _ & Hlin & _).
  by apply Hlin.
Qed.

End RequestProperties.

(** ** [get_data]: configuration errors and the two modes *)

Section DataProperties.
Context `{RT : Runtime}.
Abbreviation world := (world_of rng).
#[local] Existing Instance M_ret.
#[local] Existing Instance M_bind.

Lemma res_bind_inv {A B} (r : res A) (k : A → res B) b :
  r ≫= k = Ok b → ∃ a, r = Ok a ∧ k a = Ok b.
Proof. destruct r as [a|e]; [eauto|discriminate]. Qed.

Lemma list_item_inv {A} (l : list A) i x : list_item l i = Ok x → l !! i = Some x.
Proof. unfold list_item. destruct (l !! i); [by intros [= ->]|discriminate]. Qed.

Lemma dict_item_inv (d : arg) k v : dict_item d k = Ok v → d !! k = Some v.
Proof. unfold dict_item. destruct (d !! k); [by intros [= ->]|discriminate]. Qed.

(** What [read_config] has read when it returns. *)
Lemma read_config_inv config n rows dims pfs bs wt :
  read_config config = Ok (n, rows, dims, pfs, bs, wt) →
  ∃ a0 a1 a2 a3 a4 a5 v0,
    config !! 0%nat = Some a0 ∧ config !! 1%nat = Some a1 ∧
    config !! 2%nat = Some a2 ∧ config !! 3%nat = Some a3 ∧
    config !! 4%nat = Some a4 ∧ config !! 5%nat = Some a5 ∧
    a0 !! "value" = Some v0 ∧ as_int v0 = Ok n ∧
    a3 !! "value" = Some bs ∧ a5 !! "value" = Some wt ∧
    (if 1 <? n
     then genericList_to_list a1 = Ok rows ∧ genericList_to_list a2 = Ok dims ∧
          genericList_to_list a4 = Ok pfs
     else ∃ r d pf, a1 !! "value" = Some r ∧ a2 !! "value" = Some d ∧
                    a4 !! "value" = Some pf ∧
                    rows = [r] ∧ dims = [d] ∧ pfs = [pf]).
Proof.
  unfold read_config. intros H.
  apply res_bind_inv in H as (a0 & H0%list_item_inv & H).
  apply res_bind_inv in H as (v0 & Hv0%dict_item_inv & H).
  apply res_bind_inv in H as (n' & Hn & H).
  apply res_bind_inv in H as ([[rows' dims'] pfs'] & Hlists & H).
  apply res_bind_inv in H as (a3 & H3%list_item_inv & H).
  apply res_bind_inv in H as (bs' & Hbs%dict_item_inv & H).
  apply res_bind_inv in H as (a5 & H5%list_item_inv & H).
  apply res_bind_inv in H as (wt' & Hwt%dict_item_inv & H).
  injection H as -> -> -> -> -> ->.
  destruct (1 <? n) eqn:Hmulti.
  - apply res_bind_inv in Hlists as (a1 & H1%list_item_inv & Hlists).
    apply res_bind_inv in Hlists as (r & Hr & Hlists).
    apply res_bind_inv in Hlists as (a2 & H2%list_item_inv & Hlists).
    apply res_bind_inv in Hlists as (d & Hd & Hlists).
    apply res_bind_inv in Hlists as (a4 & H4%list_item_inv & Hlists).
    apply res_bind_inv in Hlists as (pf & Hpf & Hlists).
    injection Hlists as -> -> ->.
    exists a0, a1, a2, a3, a4, a5, v0. split_and!; done.
  - apply res_bind_inv in Hlists as (a1 & H1%list_item_inv & Hlists).
    apply res_bind_inv in Hlists as (r & Hr%dict_item_inv & Hlists).
    apply res_bind_inv in Hlists as (a2 & H2%list_item_inv & Hlists).
    apply res_bind_inv in Hlists as (d & Hd%dict_item_inv & Hlists).
    apply res_bind_inv in Hlists as (a4 & H4%list_item_inv & Hlists).
    apply res_bind_inv in Hlists as (pf & Hpf%dict_item_inv & Hlists).
    injection Hlists as <- <- <-.
    exists a0, a1, a2, a3, a4, a5, v0. split_and!; try done.
    eauto 10.
Qed.

(** X6. A configuration with fewer than six arguments makes [get_data] raise
    before it does anything: nothing is loaded, nothing is drawn. *)
Theorem get_data_short_config env files config device w :
  (length config < 6)%nat →
  ∃ e, get_data env files config device w = (Raise e, w).
Proof.
  intros Hlen. destruct (read_config config)
    as [[[[[[n rows] dims] pfs] bs] wt]|e] eqn:Hcfg.
  - apply read_config_inv in Hcfg
      as (? & ? & ? & ? & ? & a5 & ? & _ & _ & _ & _ & _ & H5 & _).
    apply lookup_lt_Some in H5. lia.
  - exists e. by apply get_data_read_config_raises.
Qed.

(** The head of [get_data] in generation mode, up to the table loop. *)
Lemma get_data_generation_run env files config device w
    n rows dims pfs bs wt a4 :
  read_config config = Ok (n, rows, dims, pfs, bs, wt) →
  device_ok device = true →
  config !! 4%nat = Some a4 →
  sources_supplied env a4 = false →
  get_data env files config device w =
    match generate n bs pfs rows (distribution_of env) wt w with
    | (Ok (it, ot, pw), w1) =>
        if truthy wt then
          match pw with
          | Some t => (Ok (it, ot, Some t), w1)
          | None =>
              (Raise (AttributeError "'NoneType' object has no attribute 'to'"), w1)
          end
        else (Ok (it, ot, None), w1)
    | (Raise e, w1) => (Raise e, w1)
    end.
Proof.
  intros Hcfg Hd Ha4 Hmode. unfold get_data.
  rewrite bind_run. unfold lift at 1. rewrite Hcfg.
  rewrite bind_run. unfold lift at 1, torch_device. rewrite Hd.
  rewrite bind_run. unfold lift at 1, list_item. rewrite Ha4.
  rewrite bind_run. unfold lift at 1. rewrite select_files_eq.
  fold (sources_supplied env a4). rewrite Hmode. rewrite bind_run.
  destruct (generate _ _ _ _ _ _ w) as [[[[it ot] pw]|e] w1]; [|done].
  rewrite bind_run. destruct (truthy wt); [|done].
  rewrite bind_run. by destruct pw.
Qed.

(** X8. With no table ([num_tables <= 0]) generation mode has nothing to
    concatenate: [get_data] raises the error of [torch.cat] on an empty
    list, without a call of [generate_requests]. *)
Theorem get_data_no_table env files config device w
    n rows dims pfs bs wt a4 :
  read_config config = Ok (n, rows, dims, pfs, bs, wt) →
  device_ok device = true →
  config !! 4%nat = Some a4 →
  sources_supplied env a4 = false →
  n ≤ 0 →
  get_data env files config device w =
    (Raise (RuntimeError "torch.cat(): expected a non-empty list of Tensors"), w).
Proof.
  intros Hcfg Hd Ha4 Hmode Hn.
  rewrite (get_data_generation_run _ _ _ _ _ _ _ _ _ _ _ _ Hcfg Hd Ha4 Hmode).
  unfold generate, table_loop, py_range.
  replace (Z.to_nat n) with 0%nat by lia. reflexivity.
Qed.

Lemma torch_load_ok files p t (w : world) :
  files !! p = Some t →
  torch_load files (VStr p) w = (Ok t, World (w_rng w) (w_log w ++ [Load p])).
Proof. intros H. unfold torch_load. by rewrite H. Qed.

Lemma torch_load_missing files p (w : world) :
  files !! p = None →
  torch_load files (VStr p) w = (Raise (FileNotFoundError p), w).
Proof. intros H. unfold torch_load. by rewrite H. Qed.

(** X9. In override mode [get_data] returns the stored tensors as they are,
    whatever the number of tables, the table sizes, the batch size, the
    pooling factors and the skew: the indices and the offsets, and the
    weights when [weighted] is true and their file is named. *)
Theorem get_data_override_returns_files env files config device w
    n rows dims pfs bs wt a4 pi po ti to :
  read_config config = Ok (n, rows, dims, pfs, bs, wt) →
  device_ok device = true →
  config !! 4%nat = Some a4 →
  indices_source env a4 = VStr pi → files !! pi = Some ti →
  offsets_source env a4 = VStr po → files !! po = Some to →
  (truthy wt = false →
   get_data env files config device w =
     (Ok (ti, to, None), World (w_rng w) (w_log w ++ [Load pi; Load po]))) ∧
  (truthy wt = true →
   ∀ pw tw, weights_source env a4 = VStr pw → pw ≠ EmptyString →
            files !! pw = Some tw →
     get_data env files config device w =
       (Ok (ti, to, Some tw),
        World (w_rng w) (w_log w ++ [Load pi; Load po; Load pw]))).
Proof.
  intros Hcfg Hd Ha4 Hi Hpi Ho Hpo.
  assert (sources_supplied env a4 = true) as Hmode.
  { unfold sources_supplied. by rewrite Hi, Ho. }
  rewrite (get_data_override _ _ _ _ _ _ _ _ _ _ _ _ Hcfg Hd Ha4 Hmode).
  unfold load_tensors. rewrite Hi, Ho.
  rewrite (bind_val _ _ _ _ _ (torch_load_ok _ _ _ _ Hpi)).
  rewrite (bind_val _ _ _ _ _ (torch_load_ok _ _ _ _ Hpo)).
  simpl. rewrite <- app_assoc. simpl.
  split; intros Hwt; rewrite Hwt.
  - reflexivity.
  - intros pw tw Hw Hne Hpw. rewrite Hw.
    assert (truthy (VStr pw) = true) as ->.
    { simpl. destruct pw; done. }
    erewrite bind_val.
    2:{ rewrite (bind_val _ _ _ _ _ (torch_load_ok _ _ _ _ Hpw)). reflexivity. }
    simpl. by rewrite <- app_assoc.
Qed.

(** X10. In override mode a file that is not there makes [get_data] raise the
    error of the load: there is no fall back to generation. *)
Theorem get_data_override_missing_file env files config device w
    n rows dims pfs bs wt a4 pi :
  read_config config = Ok (n, rows, dims, pfs, bs, wt) →
  device_ok device = true →
  config !! 4%nat = Some a4 →
  sources_supplied env a4 = true →
  indices_source env a4 = VStr pi →
  (files !! pi = None →
   get_data env files config device w = (Raise (FileNotFoundError pi), w)) ∧
  (∀ ti po, files !! pi = Some ti → offsets_source env a4 = VStr po →
            files !! po = None →
   get_data env files config device w =
     (Raise (FileNotFoundError po), World (w_rng w) (w_log w ++ [Load pi]))).
Proof.
  intros Hcfg Hd Ha4 Hmode Hi.
  rewrite (get_data_override _ _ _ _ _ _ _ _ _ _ _ _ Hcfg Hd Ha4 Hmode).
  unfold load_tensors. rewrite Hi. split.
  - intros Hpi.
    by rewrite (bind_val _ _ _ _ _ (torch_load_missing _ _ _ Hpi)).
  - intros ti po Hpi Ho Hpo. rewrite Ho.
    rewrite (bind_val _ _ _ _ _ (torch_load_ok _ _ _ _ Hpi)).
    by rewrite (bind_val _ _ _ _ _ (torch_load_missing _ _ _ Hpo)).
Qed.

(** X11. The file names come from one place only: from
    [config["args"][4]] when it has both the indices and the offsets key
    (the environment is then not read), from the environment otherwise (the
    keys of the configuration are then not read). *)
Theorem select_files_one_origin env (a4 : arg) wt :
  (has_key a4 "indices_tensor" && has_key a4 "offsets_tensor" = true →
   select_files env a4 wt = select_files ∅ a4 wt) ∧
  (has_key a4 "indices_tensor" && has_key a4 "offsets_tensor" = false →
   select_files env a4 wt = select_files env ∅ wt).
Proof.
  unfold select_files. split; intros H; rewrite H; [done|].
  unfold has_key. rewrite lookup_empty.
  rewrite bool_decide_eq_false_2; [done|]. by intros [? ?].
Qed.

Lemma calls_of_app l1 l2 : calls_of (l1 ++ l2) = calls_of l1 ++ calls_of l2.
Proof. apply filter_app. Qed.

Lemma calls_of_draws draws :
  Forall (λ e, is_draw e = true) draws → calls_of draws = [].
Proof.
  induction 1 as [|e draws He _ IH]; [done|].
  unfold calls_of. rewrite filter_cons_False; [done|]. by destruct e.
Qed.

(** X12. In generation mode the log of a run that returns has one call of
    [generate_requests] per table, in table order, and table [i] is sampled
    with the batch size, its own pooling factor [pooling_factors[i]] and its
    own size [rows[i]]; besides these calls there are only draws: no file is
    loaded. *)
Theorem get_data_generation_calls env files config device w indices offsets
    weights w' n rows dims pfs bs wt a4 B alpha :
  get_data env files config device w = (Ok (indices, offsets, weights), w') →
  read_config config = Ok (n, rows, dims, pfs, bs, wt) →
  config !! 4%nat = Some a4 →
  sources_supplied env a4 = false →
  as_int bs = Ok B →
  py_float (distribution_of env) = Ok alpha →
  ∃ log,
    w_log w' = w_log w ++ log ∧
    Forall (λ e, is_call e = true ∨ is_draw e = true) log ∧
    length (calls_of log) = Z.to_nat n ∧
    ∀ i c, calls_of log !! i = Some c →
      ∃ pf r L E os,
        pfs !! i = Some pf ∧ as_int pf = Ok L ∧
        rows !! i = Some r ∧ as_int r = Ok E ∧
        c = Call_generate_requests B L E os alpha (truthy wt).
Proof.
  intros Hrun Hcfg Ha4 Hmode HB Ha.
  destruct (get_data_generation _ _ _ _ _ _ _ _ _ _ _ _ _ _ Hrun Hcfg Ha4 Hmode)
    as (st & ws & Hloop & _ & _ & _).
  unfold table_loop, py_range in Hloop.
  eapply (for_seq_invariant _
    (λ k _ w1, ∃ log,
       w_log w1 = w_log w ++ log ∧
       Forall (λ e, is_call e = true ∨ is_draw e = true) log ∧
       length (calls_of log) = k ∧
       ∀ i c, calls_of log !! i = Some c →
         ∃ pf r L E os,
           pfs !! i = Some pf ∧ as_int pf = Ok L ∧
           rows !! i = Some r ∧ as_int r = Ok E ∧
           c = Call_generate_requests B L E os alpha (truthy wt))
    (Z.to_nat n) 0%nat) in Hloop; [done| |].
  2:{ exists []. rewrite app_nil_r. by split_and!. }
  clear st w' Hloop Hrun.
  intros i st w1 st' w' _ (log & Hlog & Honly & Hlen & Hcalls) Hstep.
  apply table_step_inv in Hstep
    as (pf & r & alpha' & B' & L & E & idx & offs & wts & Hpf & Hr & Ha' & HB'
        & HL & HE & Hgen & _).
  rewrite Ha in Ha'. injection Ha' as <-. rewrite HB in HB'. injection HB' as <-.
  apply generate_requests_inv in Hgen
    as (_ & _ & _ & _ & _ & _ & _ & _ & draws & Hlog' & Hdraws).
  exists (log ++ Call_generate_requests B L E (offset_start st) alpha (truthy wt)
              :: draws).
  assert (calls_of (Call_generate_requests B L E (offset_start st) alpha (truthy wt)
                      :: draws)
          = [Call_generate_requests B L E (offset_start st) alpha (truthy wt)])
    as Hnew.
  { unfold calls_of. rewrite filter_cons_True by done.
    fold (calls_of draws). by rewrite calls_of_draws. }
  rewrite calls_of_app, Hnew. split_and!.
  - by rewrite Hlog', Hlog, <- app_assoc.
  - apply Forall_app. split; [done|]. constructor; [by left|].
    eapply Forall_impl; [exact Hdraws|]. intros e He. by right.
  - rewrite length_app, Hlen. simpl. lia.
  - intros j c Hj. apply lookup_app_Some in Hj as [Hj|[Hge Hj]]; [by apply Hcalls|].
    rewrite Hlen in Hj, Hge.
    destruct (j - i)%nat as [|d] eqn:Hd; [|by destruct d].
    assert (j = i) as -> by lia. injection Hj as <-.
    exists pf, r, L, E, (offset_start st). done.
Qed.

(** X13. When there are fewer pooling factors or fewer table sizes than
    [num_tables], generation mode raises: no batch is made from the tables
    that do have their parameters. *)
Theorem get_data_too_few_parameters env files config device w
    n rows dims pfs bs wt a4 :
  read_config config = Ok (n, rows, dims, pfs, bs, wt) →
  config !! 4%nat = Some a4 →
  sources_supplied env a4 = false →
  (length pfs < Z.to_nat n)%nat ∨ (length rows < Z.to_nat n)%nat →
  raised (get_data env files config device w).1 = true.
Proof.
  intros Hcfg Ha4 Hmode Hshort.
  destruct (get_data env files config device w) as [[batch|e] w'] eqn:Hrun;
    [exfalso|done].
  destruct (get_data_generation _ _ _ _ _ _ _ _ _ _ _ _ _ _ Hrun Hcfg Ha4 Hmode)
    as (st & ws & Hloop & _ & _ & _).
  unfold table_loop, py_range in Hloop.
  eapply (for_seq_invariant _
    (λ k _ _, (k ≤ length pfs)%nat ∧ (k ≤ length rows)%nat)
    (Z.to_nat n) 0%nat) in Hloop; [simpl in Hloop; lia| |simpl; lia].
  intros i st0 w0 st' w1 _ _ Hstep.
  apply table_step_inv in Hstep
    as (pf & r & ? & ? & ? & ? & ? & ? & ? & Hpf & Hr & _).
  apply lookup_lt_Some in Hpf, Hr. lia.
Qed.

(** X14. In generation mode a skew that [float] does not accept makes
    [get_data] raise at the first table, before anything is drawn. *)
Theorem get_data_bad_distribution env files config device w
    n rows dims pfs bs wt a4 pf r e :
  read_config config = Ok (n, rows, dims, pfs, bs, wt) →
  device_ok device = true →
  config !! 4%nat = Some a4 →
  sources_supplied env a4 = false →
  1 ≤ n →
  pfs !! 0%nat = Some pf → rows !! 0%nat = Some r →
  py_float (distribution_of env) = Raise e →
  get_data env files config device w = (Raise e, w).
Proof.
  intros Hcfg Hd Ha4 Hmode Hn Hpf Hr Ha.
  rewrite (get_data_generation_run _ _ _ _ _ _ _ _ _ _ _ _ Hcfg Hd Ha4 Hmode).
  unfold generate, table_loop, py_range.
  destruct (Z.to_nat n) as [|m] eqn:Hm; [lia|]. simpl seq. simpl for_each.
  assert (∀ st, table_step bs pfs rows (distribution_of env) wt st 0 w
                = (Raise e, w)) as Hstep.
  { intros st. unfold table_step.
    rewrite (bind_val (lift _) _ _ _ _ eq_refl). unfold list_item. rewrite Hpf.
    rewrite (bind_val (lift _) _ _ _ _ eq_refl). rewrite Hr.
    rewrite (bind_val (lift _) _ _ _ _ eq_refl). by rewrite Ha. }
  erewrite bind_val.
  2:{ rewrite (bind_val _ _ _ _ _ (Hstep _)). reflexivity. }
  reflexivity.
Qed.

(** X15. When the variable [split_embedding_distribution] is not set, the
    skew is 1.0: the returned indices are the indices of the tables one
    after the other, [B * L_i] of them for table [i], and those of every
    table of size at least 1 lie within the table, whatever the pooling
    factors. *)
Theorem get_data_default_distribution env files config device w indices
    offsets weights w' n rows dims pfs bs wt a4 B :
  get_data env files config device w = (Ok (indices, offsets, weights), w') →
  read_config config = Ok (n, rows, dims, pfs, bs, wt) →
  config !! 4%nat = Some a4 →
  sources_supplied env a4 = false →
  as_int bs = Ok B →
  env !! "split_embedding_distribution" = None →
  ∃ idxs,
    indices = LongTensor (concat idxs) ∧ length idxs = Z.to_nat n ∧
    ∀ i idx, idxs !! i = Some idx →
      ∃ pf L r E,
        pfs !! i = Some pf ∧ as_int pf = Ok L ∧
        rows !! i = Some r ∧ as_int r = Ok E ∧
        length idx = Z.to_nat (B * L) ∧
        (1 ≤ E → ∀ x, x ∈ idx → 0 ≤ x < E).
Proof.
  intros Hrun Hcfg Ha4 Hmode HB Henv.
  destruct (get_data_generation _ _ _ _ _ _ _ _ _ _ _ _ _ _ Hrun Hcfg Ha4 Hmode)
    as (st & ws & Hloop & _ & _ & [= -> -> ->]).
  assert (py_float (distribution_of env) = Ok f_one) as Ha.
  { unfold distribution_of, getenv. by rewrite Henv. }
  destruct (table_loop_indices _ _ _ _ _ _ _ _ _ _ Hloop Ha) as [Hlen Hall].
  pose proof (table_loop_index_lengths _ _ _ _ _ _ _ _ _ _ Hloop HB) as Hlens.
  exists (indices_list st). split_and!; try done.
  intros i idx Hi.
  destruct (Hall i idx Hi) as (pf & r & L & E & Hpf & HL & Hr & HE & _ & Hin).
  destruct (Hlens i idx Hi) as (pf' & L' & Hpf' & HL' & Hlidx).
  rewrite Hpf in Hpf'. injection Hpf' as <-.
  rewrite HL in HL'. injection HL' as <-.
  exists pf, L, r, E. split_and!; try done.
  intros HE1. apply Hin; [done|lia].
Qed.

End DataProperties.

(** ** The operator: [build] and the calls after it *)

Section OperatorProperties.
Context `{RT : Runtime}.
Context {handle location_member : Type}.
Variable EmbeddingLocation : pyval → res location_member.
Variable codegen :
  list (pyval * pyval * location_member * ComputeDevice) →
  pyval → pyval → pyval → res handle.
Variable op_forward :
  handle → option tensor → option tensor → option tensor → res tensor.
Variable tensor_backward : tensor → option tensor → res unit.

Lemma embedding_specs_seq rs ds location loc dev a m :
  EmbeddingLocation location = Ok loc →
  (a + m ≤ length rs)%nat → (a + m ≤ length ds)%nat →
  embedding_specs location_member EmbeddingLocation (VList rs) (VList ds)
    location dev (seq a m)
  = Ok (zip_with (λ r d, (r, d, loc, dev))
          (take m (drop a rs)) (take m (drop a ds))).
Proof.
  intros Hloc. revert a. induction m as [|m IH]; intros a Hr Hd; [done|].
  destruct (lookup_lt_is_Some_2 rs a) as [r Hra]; [lia|].
  destruct (lookup_lt_is_Some_2 ds a) as [d Hda]; [lia|].
  simpl. rewrite Hra, Hda, Hloc, IH by lia.
  by rewrite (drop_S _ _ _ Hra), (drop_S _ _ _ Hda).
Qed.

(** The conversion of [location] is reached as soon as the first table has
    its two entries. *)
Lemma embedding_specs_location_raises rs ds location e dev a m :
  EmbeddingLocation location = Raise e →
  is_Some (rs !! a) → is_Some (ds !! a) →
  embedding_specs location_member EmbeddingLocation (VList rs) (VList ds)
    location dev (seq a (S m))
  = Raise e.
Proof. intros Hloc [r Hr] [d Hd]. simpl. by rewrite Hr, Hd, Hloc. Qed.

Lemma embedding_specs_short rs ds location loc dev a m :
  EmbeddingLocation location = Ok loc →
  (a ≤ length rs)%nat → (a ≤ length ds)%nat →
  (length rs < a + m)%nat ∨ (length ds < a + m)%nat →
  embedding_specs location_member EmbeddingLocation (VList rs) (VList ds)
    location dev (seq a m)
  = Raise IndexError.
Proof.
  intros Hloc. revert a. induction m as [|m IH]; intros a Hr Hd Hshort; [lia|].
  simpl. destruct (rs !! a) as [r|] eqn:Hra; [|done].
  destruct (ds !! a) as [d|] eqn:Hda; [|done].
  apply lookup_lt_Some in Hra, Hda. rewrite Hloc, IH; [done|lia|lia|lia].
Qed.

Lemma build_device self num_tables rows dims location pooling weighted
    weights_precision optimizer dev :
  compute_device_of (device handle self) = Some dev →
  build handle location_member EmbeddingLocation codegen self num_tables rows
    dims location pooling weighted weights_precision optimizer
  = match range_of num_tables with
    | Raise e => (Raise e, self)
    | Ok range =>
        match embedding_specs location_member EmbeddingLocation
                (if equals_one num_tables then VList [rows] else rows)
                (if equals_one num_tables then VList [dims] else dims)
                location dev range with
        | Raise e => (Raise e, self)
        | Ok specs =>
            match codegen specs optimizer pooling weights_precision with
            | Raise e => (Raise e, self)
            | Ok h => (Ok tt, Operator handle (device handle self) (Some h)
                                       (fwd_out handle self) (grad_in handle self))
            end
        end
    end.
Proof.
  unfold compute_device_of, build. intros Hdev.
  destruct (equals_one num_tables);
    destruct (String.prefix "cpu" (device handle self));
    [injection Hdev as <-; done| |injection Hdev as <-; done|];
    (destruct (String.prefix "cuda" (device handle self));
       [injection Hdev as <-; done|done]).
Qed.

(** X16. With several tables, each with its entry in [rows] and in [dims],
    [build] converts [location] (when there is a table at all) and gives the
    constructor of the embedding operator one specification per table, in
    table order: table [i] has [rows[i]] rows and dimension [dims[i]], at
    that location, on the compute device chosen from the prefix of the
    device string; entries of [rows] and [dims] beyond [num_tables] are not
    used. The operator keeps its other fields, and it is unchanged when the
    conversion or the constructor raises. *)
Theorem build_embedding_specs self n rs ds location pooling weighted
    weights_precision optimizer dev :
  n ≠ 1 →
  compute_device_of (device handle self) = Some dev →
  (Z.to_nat n ≤ length rs)%nat → (Z.to_nat n ≤ length ds)%nat →
  build handle location_member EmbeddingLocation codegen self (VInt n)
    (VList rs) (VList ds) location pooling weighted weights_precision optimizer
  = match (if 0 <? n then
             match EmbeddingLocation location with
             | Ok loc =>
                 codegen (zip_with (λ r d, (r, d, loc, dev))
                            (take (Z.to_nat n) rs) (take (Z.to_nat n) ds))
                   optimizer pooling weights_precision
             | Raise e => Raise e
             end
           else codegen [] optimizer pooling weights_precision) with
    | Ok h => (Ok tt, Operator handle (device handle self) (Some h)
                               (fwd_out handle self) (grad_in handle self))
    | Raise e => (Raise e, self)
    end.
Proof.
  intros Hn Hdev Hr Hd. rewrite (build_device _ _ _ _ _ _ _ _ _ _ Hdev).
  simpl. destruct (Z.eqb_spec n 1); [done|].
  destruct (Z.ltb_spec 0 n) as [Hpos|Hneg].
  - destruct (EmbeddingLocation location) as [loc|e] eqn:Hloc.
    + rewrite (embedding_specs_seq _ _ _ _ _ _ _ Hloc) by (simpl; lia).
      rewrite !drop_0. by destruct (codegen _ _ _ _).
    + destruct (Z.to_nat n) as [|m] eqn:Hm; [lia|].
      rewrite (embedding_specs_location_raises _ _ _ _ _ _ _ Hloc);
        [done| |]; apply lookup_lt_is_Some_2; lia.
  - replace (Z.to_nat n) with 0%nat by lia. simpl.
    by destruct (codegen _ _ _ _).
Qed.

(** X17. With one table ([num_tables == 1]) [rows] and [dims] are taken as
    they are, not subscripted: [location] is converted and the constructor
    gets the single specification [(rows, dims, location, compute_device)];
    the operator is unchanged when the conversion or the constructor
    raises. *)
Theorem build_single_table self num_tables rows dims location pooling weighted
    weights_precision optimizer dev :
  equals_one num_tables = true →
  compute_device_of (device handle self) = Some dev →
  build handle location_member EmbeddingLocation codegen self num_tables rows
    dims location pooling weighted weights_precision optimizer
  = match (match EmbeddingLocation location with
           | Ok loc =>
               codegen [(rows, dims, loc, dev)] optimizer pooling
                 weights_precision
           | Raise e => Raise e
           end) with
    | Ok h => (Ok tt, Operator handle (device handle self) (Some h)
                               (fwd_out handle self) (grad_in handle self))
    | Raise e => (Raise e, self)
    end.
Proof.
  intros Hone Hdev. rewrite (build_device _ _ _ _ _ _ _ _ _ _ Hdev), Hone.
  assert (range_of num_tables = Ok [0%nat]) as ->.
  { destruct num_tables as [|[]|n| | | | |]; try done.
    simpl in Hone. apply Z.eqb_eq in Hone as ->. done. }
  simpl. destruct (EmbeddingLocation location); [|done].
  by destruct (codegen _ _ _ _).
Qed.

(** X18. With several tables and fewer entries in [rows] or in [dims] than
    [num_tables], [build] raises before the constructor is reached, and the
    operator is unchanged: the error of the conversion of [location] when it
    is not a member of the enumeration and the first table has both its
    entries, [IndexError] otherwise. *)
Theorem build_too_few_tables self n rs ds location pooling weighted
    weights_precision optimizer :
  n ≠ 1 →
  is_Some (compute_device_of (device handle self)) →
  (length rs < Z.to_nat n)%nat ∨ (length ds < Z.to_nat n)%nat →
  build handle location_member EmbeddingLocation codegen self (VInt n)
    (VList rs) (VList ds) location pooling weighted weights_precision optimizer
  = (Raise (match rs, ds, EmbeddingLocation location with
            | _ :: _, _ :: _, Raise e => e
            | _, _, _ => IndexError
            end), self).
Proof.
  intros Hn [dev Hdev] Hshort. rewrite (build_device _ _ _ _ _ _ _ _ _ _ Hdev).
  simpl. destruct (Z.eqb_spec n 1); [done|].
  destruct (EmbeddingLocation location) as [loc|e] eqn:Hloc.
  - rewrite (embedding_specs_short _ _ _ _ _ _ _ Hloc) by (simpl; lia).
    by destruct rs, ds.
  - destruct (Z.to_nat n) as [|m] eqn:Hm; [lia|].
    destruct rs as [|r rs]; [by simpl|].
    destruct ds as [|d ds]; [by simpl|].
    by rewrite (embedding_specs_location_raises _ _ _ _ _ _ _ Hloc).
Qed.

Lemma build_raises_unchanged self num_tables rows dims location pooling
    weighted weights_precision optimizer e s1 :
  build handle location_member EmbeddingLocation codegen self num_tables rows dims location pooling weighted
    weights_precision optimizer = (Raise e, s1) →
  s1 = self.
Proof.
  unfold build.
  destruct (equals_one num_tables);
    repeat match goal with
           | |- context [match ?x with _ => _ end] => destruct x
           end; by intros [= <-] || by intros [= _ <-].
Qed.

(** X19. An operator fresh from [__init__] on which [build] has raised is
    still fresh, and none of [forward], [create_grad] and [backward] works
    on it: each raises and leaves it as it is. *)
Theorem calls_after_failed_build self num_tables rows dims location pooling
    weighted weights_precision optimizer e s1 args :
  build handle location_member EmbeddingLocation codegen (init handle self) num_tables rows dims location pooling
    weighted weights_precision optimizer = (Raise e, s1) →
  s1 = Operator handle (device handle self) None None None ∧
  forward handle op_forward s1 args
  = (Raise (AttributeError "'NoneType' object has no attribute 'forward'"), s1) ∧
  create_grad handle s1 = (Raise TypeError, s1) ∧
  backward handle tensor_backward s1
  = (Raise (AttributeError "'NoneType' object has no attribute 'backward'"), s1).
Proof.
  intros Hbuild. apply build_raises_unchanged in Hbuild as ->. done.
Qed.

(** X20. After a [forward] and a [create_grad] that return, the operator
    holds the output of the embedding operator on the first three arguments
    and a gradient of ones of the size of that output, and [backward] runs
    the backward pass of that output on that gradient. *)
Theorem backward_of_forward self args s1 s2 :
  forward handle op_forward self args = (Ok tt, s1) →
  create_grad handle s1 = (Ok tt, s2) →
  ∃ h a0 a1 a2 out,
    op handle self = Some h ∧
    args !! 0%nat = Some a0 ∧ args !! 1%nat = Some a1 ∧ args !! 2%nat = Some a2 ∧
    op_forward h a0 a1 a2 = Ok out ∧
    s2 = Operator handle (device handle self) (Some h) (Some out)
                  (Some (ones_like out)) ∧
    numel (ones_like out) = numel out ∧
    backward handle tensor_backward s2
    = (tensor_backward out (Some (ones_like out)), s2).
Proof.
  unfold forward, create_grad. intros Hf Hg.
  destruct (op handle self) as [h|] eqn:Hop; [|done].
  destruct (args !! 0%nat) as [a0|]; [|done].
  destruct (args !! 1%nat) as [a1|]; [|done].
  destruct (args !! 2%nat) as [a2|]; [|done].
  destruct (op_forward h a0 a1 a2) as [out|] eqn:Hout; [|done].
  injection Hf as <-. simpl in Hg.
  destruct (torch_device (device handle self)); [|done].
  injection Hg as <-. exists h, a0, a1, a2, out. split_and!; try done.
  destruct out; simpl; by rewrite length_replicate.
Qed.

(** X21. [forward] does not touch the gradient: a [backward] that follows a
    [forward] without a [create_grad] in between runs on the gradient the
    operator held before the [forward] ([None] on a fresh operator, the
    gradient made for an earlier output otherwise). *)
Theorem backward_without_create_grad self args s1 :
  forward handle op_forward self args = (Ok tt, s1) →
  ∃ out,
    fwd_out handle s1 = Some out ∧
    backward handle tensor_backward s1
    = (tensor_backward out (grad_in handle self), s1).
Proof.
  unfold forward. intros Hf.
  destruct (op handle self) as [h|]; [|done].
  destruct (args !! 0%nat) as [a0|]; [|done].
  destruct (args !! 1%nat) as [a1|]; [|done].
  destruct (args !! 2%nat) as [a2|]; [|done].
  destruct (op_forward h a0 a1 a2) as [out|]; [|done].
  injection Hf as <-. by exists out.
Qed.

End OperatorProperties.

(** ** The iterator: one input group and several *)

Section IteratorProperties.
Variable remove_meta_attr : list arg → list arg.

Lemma identifier_inj var_id c c' :
  identifier var_id c = identifier var_id c' → c = c'.
Proof.
  unfold identifier. intros H.
  apply (inj (String.app _)) in H. apply (inj (String.app _)) in H.
  by apply (inj pretty) in H.
Qed.

Lemma product_loop_identifiers_from self var_id config_id arg_configs id :
  id ∈ (product_loop remove_meta_attr self var_id config_id arg_configs).1.*1 →
  ∃ c, (config_id ≤ c)%nat ∧ id = identifier var_id c.
Proof.
  revert config_id. induction arg_configs as [|ac rest IH]; intros config_id; simpl.
  - intros H. by apply elem_of_nil in H.
  - destruct (ac !! 0%nat); [|intros H; by apply elem_of_nil in H].
    destruct (ac !! 1%nat); [|intros H; by apply elem_of_nil in H].
    specialize (IH (S config_id)).
    destruct (product_loop remove_meta_attr self var_id (S config_id) rest)
      as [ys e].
    simpl in *. intros [->|H]%elem_of_cons; [by exists config_id|].
    destruct (IH H) as (c & Hc & ->). exists c. split; [lia|done].
Qed.

Lemma product_loop_NoDup self var_id config_id arg_configs :
  NoDup (product_loop remove_meta_attr self var_id config_id arg_configs).1.*1.
Proof.
  revert config_id. induction arg_configs as [|ac rest IH]; intros config_id; simpl.
  - constructor.
  - destruct (ac !! 0%nat); [|constructor].
    destruct (ac !! 1%nat); [|constructor].
    pose proof (product_loop_identifiers_from self var_id (S config_id) rest
                  (identifier var_id config_id)) as Hfrom.
    specialize (IH (S config_id)).
    destruct (product_loop remove_meta_attr self var_id (S config_id) rest)
      as [ys e].
    simpl in *. constructor; [|done].
    intros Hin. destruct (Hfrom Hin) as (c & Hc & Heq).
    apply identifier_inj in Heq. lia.
Qed.

(** X22. When every configuration of a product has a batch size and a
    pooling factor, the loop yields one pair per configuration and ends
    without an exception; the pair of configuration [k] has the identifier
    of [config_id + k] and the arguments [num_tables, rows, dim, batch_size,
    pooling_factor, weighted, weights_precision], the build's values around
    the two of the configuration. *)
Theorem product_loop_yields self var_id config_id arg_configs :
  Forall (λ ac, (2 ≤ length ac)%nat) arg_configs →
  (product_loop remove_meta_attr self var_id config_id arg_configs).2 = None ∧
  length (product_loop remove_meta_attr self var_id config_id arg_configs).1
  = length arg_configs ∧
  ∀ k ac, arg_configs !! k = Some ac →
    ∃ batch_size pooling_factor,
      ac !! 0%nat = Some batch_size ∧ ac !! 1%nat = Some pooling_factor ∧
      (product_loop remove_meta_attr self var_id config_id arg_configs).1 !! k
      = Some (identifier var_id (config_id + k),
              remove_meta_attr
                [it_num_tables self; it_rows self; it_dim self; batch_size;
                 pooling_factor; it_weighted self; it_weights_precision self]).
Proof.
  intros Hall. revert config_id.
  induction Hall as [|ac rest Hac _ IH]; intros config_id; simpl.
  - by split_and!.
  - destruct ac as [|bs [|pf ac]]; simpl in Hac; [lia|lia|]. simpl.
    destruct (IH (S config_id)) as (He & Hlen & Hk).
    destruct (product_loop remove_meta_attr self var_id (S config_id) rest)
      as [ys e].
    simpl in *. split_and!; [done|by rewrite Hlen|].
    intros [|k] ac' Hac'.
    + injection Hac' as <-. exists bs, pf.
      by rewrite Nat.add_0_r.
    + destruct (Hk k ac' Hac') as (b & p & H0 & H1 & Hy).
      exists b, p. split_and!; try done. simpl. rewrite Hy.
      by replace (config_id + S k)%nat with (S config_id + k)%nat by lia.
Qed.

(** X23. A configuration with fewer than two arguments stops the loop with
    [IndexError]: the configurations before it have been yielded, those
    after it are not. *)
Theorem product_loop_short_configuration self var_id config_id before ac after :
  Forall (λ ac, (2 ≤ length ac)%nat) before →
  (length ac < 2)%nat →
  (product_loop remove_meta_attr self var_id config_id (before ++ ac :: after)).2
  = Some IndexError ∧
  (product_loop remove_meta_attr self var_id config_id (before ++ ac :: after)).1
  = (product_loop remove_meta_attr self var_id config_id before).1.
Proof.
  intros Hall Hac. revert config_id.
  induction Hall as [|ac' rest Hac' _ IH]; intros config_id; simpl.
  - destruct ac as [|bs [|pf ac]]; simpl in Hac; [done|done|lia].
  - destruct ac' as [|bs [|pf ac']]; simpl in Hac'; [lia|lia|]. simpl.
    destruct (IH (S config_id)) as [He Hys].
    destruct (product_loop remove_meta_attr self var_id (S config_id)
                (rest ++ ac :: after)) as [ys e].
    destruct (product_loop remove_meta_attr self var_id (S config_id) rest)
      as [ys' e'].
    simpl in *. by subst.
Qed.

(** X24. Within one input group the identifiers are pairwise distinct: an
    iterator over a single group never yields an identifier twice. *)
Theorem _generator_one_group_distinct self input :
  it_inputs self = [input] →
  NoDup (_generator remove_meta_attr self).1.*1.
Proof.
  intros Hin. unfold _generator. rewrite Hin. simpl.
  destruct (expand_args input) as [args|e]; [|constructor].
  pose proof (product_loop_NoDup self 0 0 (ListProduct args)) as Hnd.
  destruct (product_loop remove_meta_attr self 0 0 (ListProduct args))
    as [ys [e|]]; [done|].
  simpl in *. by rewrite app_nil_r.
Qed.

(** X25. The input groups are run in order, each from [config_id = 0] and
    with the same [var_id]: the pairs of a list of groups followed by another
    are the pairs of the first followed by the pairs of the second, and an
    exception in the first ends the generator, so that nothing of the
    second is yielded. *)
Theorem input_loop_app self var_id inputs1 inputs2 :
  input_loop remove_meta_attr self var_id (inputs1 ++ inputs2)
  = match input_loop remove_meta_attr self var_id inputs1 with
    | (ys, Some e) => (ys, Some e)
    | (ys, None) =>
        ((ys ++ (input_loop remove_meta_attr self var_id inputs2).1),
         (input_loop remove_meta_attr self var_id inputs2).2)
    end.
Proof.
  induction inputs1 as [|input rest IH]; simpl.
  - by destruct (input_loop remove_meta_attr self var_id inputs2).
  - destruct (expand_args input) as [args|e]; [|done].
    destruct (product_loop remove_meta_attr self var_id 0 (ListProduct args))
      as [ys [e|]]; [done|].
    rewrite IH.
    destruct (input_loop remove_meta_attr self var_id rest) as [ys1 [e1|]];
      [done|].
    destruct (input_loop remove_meta_attr self var_id inputs2) as [ys2 e2].
    simpl. by rewrite app_assoc.
Qed.

End IteratorProperties.

(** ** Runs of the further properties on the reference runtime *)

(** Witness of X1: a second table, called with [offset_start = 4]. *)
Lemma generate_requests_offsets_witness :
  generate_requests (RT:=Reference.runtime) 2 3 10 4 f_zero false Reference.w0
    = (Ok ([0; 1; 2; 0; 1; 2], [7; 10], None),
       World (42 : Z) [Call_generate_requests 2 3 10 4 f_zero false]) ∧
  (4 = 0 →
   length [7; 10] = S (Z.to_nat 2) ∧
   ∀ j, (j ≤ Z.to_nat 2)%nat → [7; 10] !! j = Some (Z.of_nat j * 3)) ∧
  (4 ≠ 0 →
   length [7; 10] = Z.to_nat 2 ∧
   ∀ j, (j < Z.to_nat 2)%nat → [7; 10] !! j = Some (4 + (Z.of_nat j + 1) * 3)).
Proof.
  split; [run|].
  apply (generate_requests_offsets (RT:=Reference.runtime) 2 3 10 4 f_zero false
           Reference.w0 [0; 1; 2; 0; 1; 2] [7; 10] None
           (World (42 : Z) [Call_generate_requests 2 3 10 4 f_zero false])); run.
Defined.

(** Witness of X2: batch size -1. *)
Lemma generate_requests_negative_batch_witness :
  -1 < 0 ∧
  raised (generate_requests (RT:=Reference.runtime) (-1) 3 10 0 f_one false
            Reference.w0).1 = true.
Proof.
  split; [lia|].
  apply (generate_requests_negative_batch (RT:=Reference.runtime) (-1) 3 10 0
           f_one false Reference.w0); lia.
Defined.

(** Witness of X3: [alpha = 0.5]. *)
Lemma generate_requests_linear_draws_nothing_witness :
  float_leb f_half f_half = true ∧
  (generate_requests (RT:=Reference.runtime) 2 3 10 0 f_half false Reference.w0).2
  = World (w_rng Reference.w0)
          (w_log Reference.w0 ++ [Call_generate_requests 2 3 10 0 f_half false]).
Proof.
  split; [reflexivity|].
  apply (generate_requests_linear_draws_nothing (RT:=Reference.runtime) 2 3 10 0
           f_half Reference.w0); reflexivity.
Defined.

(** Witness of X4: tables of 10 and of 4 rows, weighted. *)
Lemma generate_requests_zero_ignores_table_size_witness :
  float_eqb f_zero f_zero = true ∧
  (generate_requests (RT:=Reference.runtime) 2 3 10 0 f_zero true Reference.w0).1
  = (generate_requests (RT:=Reference.runtime) 2 3 4 0 f_zero true Reference.w0).1 ∧
  w_rng (generate_requests (RT:=Reference.runtime) 2 3 10 0 f_zero true
           Reference.w0).2
  = w_rng (generate_requests (RT:=Reference.runtime) 2 3 4 0 f_zero true
             Reference.w0).2.
Proof.
  split; [reflexivity|].
  apply (generate_requests_zero_ignores_table_size (RT:=Reference.runtime) 2 3
           10 4 0 f_zero true Reference.w0); reflexivity.
Defined.

(** Witness of X5: uniform sampling of six indices from a table of size 0. *)
Lemma generate_requests_empty_table_witness :
  (float_eqb f_one f_zero = false ∧ 1 ≤ 2 * 3) ∧
  raised (generate_requests (RT:=Reference.runtime) 2 3 0 0 f_one true
            Reference.w0).1 = true.
Proof.
  split; [split; [reflexivity|lia]|].
  apply (generate_requests_empty_table (RT:=Reference.runtime) 2 3 0 f_one true
           Reference.w0); [reflexivity|lia].
Defined.

(** Witness of X6: the first five arguments of a one-table configuration. *)
Lemma get_data_short_config_witness :
  (length (take 5 (cfg_one 5 2 3 false)) < 6)%nat ∧
  ∃ e, get_data (RT:=Reference.runtime) ∅ ∅ (take 5 (cfg_one 5 2 3 false)) "cpu"
         Reference.w0 = (Raise e, Reference.w0).
Proof.
  split; [simpl; lia|].
  apply (get_data_short_config (RT:=Reference.runtime) ∅ ∅
           (take 5 (cfg_one 5 2 3 false)) "cpu" Reference.w0); simpl; lia.
Defined.

(** Witness of X8: [num_tables = 0]. *)
Lemma get_data_no_table_witness :
  (read_config (RT:=Reference.runtime) cfg_none
     = Ok (0, [VInt 5], [VInt 4], [VInt 3], VInt 2, VBool false) ∧
   device_ok (Runtime:=Reference.runtime) "cpu" = true ∧
   cfg_none !! 4%nat = Some (value_arg (VInt 3)) ∧
   sources_supplied ∅ (value_arg (VInt 3)) = false ∧ 0 ≤ 0) ∧
  get_data (RT:=Reference.runtime) ∅ ∅ cfg_none "cpu" Reference.w0 =
    (Raise (RuntimeError "torch.cat(): expected a non-empty list of Tensors"),
     Reference.w0).
Proof.
  split; [split_and!; [run|run|run|run|lia]|].
  apply (get_data_no_table (RT:=Reference.runtime) ∅ ∅ cfg_none "cpu"
           Reference.w0 0 [VInt 5] [VInt 4] [VInt 3] (VInt 2) (VBool false)
           (value_arg (VInt 3))); [run|run|run|run|lia].
Defined.

(** Witness of X9: two tables declared, weighted, the three files named in
    the environment; the four stored indices are returned. *)
Lemma get_data_override_returns_files_witness :
  (read_config (RT:=Reference.runtime) (cfg_two true)
     = Ok (2, [VInt 5; VInt 7], [VInt 4; VInt 4], [VInt 2; VInt 3], VInt 2,
           VBool true) ∧
   device_ok (Runtime:=Reference.runtime) "cpu" = true ∧
   cfg_two true !! 4%nat = Some (value_arg (VList [item 2; item 3])) ∧
   indices_source env_override (value_arg (VList [item 2; item 3]))
     = VStr "indices.pt" ∧
   saved_weighted_files !! "indices.pt" = Some (LongTensor [0; 1; 2; 3]) ∧
   offsets_source env_override (value_arg (VList [item 2; item 3]))
     = VStr "offsets.pt" ∧
   saved_weighted_files !! "offsets.pt" = Some (LongTensor [0; 2; 4]) ∧
   truthy (VBool true) = true ∧
   weights_source env_override (value_arg (VList [item 2; item 3]))
     = VStr "weights.pt" ∧
   "weights.pt" ≠ EmptyString ∧
   saved_weighted_files !! "weights.pt"
     = Some (FloatTensor [f_one; f_half; f_one; f_half])) ∧
  get_data (RT:=Reference.runtime) env_override saved_weighted_files
    (cfg_two true) "cpu" Reference.w0 =
    (Ok (LongTensor [0; 1; 2; 3], LongTensor [0; 2; 4],
         Some (FloatTensor [f_one; f_half; f_one; f_half])),
     World (w_rng Reference.w0)
       (w_log Reference.w0 ++
          [Load "indices.pt"; Load "offsets.pt"; Load "weights.pt"])).
Proof.
  split; [split_and!; try run; discriminate|].
  apply (proj2 (get_data_override_returns_files (RT:=Reference.runtime)
                  env_override saved_weighted_files (cfg_two true) "cpu"
                  Reference.w0 2 [VInt 5; VInt 7] [VInt 4; VInt 4]
                  [VInt 2; VInt 3] (VInt 2) (VBool true)
                  (value_arg (VList [item 2; item 3])) "indices.pt" "offsets.pt"
                  (LongTensor [0; 1; 2; 3]) (LongTensor [0; 2; 4])
                  ltac:(run) ltac:(run) ltac:(run) ltac:(run) ltac:(run)
                  ltac:(run) ltac:(run))
           eq_refl "weights.pt" (FloatTensor [f_one; f_half; f_one; f_half]));
    [run|discriminate|run].
Defined.

(** Witness of X10: the files are named in [config["args"][4]] and none is
    stored, then only the indices are. *)
Lemma get_data_override_missing_file_witness :
  (read_config (RT:=Reference.runtime) (cfg_override false)
     = Ok (1, [VInt 5], [VInt 4], [VInt 3], VInt 2, VBool false) ∧
   device_ok (Runtime:=Reference.runtime) "cpu" = true ∧
   cfg_override false !! 4%nat = Some override_arg ∧
   sources_supplied ∅ override_arg = true ∧
   indices_source ∅ override_arg = VStr "indices.pt") ∧
  ((∅ : gmap string tensor) !! "indices.pt" = None →
   get_data (RT:=Reference.runtime) ∅ ∅ (cfg_override false) "cpu" Reference.w0
   = (Raise (FileNotFoundError "indices.pt"), Reference.w0)) ∧
  (∀ ti po, (∅ : gmap string tensor) !! "indices.pt" = Some ti →
            offsets_source ∅ override_arg = VStr po →
            (∅ : gmap string tensor) !! po = None →
   get_data (RT:=Reference.runtime) ∅ ∅ (cfg_override false) "cpu" Reference.w0
   = (Raise (FileNotFoundError po),
      World (w_rng Reference.w0) (w_log Reference.w0 ++ [Load "indices.pt"]))).
Proof.
  split; [split_and!; run|].
  apply (get_data_override_missing_file (RT:=Reference.runtime) ∅ ∅
           (cfg_override false) "cpu" Reference.w0
           1 [VInt 5] [VInt 4] [VInt 3] (VInt 2) (VBool false) override_arg
           "indices.pt"); run.
Defined.

(** Witness of X12: the two-table configuration. *)
Lemma get_data_generation_calls_witness :
  (get_data (RT:=Reference.runtime) ∅ ∅ (cfg_two false) "cpu" Reference.w0 =
     (Ok (LongTensor [2; 4; 3; 1; 1; 0; 4; 4; 0; 6],
          LongTensor [0; 2; 4; 7; 10], None), two_tables_world) ∧
   read_config (RT:=Reference.runtime) (cfg_two false)
     = Ok (2, [VInt 5; VInt 7], [VInt 4; VInt 4], [VInt 2; VInt 3], VInt 2,
           VBool false) ∧
   cfg_two false !! 4%nat = Some (value_arg (VList [item 2; item 3])) ∧
   sources_supplied ∅ (value_arg (VList [item 2; item 3])) = false ∧
   as_int (VInt 2) = Ok 2 ∧
   py_float (RT:=Reference.runtime) (distribution_of ∅) = Ok f_one) ∧
  ∃ log,
    w_log two_tables_world = w_log Reference.w0 ++ log ∧
    Forall (λ e, is_call e = true ∨ is_draw e = true) log ∧
    length (calls_of log) = Z.to_nat 2 ∧
    ∀ i c, calls_of log !! i = Some c →
      ∃ pf r L E os,
        [VInt 2; VInt 3] !! i = Some pf ∧ as_int pf = Ok L ∧
        [VInt 5; VInt 7] !! i = Some r ∧ as_int r = Ok E ∧
        c = Call_generate_requests 2 L E os f_one (truthy (VBool false)).
Proof.
  split; [split_and!; run|].
  apply (get_data_generation_calls (RT:=Reference.runtime) ∅ ∅ (cfg_two false)
           "cpu" Reference.w0 (LongTensor [2; 4; 3; 1; 1; 0; 4; 4; 0; 6])
           (LongTensor [0; 2; 4; 7; 10]) None two_tables_world
           2 [VInt 5; VInt 7] [VInt 4; VInt 4] [VInt 2; VInt 3] (VInt 2)
           (VBool false) (value_arg (VList [item 2; item 3])) 2 f_one); run.
Defined.

(** Witness of X13: three tables declared, two pooling factors. *)
Lemma get_data_too_few_parameters_witness :
  (read_config (RT:=Reference.runtime) cfg_three_short
     = Ok (3, [VInt 5; VInt 7; VInt 9], [VInt 4; VInt 4; VInt 4],
           [VInt 2; VInt 3], VInt 2, VBool false) ∧
   cfg_three_short !! 4%nat = Some (value_arg (VList [item 2; item 3])) ∧
   sources_supplied ∅ (value_arg (VList [item 2; item 3])) = false ∧
   ((length [VInt 2; VInt 3] < Z.to_nat 3)%nat ∨
    (length [VInt 5; VInt 7; VInt 9] < Z.to_nat 3)%nat)) ∧
  raised (get_data (RT:=Reference.runtime) ∅ ∅ cfg_three_short "cpu"
            Reference.w0).1 = true.
Proof.
  assert ((length [VInt 2; VInt 3] < Z.to_nat 3)%nat ∨
          (length [VInt 5; VInt 7; VInt 9] < Z.to_nat 3)%nat) as Hshort
    by (left; simpl; lia).
  split; [split_and!; [run|run|run|exact Hshort]|].
  apply (get_data_too_few_parameters (RT:=Reference.runtime) ∅ ∅
           cfg_three_short "cpu" Reference.w0
           3 [VInt 5; VInt 7; VInt 9] [VInt 4; VInt 4; VInt 4]
           [VInt 2; VInt 3] (VInt 2) (VBool false)
           (value_arg (VList [item 2; item 3]))); [run|run|run|exact Hshort].
Defined.

(** Witness of X14: the variable set to a word. *)
Lemma get_data_bad_distribution_witness :
  (read_config (RT:=Reference.runtime) (cfg_two false)
     = Ok (2, [VInt 5; VInt 7], [VInt 4; VInt 4], [VInt 2; VInt 3], VInt 2,
           VBool false) ∧
   device_ok (Runtime:=Reference.runtime) "cpu" = true ∧
   cfg_two false !! 4%nat = Some (value_arg (VList [item 2; item 3])) ∧
   sources_supplied {[ "split_embedding_distribution" := "zipf" ]}
     (value_arg (VList [item 2; item 3])) = false ∧
   1 ≤ 2 ∧
   [VInt 2; VInt 3] !! 0%nat = Some (VInt 2) ∧
   [VInt 5; VInt 7] !! 0%nat = Some (VInt 5) ∧
   py_float (RT:=Reference.runtime)
     (distribution_of {[ "split_embedding_distribution" := "zipf" ]})
   = Raise (ValueError "could not convert string to float")) ∧
  get_data (RT:=Reference.runtime)
    {[ "split_embedding_distribution" := "zipf" ]} ∅ (cfg_two false) "cpu"
    Reference.w0
  = (Raise (ValueError "could not convert string to float"), Reference.w0).
Proof.
  split; [split_and!; try run; lia|].
  apply (get_data_bad_distribution (RT:=Reference.runtime)
           {[ "split_embedding_distribution" := "zipf" ]} ∅ (cfg_two false)
           "cpu" Reference.w0
           2 [VInt 5; VInt 7] [VInt 4; VInt 4] [VInt 2; VInt 3] (VInt 2)
           (VBool false) (value_arg (VList [item 2; item 3]))
           (VInt 2) (VInt 5)); try run; lia.
Defined.

(** Witness of X15: the two-table configuration, the variable not set. *)
Lemma get_data_default_distribution_witness :
  (get_data (RT:=Reference.runtime) ∅ ∅ (cfg_two false) "cpu" Reference.w0 =
     (Ok (LongTensor [2; 4; 3; 1; 1; 0; 4; 4; 0; 6],
          LongTensor [0; 2; 4; 7; 10], None), two_tables_world) ∧
   read_config (RT:=Reference.runtime) (cfg_two false)
     = Ok (2, [VInt 5; VInt 7], [VInt 4; VInt 4], [VInt 2; VInt 3], VInt 2,
           VBool false) ∧
   cfg_two false !! 4%nat = Some (value_arg (VList [item 2; item 3])) ∧
   sources_supplied ∅ (value_arg (VList [item 2; item 3])) = false ∧
   as_int (VInt 2) = Ok 2 ∧
   (∅ : gmap string string) !! "split_embedding_distribution" = None) ∧
  ∃ idxs,
    LongTensor [2; 4; 3; 1; 1; 0; 4; 4; 0; 6] = LongTensor (concat idxs) ∧
    length idxs = Z.to_nat 2 ∧
    ∀ i idx, idxs !! i = Some idx →
      ∃ pf L r E,
        [VInt 2; VInt 3] !! i = Some pf ∧ as_int pf = Ok L ∧
        [VInt 5; VInt 7] !! i = Some r ∧ as_int r = Ok E ∧
        length idx = Z.to_nat (2 * L) ∧
        (1 ≤ E → ∀ x, x ∈ idx → 0 ≤ x < E).
Proof.
  split; [split_and!; run|].
  apply (get_data_default_distribution (RT:=Reference.runtime) ∅ ∅
           (cfg_two false) "cpu" Reference.w0
           (LongTensor [2; 4; 3; 1; 1; 0; 4; 4; 0; 6])
           (LongTensor [0; 2; 4; 7; 10]) None two_tables_world
           2 [VInt 5; VInt 7] [VInt 4; VInt 4] [VInt 2; VInt 3] (VInt 2)
           (VBool false) (value_arg (VList [item 2; item 3])) 2); run.
Defined.

(** Witness of X16: two tables on [cuda:0], three sizes given. *)
Lemma build_embedding_specs_witness :
  (2 ≠ 1 ∧ compute_device_of "cuda:0" = Some CUDA ∧
   (Z.to_nat 2 ≤ length [VInt 5; VInt 7; VInt 9])%nat ∧
   (Z.to_nat 2 ≤ length [VInt 4; VInt 8])%nat) ∧
  build specs location location_of echo_codegen
    (Operator specs "cuda:0" None None None)
    (VInt 2) (VList [VInt 5; VInt 7; VInt 9]) (VList [VInt 4; VInt 8])
    (VInt 0) (VInt 0) (VBool false) (VStr "fp16") (VStr "sgd")
  = (Ok tt, Operator specs "cuda:0"
              (Some [(VInt 5, VInt 4, DEVICE, CUDA); (VInt 7, VInt 8, DEVICE, CUDA)])
              None None).
Proof.
  split; [split_and!; [lia|reflexivity|simpl; lia|simpl; lia]|].
  apply (build_embedding_specs location_of echo_codegen
           (Operator specs "cuda:0" None None None)
           2 [VInt 5; VInt 7; VInt 9] [VInt 4; VInt 8]
           (VInt 0) (VInt 0) (VBool false) (VStr "fp16") (VStr "sgd") CUDA);
    [lia|reflexivity|simpl; lia|simpl; lia].
Defined.

(** Witness of X17: one table, [rows] and [dims] integers. *)
Lemma build_single_table_witness :
  (equals_one (VInt 1) = true ∧ compute_device_of "cpu" = Some CPU) ∧
  build specs location location_of echo_codegen
    (Operator specs "cpu" None None None)
    (VInt 1) (VInt 5) (VInt 4) (VInt 3) (VInt 0) (VBool false) (VStr "fp16")
    (VStr "sgd")
  = (Ok tt, Operator specs "cpu" (Some [(VInt 5, VInt 4, HOST, CPU)]) None None).
Proof.
  split; [split; reflexivity|].
  apply (build_single_table location_of echo_codegen
           (Operator specs "cpu" None None None)
           (VInt 1) (VInt 5) (VInt 4) (VInt 3) (VInt 0) (VBool false)
           (VStr "fp16") (VStr "sgd") CPU); reflexivity.
Defined.

(** Witness of X18: three tables and two sizes, with a location that is not
    a member of the enumeration: the error of the conversion comes first. *)
Lemma build_too_few_tables_witness :
  (3 ≠ 1 ∧ is_Some (compute_device_of "cpu") ∧
   ((length [VInt 5; VInt 7] < Z.to_nat 3)%nat ∨
    (length [VInt 4; VInt 4; VInt 4] < Z.to_nat 3)%nat)) ∧
  build specs location location_of echo_codegen
    (Operator specs "cpu" None None None)
    (VInt 3) (VList [VInt 5; VInt 7]) (VList [VInt 4; VInt 4; VInt 4])
    (VInt 9) (VInt 0) (VBool false) (VStr "fp16") (VStr "sgd")
  = (Raise (ValueError "not a valid EmbeddingLocation"),
     Operator specs "cpu" None None None).
Proof.
  assert ((length [VInt 5; VInt 7] < Z.to_nat 3)%nat ∨
          (length [VInt 4; VInt 4; VInt 4] < Z.to_nat 3)%nat) as Hshort
    by (left; simpl; lia).
  assert (is_Some (compute_device_of "cpu")) as Hdev by (by exists CPU).
  split; [split_and!; [lia|exact Hdev|exact Hshort]|].
  apply (build_too_few_tables location_of echo_codegen
           (Operator specs "cpu" None None None)
           3 [VInt 5; VInt 7] [VInt 4; VInt 4; VInt 4]
           (VInt 9) (VInt 0) (VBool false) (VStr "fp16") (VStr "sgd"));
    [lia|exact Hdev|exact Hshort].
Defined.

(** Witness of X19: a device named [tpu]. *)
Lemma calls_after_failed_build_witness :
  build specs location location_of echo_codegen
    (init specs (Operator specs "tpu" None None None))
    (VInt 1) (VInt 5) (VInt 4) (VInt 0) (VInt 0) (VBool false) (VStr "fp16")
    (VStr "sgd")
  = (Raise (ValueError "Unknown compute device tpu"),
     Operator specs "tpu" None None None) ∧
  Operator specs "tpu" None None None = Operator specs "tpu" None None None ∧
  forward specs echo_forward (Operator specs "tpu" None None None)
    [Some (LongTensor [0; 1]); Some (LongTensor [0; 2]); None]
  = (Raise (AttributeError "'NoneType' object has no attribute 'forward'"),
     Operator specs "tpu" None None None) ∧
  create_grad (RT:=Reference.runtime) specs (Operator specs "tpu" None None None)
  = (Raise TypeError, Operator specs "tpu" None None None) ∧
  backward specs ok_backward (Operator specs "tpu" None None None)
  = (Raise (AttributeError "'NoneType' object has no attribute 'backward'"),
     Operator specs "tpu" None None None).
Proof.
  split; [reflexivity|].
  apply (calls_after_failed_build (RT:=Reference.runtime) location_of
           echo_codegen echo_forward ok_backward
           (Operator specs "tpu" None None None)
           (VInt 1) (VInt 5) (VInt 4) (VInt 0) (VInt 0) (VBool false)
           (VStr "fp16") (VStr "sgd") (ValueError "Unknown compute device tpu")
           (Operator specs "tpu" None None None)
           [Some (LongTensor [0; 1]); Some (LongTensor [0; 2]); None]);
    reflexivity.
Defined.

(** Witness of X20: a built operator on [cpu], an unweighted batch. *)
Lemma backward_of_forward_witness :
  (forward specs echo_forward
     (Operator specs "cpu" (Some [(VInt 5, VInt 4, DEVICE, CPU)]) None None)
     [Some (LongTensor [0; 1]); Some (LongTensor [0; 2]); None]
   = (Ok tt, Operator specs "cpu" (Some [(VInt 5, VInt 4, DEVICE, CPU)])
               (Some (LongTensor [0; 1])) None) ∧
   create_grad (RT:=Reference.runtime) specs
     (Operator specs "cpu" (Some [(VInt 5, VInt 4, DEVICE, CPU)])
        (Some (LongTensor [0; 1])) None)
   = (Ok tt, Operator specs "cpu" (Some [(VInt 5, VInt 4, DEVICE, CPU)])
               (Some (LongTensor [0; 1])) (Some (LongTensor [1; 1])))) ∧
  ∃ h a0 a1 a2 out,
    Some [(VInt 5, VInt 4, DEVICE, CPU)] = Some h ∧
    [Some (LongTensor [0; 1]); Some (LongTensor [0; 2]); None] !! 0%nat = Some a0 ∧
    [Some (LongTensor [0; 1]); Some (LongTensor [0; 2]); None] !! 1%nat = Some a1 ∧
    [Some (LongTensor [0; 1]); Some (LongTensor [0; 2]); None] !! 2%nat = Some a2 ∧
    echo_forward h a0 a1 a2 = Ok out ∧
    Operator specs "cpu" (Some [(VInt 5, VInt 4, DEVICE, CPU)])
      (Some (LongTensor [0; 1])) (Some (LongTensor [1; 1]))
    = Operator specs "cpu" (Some h) (Some out) (Some (ones_like out)) ∧
    numel (ones_like out) = numel out ∧
    backward specs ok_backward
      (Operator specs "cpu" (Some [(VInt 5, VInt 4, DEVICE, CPU)])
         (Some (LongTensor [0; 1])) (Some (LongTensor [1; 1])))
    = (ok_backward out (Some (ones_like out)),
       Operator specs "cpu" (Some [(VInt 5, VInt 4, DEVICE, CPU)])
         (Some (LongTensor [0; 1])) (Some (LongTensor [1; 1]))).
Proof.
  split; [split; reflexivity|].
  apply (backward_of_forward (RT:=Reference.runtime) echo_forward ok_backward
           (Operator specs "cpu" (Some [(VInt 5, VInt 4, DEVICE, CPU)]) None None)
           [Some (LongTensor [0; 1]); Some (LongTensor [0; 2]); None]
           (Operator specs "cpu" (Some [(VInt 5, VInt 4, DEVICE, CPU)])
              (Some (LongTensor [0; 1])) None)
           (Operator specs "cpu" (Some [(VInt 5, VInt 4, DEVICE, CPU)])
              (Some (LongTensor [0; 1])) (Some (LongTensor [1; 1]))));
    reflexivity.
Defined.

(** Witness of X21: a second [forward], on a batch of three indices, of an
    operator that holds a gradient of size two. *)
Lemma backward_without_create_grad_witness :
  forward specs echo_forward
    (Operator specs "cpu" (Some [(VInt 5, VInt 4, DEVICE, CPU)])
       (Some (LongTensor [0; 1])) (Some (LongTensor [1; 1])))
    [Some (LongTensor [0; 1; 2]); Some (LongTensor [0; 3]); None]
  = (Ok tt, Operator specs "cpu" (Some [(VInt 5, VInt 4, DEVICE, CPU)])
              (Some (LongTensor [0; 1; 2])) (Some (LongTensor [1; 1]))) ∧
  ∃ out,
    Some (LongTensor [0; 1; 2]) = Some out ∧
    backward specs ok_backward
      (Operator specs "cpu" (Some [(VInt 5, VInt 4, DEVICE, CPU)])
         (Some (LongTensor [0; 1; 2])) (Some (LongTensor [1; 1])))
    = (ok_backward out (Some (LongTensor [1; 1])),
       Operator specs "cpu" (Some [(VInt 5, VInt 4, DEVICE, CPU)])
         (Some (LongTensor [0; 1; 2])) (Some (LongTensor [1; 1]))).
Proof.
  split; [reflexivity|].
  apply (backward_without_create_grad echo_forward ok_backward
           (Operator specs "cpu" (Some [(VInt 5, VInt 4, DEVICE, CPU)])
              (Some (LongTensor [0; 1])) (Some (LongTensor [1; 1])))
           [Some (LongTensor [0; 1; 2]); Some (LongTensor [0; 3]); None]
           (Operator specs "cpu" (Some [(VInt 5, VInt 4, DEVICE, CPU)])
              (Some (LongTensor [0; 1; 2])) (Some (LongTensor [1; 1]))));
    reflexivity.
Defined.

(** Witness of X22: two configurations, started at [config_id = 3]. *)
Lemma product_loop_yields_witness :
  Forall (λ ac : list arg, (2 ≤ length ac)%nat)
    [[literal_axis 32; literal_axis 4]; [literal_axis 64; literal_axis 8]] ∧
  (product_loop id (iterator_over []) 0 3
     [[literal_axis 32; literal_axis 4]; [literal_axis 64; literal_axis 8]]).2
  = None ∧
  length (product_loop id (iterator_over []) 0 3
            [[literal_axis 32; literal_axis 4]; [literal_axis 64; literal_axis 8]]).1
  = length [[literal_axis 32; literal_axis 4]; [literal_axis 64; literal_axis 8]] ∧
  ∀ k ac,
    [[literal_axis 32; literal_axis 4]; [literal_axis 64; literal_axis 8]] !! k
    = Some ac →
    ∃ batch_size pooling_factor,
      ac !! 0%nat = Some batch_size ∧ ac !! 1%nat = Some pooling_factor ∧
      (product_loop id (iterator_over []) 0 3
         [[literal_axis 32; literal_axis 4]; [literal_axis 64; literal_axis 8]]).1
        !! k
      = Some (identifier 0 (3 + k),
              id [it_num_tables (iterator_over []); it_rows (iterator_over []);
                  it_dim (iterator_over []); batch_size; pooling_factor;
                  it_weighted (iterator_over []);
                  it_weights_precision (iterator_over [])]).
Proof.
  assert (Forall (λ ac : list arg, (2 ≤ length ac)%nat)
            [[literal_axis 32; literal_axis 4]; [literal_axis 64; literal_axis 8]])
    as Hall by (repeat (constructor; [simpl; lia|]); constructor).
  split; [exact Hall|].
  apply (product_loop_yields id (iterator_over []) 0 3
           [[literal_axis 32; literal_axis 4]; [literal_axis 64; literal_axis 8]]);
    exact Hall.
Defined.

(** Witness of X23: the second of three configurations has no pooling
    factor. *)
Lemma product_loop_short_configuration_witness :
  (Forall (λ ac : list arg, (2 ≤ length ac)%nat)
     [[literal_axis 32; literal_axis 4]] ∧
   (length [literal_axis 64] < 2)%nat) ∧
  (product_loop id (iterator_over []) 0 0
     ([[literal_axis 32; literal_axis 4]] ++
      [literal_axis 64] :: [[literal_axis 64; literal_axis 8]])).2
  = Some IndexError ∧
  (product_loop id (iterator_over []) 0 0
     ([[literal_axis 32; literal_axis 4]] ++
      [literal_axis 64] :: [[literal_axis 64; literal_axis 8]])).1
  = (product_loop id (iterator_over []) 0 0
       [[literal_axis 32; literal_axis 4]]).1.
Proof.
  assert (Forall (λ ac : list arg, (2 ≤ length ac)%nat)
            [[literal_axis 32; literal_axis 4]])
    as Hall by (repeat (constructor; [simpl; lia|]); constructor).
  split; [split; [exact Hall|simpl; lia]|].
  apply (product_loop_short_configuration id (iterator_over []) 0 0
           [[literal_axis 32; literal_axis 4]] [literal_axis 64]
           [[literal_axis 64; literal_axis 8]]); [exact Hall|simpl; lia].
Defined.

(** Witness of X24: the product of two batch sizes and two pooling factors,
    declared as one group. *)
Lemma _generator_one_group_distinct_witness :
  it_inputs (iterator_over [[list_axis [32; 64]; list_axis [4; 8]]])
  = [[list_axis [32; 64]; list_axis [4; 8]]] ∧
  NoDup (_generator id
           (iterator_over [[list_axis [32; 64]; list_axis [4; 8]]])).1.*1.
Proof.
  split; [reflexivity|].
  apply (_generator_one_group_distinct id
           (iterator_over [[list_axis [32; 64]; list_axis [4; 8]]])
           [list_axis [32; 64]; list_axis [4; 8]]); reflexivity.
Defined.

(** Witness of X26: the two-table configuration. *)
Lemma get_data_generation_returns_witness :
  (read_config (RT:=Reference.runtime) (cfg_two false)
     = Ok (2, [VInt 5; VInt 7], [VInt 4; VInt 4], [VInt 2; VInt 3], VInt 2,
           VBool false) ∧
   device_ok (Runtime:=Reference.runtime) "cpu" = true ∧
   cfg_two false !! 4%nat = Some (value_arg (VList [item 2; item 3])) ∧
   sources_supplied ∅ (value_arg (VList [item 2; item 3])) = false ∧
   1 ≤ 2 ∧ as_int (VInt 2) = Ok 2 ∧
   py_float (RT:=Reference.runtime) (distribution_of ∅) = Ok f_one ∧
   (float_leb f_one f_one = true ∨ float_ltb f_one f_one = true) ∧
   (∀ i, (i < Z.to_nat 2)%nat →
      ∃ pf L r E, [VInt 2; VInt 3] !! i = Some pf ∧ as_int pf = Ok L ∧ 1 ≤ L ∧
                  [VInt 5; VInt 7] !! i = Some r ∧ as_int r = Ok E ∧ 1 ≤ E)) ∧
  ∃ batch w',
    get_data (RT:=Reference.runtime) ∅ ∅ (cfg_two false) "cpu" Reference.w0
    = (Ok batch, w').
Proof.
  assert (∀ i, (i < Z.to_nat 2)%nat →
            ∃ pf L r E, [VInt 2; VInt 3] !! i = Some pf ∧ as_int pf = Ok L ∧
                        1 ≤ L ∧
                        [VInt 5; VInt 7] !! i = Some r ∧ as_int r = Ok E ∧ 1 ≤ E)
    as Htables.
  { intros [|[|i]] Hi; [| |simpl in Hi; lia].
    - exists (VInt 2), 2, (VInt 5), 5. split_and!; try reflexivity; lia.
    - exists (VInt 3), 3, (VInt 7), 7. split_and!; try reflexivity; lia. }
  split; [split_and!; try run; try lia; [by left|exact Htables]|].
  apply (get_data_generation_returns (RT:=Reference.runtime) ∅ ∅ (cfg_two false)
           "cpu" Reference.w0
           2 [VInt 5; VInt 7] [VInt 4; VInt 4] [VInt 2; VInt 3] (VInt 2)
           (VBool false) (value_arg (VList [item 2; item 3])) 2 f_one);
    [run|run|run|run|lia|run|lia|run|by left|exact Htables].
Defined.

(** Witness of X27: [alpha = -1]. *)
Lemma generate_requests_negative_alpha_witness :
  (1 ≤ 2 ∧ 1 ≤ 3 ∧ 1 ≤ 4 ∧ float_ltb (FFin (-1)) f_zero = true) ∧
  ∃ indices offsets weights w',
    generate_requests (RT:=Reference.runtime) 2 3 4 0 (FFin (-1)) false
      Reference.w0
      = (Ok (indices, offsets, weights), w') ∧
    indices = linear (2 * 3) 4.
Proof.
  split; [split_and!; try lia; reflexivity|].
  apply (generate_requests_negative_alpha (RT:=Reference.runtime) 2 3 4 0
           (FFin (-1)) false Reference.w0); try lia; reflexivity.
Defined.
